(** * Hummingbird object server: replicated-object engine, stabilization
      and replication planning

    A shallow embedding of [objectserver/repobj.go], [objectserver/repobjeng.go]
    and of the erasure-code engine's [New], [GetObjectsToReplicate],
    [getObjectsToStabilize], its cache of items being stabilized and the
    handlers it serves to its peers, together with the properties the design
    document states about them and further properties of the code.

    Conventions.
    - Go integers are [Z]; the code under study never relies on wrap-around.
    - A Go [map[string]string] is a [gmap string string]; reading a missing
      key yields the empty string, as [m[k]] does in Go.
    - A Go [error] is a value of the enumeration [error]; [None] is [nil].
    - The ring, the HTTP client, the file system and the JSON/date codecs
      are collaborators living outside the files above; they are gathered
      in the record [World] and every function reads them from there.
    - [http.NewRequest] is called with a constant method and a URL printed
      from a ring device; the model takes such requests to be well formed,
      so its error result is not represented.
    - A producer that sends objects on a channel is the list of the objects
      it sends, in order, when the consumer never cancels; goroutines that
      only add to an atomic counter and are waited for are run in the order
      they are started.
    - An HTTP handler is a function of the variables of its route and of the
      headers of the request to the status code it answers with; log lines
      and metric counters are not represented. *)

From Stdlib Require Import ZArith String Ascii List Bool Lia Permutation Sorted.
From Stdlib Require Import OrderedTypeEx.
From stdpp Require Import gmap strings list fin_maps sorting pretty.

Local Open Scope string_scope.

(** ** Data model *)

(** Modelled from the spec: one row of the index database ([IndexDBItem]).
    The declaration lives outside the files under study; section 3 lists the
    fields, which are the ones those files read. *)
Record IndexDBItem := {
  Hash : string;
  Shard : Z;
  Timestamp : Z;
  Deletion : bool;
  Metahash : string;
  Nursery : bool;
  Metabytes : string;
  Path : string;
  Restabilize : bool
}.

(** [m[k]] on a Go map: the zero value when the key is absent. *)
Definition at_key (m : gmap string string) (k : string) : string :=
  default EmptyString (m !! k).

(** [roShard]: replicated objects always live in shard 0. *)
Definition roShard : Z := 0.

(** Errors returned by the functions below, one constructor per
    [errors.New] / [fmt.Errorf] site or collaborator failure. *)
Inductive error :=
| ErrNoTimestamp                       (* "no timestamp in metadata" *)
| ErrParseDate                         (* common.ParseDate failed *)
| ErrJustSendDeletions                 (* "you just send deletions" *)
| ErrRing                              (* ring.PartitionForHash failed *)
| ErrStabilizeDelete (successes want : Z)
                                       (* "could not stabilize DELETE to all primaries" *)
| ErrRestabilize (successes total : Z) (* "could not restabilize all primaries" *)
| ErrCouldNotStabilize (fixed : Z)     (* "could not stabilize: fixed %d nodes" *)
| ErrOpen (path : string)              (* os.Open / os.Stat failed *)
| ErrSync (hash : string)              (* "error syncing obj" *)
| ErrBadStatus (code : Z)              (* "bad status code %d syncing obj" *)
| ErrParseMetadata                     (* "Error parsing metadata" *)
| ErrParseContentLength (raw : string) (* "Unable to parse content-length" *)
| ErrSizeMismatch (size len : Z)       (* "File size doesn't match content-length" *)
| ErrShardSizeMismatch (size len : Z)  (* "Shard size doesn't align with content-length" *)
| ErrOpenDatabase                      (* getDB failed *)
| ErrDatabase                          (* the index database is unreachable *)
| ErrConflict.                         (* stale timestamp *)

Definition error_eq_dec (a b : error) : {a = b} + {a <> b}.
Proof. repeat decide equality. Defined.

(** A device of the ring ([ring.Device], declared in the ring package), with
    the fields the code reads; the Go field [Device] (the drive name) is
    called [Dev] here, the record already bearing that name. *)
Record Device := {
  Id : Z;
  Scheme : string;
  Ip : string;
  Port : Z;
  ReplicationIp : string;
  ReplicationPort : Z;
  Dev : string;
  Region : Z
}.

(** The interface [ring.Ring], as the table of the methods the code calls. *)
Record Ring := {
  PartitionForHash : string -> option Z;   (* [None]: the error result *)
  GetNodes : Z -> list Device;
  ReplicaCount : Z;
  GetJobNodes : Z -> Z -> list Device * bool
}.

(** Modelled from the spec: [PriorityRepJob], declared with the planner;
    section 3 gives its fields. *)
Record PriorityRepJob := {
  Partition : Z;
  FromDevice : Device;
  ToDevice : Device;
  Policy : Z
}.

(** The temporary file behind an [fs.AtomicFileWriter]. *)
Record AtomicFileWriter := { tmpHash : string; tmpSize : Z }.

(** Library functions the code calls: JSON and date codecs, the metadata
    digest, the on-disk layout and the erasure-code shard length. *)
Record Codec := {
  Marshal : gmap string string -> string;
  Unmarshal : string -> option (gmap string string);
  (** what [json.Unmarshal] leaves in a [[]*IndexDBItem]; its error is only
      logged by the callers *)
  UnmarshalItems : string -> list IndexDBItem;
  MetadataHash : gmap string string -> string;
  (** [common.ParseDate] followed by [UnixNano]. *)
  ParseDate : string -> option Z;
  (** [IndexDB.WholeObjectPath(hash, shard, timestamp, nursery)]. *)
  WholeObjectPath : string -> Z -> Z -> bool -> option string;
  (** [ObjHash(vars, prefix, suffix)]. *)
  ObjHash : gmap string string -> string;
  ecShardLength : Z -> Z -> Z;
  (** [IndexDB.RingPartRange(partition)]: the hash bounds of a partition. *)
  RingPartRange : Z -> string * string;
  (** whether a tombstone is past its retention *)
  Expired : IndexDBItem -> bool
}.

(** [shardAny], the shard argument of a lookup that accepts any shard; the
    constant is declared outside the files under study. *)
Definition shardAny : Z := (-1)%Z.

(** ** The index database *)

Module IndexDB.

(** Modelled from the spec: the index database itself ([indexdb.go]) is not
    among the files under study.  Section 3 keys a row by [(Hash, Shard)];
    section 4.1 gives the contracts of the operations and says that an
    unreachable database fails the operation without changing anything. *)
Record t := {
  rows : gmap (string * Z) IndexDBItem;
  reachable : bool
}.

(** Modelled from the spec: a mutation replaces the rows and nothing else. *)
Definition with_rows (db : t) (r : gmap (string * Z) IndexDBItem) : t :=
  {| rows := r; reachable := reachable db |}.

(** Modelled from the spec: the row a successful commit installs; a DELETE
    leaves a tombstone without bytes, the other methods a row at the object's
    location. *)
Definition installed (C : Codec) (hash : string) (shard timestamp : Z)
    (method : string) (metadata : gmap string string) (nursery : bool)
  : IndexDBItem :=
  {| Hash := hash; Shard := shard; Timestamp := timestamp;
     Deletion := String.eqb method "DELETE";
     Metahash := MetadataHash C metadata;
     Nursery := nursery;
     Metabytes := Marshal C metadata;
     Path := if String.eqb method "DELETE" then EmptyString
             else default EmptyString (WholeObjectPath C hash shard timestamp nursery);
     Restabilize := false |}.

(** Modelled from the spec: [commit(tempFile, hash, shard, timestamp, method,
    metadata, nursery)] atomically installs bytes (or none, for delete) and
    metadata; it rejects (conflict, no mutation) if the stored timestamp for
    that key is >= the incoming one.  The last argument of the Go call (a
    shard digest, empty for replicated objects) is carried along. *)
Definition Commit (C : Codec) (db : t) (f : option AtomicFileWriter)
    (hash : string) (shard timestamp : Z) (method : string)
    (metadata : gmap string string) (nursery : bool) (shardhash : string)
  : t * option error :=
  if negb (reachable db) then (db, Some ErrDatabase)
  else
    let install :=
      (with_rows db (<[(hash, shard) :=
          installed C hash shard timestamp method metadata nursery]> (rows db)),
       None) in
    match rows db !! (hash, shard) with
    | Some it =>
        if (timestamp <=? Timestamp it)%Z then (db, Some ErrConflict)
        else install
    | None => install
    end.

(** Modelled from the spec: [remove(hash, shard, timestamp, nursery,
    metahash)] is an optimistic delete: it removes the row only if it still
    matches what the caller saw, and returns the number of rows removed
    (0 when the row is already gone). *)
Definition Remove (db : t) (hash : string) (shard timestamp : Z)
    (nursery : bool) (metahash : string) : t * (Z * option error) :=
  if negb (reachable db) then (db, (0%Z, Some ErrDatabase))
  else match rows db !! (hash, shard) with
       | Some it =>
           if (Timestamp it =? timestamp)%Z && Bool.eqb (Nursery it) nursery
              && String.eqb (Metahash it) metahash
           then (with_rows db (delete (hash, shard) (rows db)), (1%Z, None))
           else (db, (0%Z, None))
       | None => (db, (0%Z, None))
       end.

(** Modelled from the spec: a row out of the nursery, its re-verification
    done. *)
Definition stabilized (it : IndexDBItem) : IndexDBItem :=
  {| Hash := Hash it; Shard := Shard it; Timestamp := Timestamp it;
     Deletion := Deletion it; Metahash := Metahash it; Nursery := false;
     Metabytes := Metabytes it; Path := Path it; Restabilize := false |}.

(** Modelled from the spec: [setStabilized(hash, shard, timestamp, nursery)]
    transactionally flips the nursery flag of the row with that key and
    timestamp; section 4.2 describes the effect, on both paths that call
    it, as clearing the flag.  The fourth argument is [true] on the
    promotion path and [false] on the restabilize path; the spec gives it
    no further meaning and the model only carries it. *)
Definition SetStabilized (db : t) (hash : string) (shard timestamp : Z)
    (nursery : bool) : t * option error :=
  if negb (reachable db) then (db, Some ErrDatabase)
  else match rows db !! (hash, shard) with
       | Some it =>
           if (Timestamp it =? timestamp)%Z
           then (with_rows db (<[(hash, shard) := stabilized it]> (rows db)), None)
           else (db, None)
       | None => (db, None)
       end.

(** Modelled from the spec: the table is kept in the lexicographic order of
    the hashes (section 3); rows of one hash are taken by shard.  Go compares
    strings byte by byte, which is [String.compare]. *)
Definition item_leb (a b : IndexDBItem) : bool :=
  match String.compare (Hash a) (Hash b) with
  | Lt => true
  | Eq => (Shard a <=? Shard b)%Z
  | Gt => false
  end.

(** Modelled from the spec: the same order, as a relation. *)
Definition item_le (a b : IndexDBItem) : Prop := item_leb a b = true.

#[global] Instance item_le_dec : RelDecision item_le.
Proof. intros a b. unfold item_le. apply _. Defined.

(** Modelled from the spec: the rows in the order of the table. *)
Definition sorted_rows (db : t) : list IndexDBItem :=
  merge_sort item_le (snd <$> map_to_list (rows db)).

(** Modelled from the spec: the row a lookup finds, the one of that shard,
    or with [shardAny] the first one of that hash. *)
Definition find_row (db : t) (hash : string) (shard : Z) : option IndexDBItem :=
  if (shard =? shardAny)%Z
  then head (List.filter (fun it => String.eqb (Hash it) hash) (sorted_rows db))
  else rows db !! (hash, shard).

(** Modelled from the spec: [lookup(hash, shard, includeDeleted)] returns
    the item or not-found; tombstones are hidden unless requested. *)
Definition Lookup (db : t) (hash : string) (shard : Z) (includeDeleted : bool)
  : option IndexDBItem * option error :=
  if negb (reachable db) then (None, Some ErrDatabase)
  else match find_row db hash shard with
       | Some it =>
           if Deletion it && negb includeDeleted then (None, None)
           else (Some it, None)
       | None => (None, None)
       end.

(** Modelled from the spec: [list(start, stop, marker, limit)] is the
    ordered, restartable sequence of the items whose hash lies in
    [[start, stop)], after [marker], at most [limit] of them when [limit]
    is positive. *)
Definition List (db : t) (start stop marker : string) (limit : Z)
  : list IndexDBItem * option error :=
  if negb (reachable db) then ([], Some ErrDatabase)
  else
    let inrange :=
      List.filter (fun it => String.leb start (Hash it)
                             && String.ltb (Hash it) stop
                             && String.ltb marker (Hash it))
                  (sorted_rows db) in
    (if (0 <? limit)%Z then take (Z.to_nat limit) inrange else inrange, None).

(** Modelled from the spec: [listObjectsToStabilize()] returns the nursery
    items eligible for promotion. *)
Definition ListObjectsToStabilize (db : t) : list IndexDBItem * option error :=
  if negb (reachable db) then ([], Some ErrDatabase)
  else (List.filter Nursery (sorted_rows db), None).

(** Modelled from the spec: [expireObjects()] purges tombstones past
    retention. *)
Definition ExpireObjects (C : Codec) (db : t) : t :=
  if negb (reachable db) then db
  else with_rows db
         (filter (fun kv => ~ (Deletion (snd kv) && Expired C (snd kv))) (rows db)).

End IndexDB.

(** ** HTTP

    A request is its method, the URL it is sent to and the [X-Timestamp]
    header when the code sets one.  The other headers the code sets (policy
    index, user agent, transaction id, [Meta-*]) never influence the control
    flow of the sender and are left out. *)
Inductive URL :=
| ObjectURL (node : Device) (partition : Z) (name : string)
    (* Scheme://Ip:Port/Device/partition/urlencode(name) *)
| RepObjURL (node : Device) (replication : bool) (hash : string)
    (* Scheme://host:port/rep-obj/Device/hash, [replication] selecting
       ReplicationIp:ReplicationPort over Ip:Port *)
| PartitionURL (route : string) (node : Device) (partition : Z).
    (* Scheme://Ip:Port/route/Device/partition, the route being
       rep-partition or ec-partition *)

Record Request := {
  Method : string;
  Url : URL;
  XTimestamp : option string
}.

Record Response := {
  StatusCode : Z;
  Header : gmap string string;
  Body : option string      (* [None]: reading the body fails *)
}.

(** [resp.Header.Get(k)]: empty when the header is absent. *)
Definition Header_Get (r : Response) (k : string) : string := at_key (Header r) k.

(** [resp.StatusCode/100 == 2]; Go's integer division truncates. *)
Definition is2xx (r : Response) : bool := (Z.quot (StatusCode r) 100 =? 2)%Z.

(** ** Collaborators *)

Record World := {
  ring : Ring;
  codec : Codec;
  (** [client.Do]: [None] is a transport error. *)
  Do : Request -> option Response;
  (** [os.Stat(path).Size()]; [None] when the file cannot be opened. *)
  FileSize : string -> option Z;
  (** [NewIndexDB] for a device name; [None] when it cannot be opened. *)
  NewIndexDB : string -> option IndexDB.t;
  (** the values the global random source yields, in the order it is asked *)
  rand : nat -> Z;
  (** the clock, in nanoseconds *)
  Now : Z;
  maxStableObjectCacheSize : Z
}.

(** ** [strconv.ParseInt(s, 10, 64)] *)

Definition digit_of (c : ascii) : option Z :=
  let n := Z.of_N (N_of_ascii c) in
  if (48 <=? n)%Z && (n <=? 57)%Z then Some (n - 48)%Z else None.

Fixpoint parse_digits (s : string) (acc : Z) : option Z :=
  match s with
  | EmptyString => Some acc
  | String c s' =>
      match digit_of c with
      | Some d => parse_digits s' (acc * 10 + d)%Z
      | None => None
      end
  end.

(** An optional sign, then at least one decimal digit, the value within the
    range of a signed 64-bit integer; [None] is the error result. *)
Definition ParseInt (s : string) : option Z :=
  let '(neg, ds) :=
    match s with
    | String "+" s' => (false, s')
    | String "-" s' => (true, s')
    | _ => (false, s)
    end in
  match ds with
  | EmptyString => None
  | _ =>
      match parse_digits ds 0 with
      | Some v =>
          let v := (if neg then - v else v)%Z in
          if (- 2 ^ 63 <=? v)%Z && (v <=? 2 ^ 63 - 1)%Z then Some v else None
      | None => None
      end
  end.

(** ** Effects of the methods of an object

    A method of an object reads and writes the index database its [idb]
    field points to and talks to peers.  The state threaded through a call is
    that database and the chronological trace of what the call did. *)
Inductive Event :=
| EvHTTP (req : Request)            (* a request handed to [client.Do] *)
| EvReplicate (job : PriorityRepJob) (* an invocation of [Replicate] *)
| EvQuarantine (it : IndexDBItem)   (* [QuarantineItem(idb, item)] *)
| EvExpire                          (* [idb.ExpireObjects()] *)
| EvCommit (hash : string) (shard timestamp : Z) (method : string) (nursery : bool)
                                    (* [idb.Commit(...)] *)
| EvRemove (hash : string) (shard timestamp : Z) (nursery : bool) (metahash : string)
                                    (* [idb.Remove(...)] *)
| EvSetStabilized (hash : string) (shard timestamp : Z) (flag : bool).
                                    (* [idb.SetStabilized(...)] *)

Record State := {
  idb : IndexDB.t;
  trace : list Event
}.

Definition M (A : Type) : Type := State -> A * State.

#[global] Instance M_ret : MRet M := fun A a s => (a, s).
#[global] Instance M_bind : MBind M :=
  fun A B f m s => let '(a, s') := m s in f a s'.

Definition emit (e : Event) : M unit :=
  fun s => (tt, {| idb := idb s; trace := trace s ++ [e] |}).

(** A call of a mutating operation of the index database: the call is
    recorded and the database replaced by what the operation returns. *)
Definition on_idb {A} (call : Event) (op : IndexDB.t -> IndexDB.t * A) : M A :=
  fun s => let '(db, a) := op (idb s) in
           (a, {| idb := db; trace := trace s ++ [call] |}).

Section Object.

Context (W : World).

(** [ro.client.Do(req)] *)
Definition client_Do (req : Request) : M (option Response) :=
  emit (EvHTTP req) ;; mret (Do W req).

(** ** repObject (repobj.go) *)

(** The fields of the Go struct that only tag requests or tune allocation
    ([txnId], [reserve], [asyncWG], [loaded]) are not represented; [idb],
    [ring] and [client] are the state and the world. *)
Record repObject := {
  item :> IndexDBItem;            (* the embedded [IndexDBItem] *)
  policy : Z;
  atomicFileWriter : option AtomicFileWriter;
  metadata : gmap string string
}.

Definition Metadata (ro : repObject) : gmap string string := metadata ro.

(** [ContentLength]: -1 when the header does not parse. *)
Definition ContentLength (ro : repObject) : Z :=
  match ParseInt (at_key (metadata ro) "Content-Length") with
  | Some contentLength => contentLength
  | None => (-1)%Z
  end.

(** [Quarantine] hands the row to [QuarantineItem], which is defined outside
    the files under study; the call is recorded. *)
Definition Quarantine (ro : repObject) : M (option error) :=
  emit (EvQuarantine ro) ;; mret None.

Definition Exists (ro : repObject) : bool :=
  if Deletion ro then false else negb (String.eqb (Path ro) EmptyString).

Definition Uuid (ro : repObject) : string := Hash ro.

Definition MetadataMd5 (ro : repObject) : string := Metahash ro.

Definition set_writer (ro : repObject) (f : option AtomicFileWriter) : repObject :=
  {| item := item ro; policy := policy ro; atomicFileWriter := f;
     metadata := metadata ro |}.

(** [commit]: the object is returned along with the error because the
    method resets [ro.atomicFileWriter]. *)
Definition commit (ro : repObject) (metadata : gmap string string)
    (method : string) (nursery : bool) : M (repObject * option error) :=
  match metadata !! "X-Timestamp" with
  | None => mret (ro, Some ErrNoTimestamp)
  | Some timestampStr =>
      match ParseDate (codec W) timestampStr with
      | None => mret (ro, Some ErrParseDate)
      | Some timestamp =>
          err ← on_idb (EvCommit (Hash ro) roShard timestamp method nursery)
                   (fun db =>
                      IndexDB.Commit (codec W) db (atomicFileWriter ro) (Hash ro)
                        roShard timestamp method metadata nursery EmptyString);
          mret (set_writer ro None, err)
      end
  end.

Definition Commit (ro : repObject) (metadata : gmap string string) :=
  commit ro metadata "PUT" true.

Definition Delete (ro : repObject) (metadata : gmap string string) :=
  commit ro metadata "DELETE" true.

Definition CommitMetadata (ro : repObject) (metadata : gmap string string) :=
  commit ro metadata "POST" (Nursery ro).

Definition Close (ro : repObject) : repObject * option error :=
  (set_writer ro None, None).

(** [node.Ip == dev.Ip && node.Port == dev.Port && node.Device == dev.Device] *)
Definition sameDevice (node dev : Device) : bool :=
  String.eqb (Ip node) (Ip dev) && (Port node =? Port dev)%Z
  && String.eqb (Dev node) (Dev dev).

Definition headRequest (ro : repObject) (partition : Z) (node : Device) : Request :=
  {| Method := "HEAD";
     Url := ObjectURL node partition (at_key (metadata ro) "name");
     XTimestamp := None |}.

(** The test [isStable] applies to the answer of a peer:
    [err == nil && resp.StatusCode/100 == 2 && X-Timestamp is not empty &&
     X-Timestamp == ro.metadata["X-Timestamp"]]. *)
Definition agrees (ro : repObject) (resp : option Response) : bool :=
  match resp with
  | Some r =>
      is2xx r
      && negb (String.eqb (Header_Get r "X-Timestamp") EmptyString)
      && String.eqb (Header_Get r "X-Timestamp") (at_key (metadata ro) "X-Timestamp")
  | None => false
  end.

(** The loop of [isStable] over the primaries of the partition. *)
Fixpoint isStable_nodes (ro : repObject) (dev : Device) (partition : Z)
    (nodes : list Device) (goodNodes : Z) (notFoundNodes : list Device)
  : M (Z * list Device) :=
  match nodes with
  | [] => mret (goodNodes, notFoundNodes)
  | node :: nodes' =>
      if sameDevice node dev
      then isStable_nodes ro dev partition nodes' (goodNodes + 1)%Z notFoundNodes
      else
        resp ← client_Do (headRequest ro partition node);
        if agrees ro resp
        then isStable_nodes ro dev partition nodes' (goodNodes + 1)%Z notFoundNodes
        else isStable_nodes ro dev partition nodes' goodNodes (notFoundNodes ++ [node])
  end.

Definition isStable (ro : repObject) (dev : Device)
  : M (bool * list Device * option error) :=
  if Deletion ro then mret (false, [], Some ErrJustSendDeletions)
  else
    match PartitionForHash (ring W) (Hash ro) with
    | None => mret (false, [], Some ErrRing)
    | Some partition =>
        '(goodNodes, notFoundNodes) ←
          isStable_nodes ro dev partition (GetNodes (ring W) partition) 0%Z [];
        mret ((goodNodes =? ReplicaCount (ring W))%Z, notFoundNodes, None)
    end.

Definition deleteRequest (ro : repObject) (node : Device) : Request :=
  {| Method := "DELETE";
     Url := RepObjURL node true (Hash ro);
     XTimestamp := Some (at_key (metadata ro) "X-Timestamp") |}.

(** [resp.StatusCode/100 == 2 || resp.StatusCode == 409 || resp.StatusCode == 404] *)
Definition deleteAck (resp : option Response) : bool :=
  match resp with
  | Some r => is2xx r || (StatusCode r =? 409)%Z || (StatusCode r =? 404)%Z
  | None => false
  end.

(** The loop of [stabilizeDelete].  The Go code sends the requests from one
    goroutine each, counts the acknowledgements in an atomic counter and
    waits for all of them; a peer's answer depends on its request only, so
    the count does not depend on the interleaving.  The trace lists the
    requests in the order the goroutines are started. *)
Fixpoint stabilizeDelete_nodes (ro : repObject) (dev : Device)
    (nodes : list Device) (successes : Z) : M Z :=
  match nodes with
  | [] => mret successes
  | node :: nodes' =>
      if sameDevice node dev then stabilizeDelete_nodes ro dev nodes' successes
      else
        resp ← client_Do (deleteRequest ro node);
        stabilizeDelete_nodes ro dev nodes'
          (if deleteAck resp then successes + 1 else successes)%Z
  end.

Definition stabilizeDelete (ro : repObject) (dev : Device) : M (option error) :=
  match PartitionForHash (ring W) (Hash ro) with
  | None => mret (Some ErrRing)
  | Some partition =>
      let nodes := GetNodes (ring W) partition in
      successes ← stabilizeDelete_nodes ro dev nodes 0%Z;
      if negb (successes + 1 =? Z.of_nat (length nodes))%Z
      then mret (Some (ErrStabilizeDelete successes (Z.of_nat (length nodes) - 1)))
      else
        '(_, err) ← on_idb (EvRemove (Hash ro) (Shard ro) (Timestamp ro) (Nursery ro)
              (Metahash ro))
            (fun db =>
               IndexDB.Remove db (Hash ro) (Shard ro) (Timestamp ro) (Nursery ro)
                 (Metahash ro));
        mret err
  end.

Definition postRequest (ro : repObject) (node : Device) : Request :=
  {| Method := "POST";
     Url := RepObjURL node true (Hash ro);
     XTimestamp := Some (at_key (metadata ro) "X-Timestamp") |}.

(** [resp.StatusCode/100 == 2 || resp.StatusCode == http.StatusConflict] *)
Definition postAck (resp : option Response) : bool :=
  match resp with
  | Some r => is2xx r || (StatusCode r =? 409)%Z
  | None => false
  end.

Fixpoint restabilize_nodes (ro : repObject) (dev : Device)
    (nodes : list Device) (successes : Z) : M Z :=
  match nodes with
  | [] => mret successes
  | node :: nodes' =>
      if sameDevice node dev then restabilize_nodes ro dev nodes' successes
      else
        resp ← client_Do (postRequest ro node);
        restabilize_nodes ro dev nodes'
          (if postAck resp then successes + 1 else successes)%Z
  end.

Definition restabilize (ro : repObject) (dev : Device) : M (option error) :=
  match PartitionForHash (ring W) (Hash ro) with
  | None => mret (Some ErrRing)
  | Some partition =>
      let nodes := GetNodes (ring W) partition in
      successes ← restabilize_nodes ro dev nodes 0%Z;
      if negb (successes =? Z.of_nat (length nodes) - 1)%Z
      then mret (Some (ErrRestabilize successes (Z.of_nat (length nodes))))
      else on_idb (EvSetStabilized (Hash ro) (Shard ro) (Timestamp ro) false)
             (fun db =>
                IndexDB.SetStabilized db (Hash ro) (Shard ro) (Timestamp ro) false)
  end.

Definition putRequest (ro : repObject) (prirep : PriorityRepJob) : Request :=
  {| Method := "PUT";
     Url := RepObjURL (ToDevice prirep) false (Hash ro);
     XTimestamp := Some (at_key (metadata ro) "X-Timestamp") |}.

(** [Replicate]; every invocation is recorded in the trace. *)
Definition Replicate (ro : repObject) (prirep : PriorityRepJob) : M (option error) :=
  emit (EvReplicate prirep) ;;
  let isHandoff :=
    snd (GetJobNodes (ring W) (Partition prirep) (Id (FromDevice prirep))) in
  match FileSize W (Path ro) with
  | None => mret (Some (ErrOpen (Path ro)))
  | Some _ =>
      resp ← client_Do (putRequest ro prirep);
      match resp with
      | None => mret (Some (ErrSync (Hash ro)))
      | Some r =>
          if negb (is2xx r || (StatusCode r =? 409)%Z)
          then mret (Some (ErrBadStatus (StatusCode r)))
          else if isHandoff then
            '(_, err) ← on_idb (EvRemove (Hash ro) (Shard ro) (Timestamp ro) (Nursery ro)
                  (Metahash ro))
                (fun db =>
                   IndexDB.Remove db (Hash ro) (Shard ro) (Timestamp ro) (Nursery ro)
                     (Metahash ro));
            mret err
          else mret None
      end
  end.

(** The loop of [Stabilize] over [notFoundNodes]. *)
Fixpoint replicate_nodes (ro : repObject) (dev : Device) (partition : Z)
    (notFoundNodes : list Device) (errs : list error) : M (list error) :=
  match notFoundNodes with
  | [] => mret errs
  | notFoundNode :: rest =>
      err ← Replicate ro {| Partition := partition; FromDevice := dev;
                            ToDevice := notFoundNode; Policy := policy ro |};
      replicate_nodes ro dev partition rest
        (match err with Some e => errs ++ [e] | None => errs end)
  end.

Definition Stabilize (ro : repObject) (dev : Device) : M (option error) :=
  match PartitionForHash (ring W) (Hash ro) with
  | None => mret (Some ErrRing)
  | Some partition =>
      if Restabilize ro then restabilize ro dev
      else if negb (Nursery ro) then mret None
      else if Deletion ro then stabilizeDelete ro dev
      else
        '(stable, notFoundNodes, err) ← isStable ro dev;
        match err with
        | Some e => mret (Some e)
        | None =>
            if (stable : bool) then
              if snd (GetJobNodes (ring W) partition (Id dev)) then
                '(_, err) ← on_idb (EvRemove (Hash ro) (Shard ro) (Timestamp ro) (Nursery ro)
                      (Metahash ro))
                    (fun db =>
                       IndexDB.Remove db (Hash ro) (Shard ro) (Timestamp ro) (Nursery ro)
                         (Metahash ro));
                mret err
              else on_idb (EvSetStabilized (Hash ro) roShard (Timestamp ro) true)
                     (fun db =>
                        IndexDB.SetStabilized db (Hash ro) roShard (Timestamp ro) true)
            else
              errs ← replicate_nodes ro dev partition notFoundNodes [];
              match errs with
              | e :: _ => mret (Some e)
              | [] => mret (Some (ErrCouldNotStabilize
                                    (Z.of_nat (length notFoundNodes))))
              end
        end
  end.

End Object.

(** ** The storage engines (repobjeng.go and the erasure-code engine) *)

(** The mutable part of an engine: the map [idbs] of open databases, the
    cache [stabItems] with the time of its last reset, and, for the
    development, what the engine did and how many values it drew from the
    random source. *)
Record Engine := {
  idbs : gmap string IndexDB.t;
  stabItems : gmap string bool;
  stabReset : Z;
  log : list Event;
  drawn : nat
}.

Definition E (A : Type) : Type := Engine -> A * Engine.

#[global] Instance E_ret : MRet E := fun A a e => (a, e).
#[global] Instance E_bind : MBind E :=
  fun A B f m e => let '(a, e') := m e in f a e'.

Definition record (ev : Event) : E unit :=
  fun e => (tt, {| idbs := idbs e; stabItems := stabItems e;
                   stabReset := stabReset e; log := log e ++ [ev];
                   drawn := drawn e |}).

Definition set_idb (device : string) (db : IndexDB.t) : E unit :=
  fun e => (tt, {| idbs := <[device := db]> (idbs e); stabItems := stabItems e;
                   stabReset := stabReset e; log := log e; drawn := drawn e |}).

(** [idb.Remove(hash, shard, timestamp, nursery, metahash)] on the database
    of [device], as the handlers of the engines call it; the call is
    recorded in the log. *)
Definition remove (device : string) (db : IndexDB.t) (hash : string)
    (shard timestamp : Z) (nursery : bool) (metahash : string)
  : E (Z * option error) :=
  let '(db', r) := IndexDB.Remove db hash shard timestamp nursery metahash in
  set_idb device db' ;;
  record (EvRemove hash shard timestamp nursery metahash) ;;
  mret r.

Record ecObject := {
  ec_item :> IndexDBItem;
  ec_policy : Z;
  ec_metadata : gmap string string;
  dataShards : Z;
  parityShards : Z;
  chunkSize : Z;
  nurseryReplicas : Z
}.

(** [objs[j], objs[i] = objs[i], objs[j]] *)
Definition swap {A} (objs : list A) (j i : nat) : list A :=
  match objs !! i, objs !! j with
  | Some oi, Some oj => <[j := oi]> (<[i := oj]> objs)
  | _, _ => objs
  end.

(** The same version of the same object, as [GetObjectsToReplicate]
    compares a remote item with a local one. *)
Definition same_version (r it : IndexDBItem) : bool :=
  String.eqb (Hash r) (Hash it) && (Timestamp r =? Timestamp it)%Z
  && Bool.eqb (Nursery r) (Nursery it) && Bool.eqb (Deletion r) (Deletion it).

(** The inner loop of [GetObjectsToReplicate] for one local item:
    [remoteItems] is the part of the remote list from index [rii] on; the
    result is [sendItem] and the part of the list from the new [rii] on. *)
Fixpoint scan_remote (it : IndexDBItem) (remoteItems : list IndexDBItem)
  : bool * list IndexDBItem :=
  match remoteItems with
  | [] => (true, [])
  | r :: rest =>
      if String.ltb (Hash it) (Hash r) then (true, remoteItems)
      else if String.ltb (Hash r) (Hash it) then scan_remote it rest
      else (negb (same_version r it), rest)
  end.

Section Engines.

Context (W : World).

Definition engine_Do (req : Request) : E (option Response) :=
  record (EvHTTP req) ;; mret (Do W req).

(** [getDB]: the error result is [None]. *)
Definition getDB (device : string) : E (option IndexDB.t) :=
  fun e =>
    match idbs e !! device with
    | Some db => (Some db, e)
    | None =>
        match NewIndexDB W device with
        | Some db => (Some db, snd (set_idb device db e))
        | None => (None, e)
        end
    end.

Definition empty_item (hash : string) (nursery : bool) : IndexDBItem :=
  {| Hash := hash; Shard := 0; Timestamp := 0; Deletion := false;
     Metahash := EmptyString; Nursery := nursery; Metabytes := EmptyString;
     Path := EmptyString; Restabilize := false |}.

Definition with_path (it : IndexDBItem) (path : string) : IndexDBItem :=
  {| Hash := Hash it; Shard := Shard it; Timestamp := Timestamp it;
     Deletion := Deletion it; Metahash := Metahash it; Nursery := Nursery it;
     Metabytes := Metabytes it; Path := path; Restabilize := Restabilize it |}.

Definition partitionRequest (route : string) (prirep : PriorityRepJob) : Request :=
  {| Method := "GET";
     Url := PartitionURL route (ToDevice prirep) (Partition prirep);
     XTimestamp := None |}.

(** What ends up in [remoteItems] after the request. *)
Definition remote_items (resp : option Response) : list IndexDBItem :=
  match resp with
  | Some r =>
      if is2xx r || (StatusCode r =? 404)%Z then
        match Body r with
        | Some data => UnmarshalItems (codec W) data
        | None => []
        end
      else []
  | None => []
  end.

(** [idb.ExpireObjects()] on the database of [device]. *)
Definition expire (device : string) (db : IndexDB.t) : E IndexDB.t :=
  let db' := IndexDB.ExpireObjects (codec W) db in
  set_idb device db' ;; record EvExpire ;; mret db'.

(** [rand.Intn(n)], the [k]-th value asked of the source; it lies in
    [[0, n)] for a positive [n]. *)
Definition Intn (k : nat) (n : Z) : nat := Z.to_nat (rand W k mod n).

(** [for i := len(objs) - 1; i > 0; i-- { j := rand.Intn(i + 1); swap }]:
    [shuffle_from i k objs] runs the iterations [i, i-1, ..., 1], the source
    having been asked [k] times before. *)
Fixpoint shuffle_from {A} (i k : nat) (objs : list A) : list A :=
  match i with
  | O => objs
  | S i' => shuffle_from i' (S k) (swap objs (Intn k (Z.of_nat i + 1)) i)
  end.

Definition shuffle {A} (k : nat) (objs : list A) : list A :=
  shuffle_from (length objs - 1) k objs.

(** The shuffle in the engine: it asks the source [len(objs) - 1] times. *)
Definition shuffled {A} (objs : list A) : E (list A) :=
  fun e => (shuffle (drawn e) objs,
            {| idbs := idbs e; stabItems := stabItems e;
               stabReset := stabReset e; log := log e;
               drawn := drawn e + (length objs - 1) |}).

End Engines.

(** *** The replication engine (repobjeng.go) *)

Module repEngine.

(** The settings of the engine that the functions below read. *)
Record t := { re_policy : Z }.

Section Methods.

Context (W : World).

Definition object (re : t) (it : IndexDBItem)
    (md : gmap string string) : repObject :=
  {| item := it; policy := re_policy re; atomicFileWriter := None;
     metadata := md |}.

(** [repEngine.New]; [obj.Quarantine()] is recorded in the log. *)
Definition New (re : t) (vars : gmap string string) (needData : bool)
  : E (option repObject * option error) :=
  let hash := ObjHash (codec W) vars in
  r ← getDB W (at_key vars "device");
  match r with
  | None => mret (None, Some ErrOpenDatabase)
  | Some db =>
      match IndexDB.Lookup db hash roShard false with
      | (Some it, None) =>
          match Unmarshal (codec W) (Metabytes it) with
          | None => mret (None, Some ErrParseMetadata)
          | Some md =>
              if negb (Deletion it) then
                match FileSize W (Path it) with
                | None =>
                    record (EvQuarantine it) ;;
                    mret (None, Some (ErrOpen (Path it)))
                | Some size =>
                    match ParseInt (at_key md "Content-Length") with
                    | None =>
                        record (EvQuarantine it) ;;
                        mret (None, Some (ErrParseContentLength
                                            (at_key md "Content-Length")))
                    | Some contentLength =>
                        if negb (size =? contentLength)%Z then
                          record (EvQuarantine it) ;;
                          mret (None, Some (ErrSizeMismatch size contentLength))
                        else mret (Some (object re it md), None)
                    end
                end
              else mret (Some (object re it md), None)
          end
      | (_, Some err) => mret (None, Some err)
      | (None, None) => mret (Some (object re (empty_item hash false) ∅), None)
      end
  end.

(** The merge loop of [repEngine.GetObjectsToReplicate]; the result is
    what is sent on the channel, in order, when the consumer never
    cancels.  The object is built, and a row with unreadable metadata or
    without a path skipped, whether or not the item is to be sent. *)
Fixpoint merge (re : t) (items remoteItems : list IndexDBItem)
  : list repObject :=
  match items with
  | [] => []
  | it :: items' =>
      if Nursery it then merge re items' remoteItems
      else
        let '(sendItem, remoteItems') := scan_remote it remoteItems in
        match Unmarshal (codec W) (Metabytes it) with
        | None => merge re items' remoteItems'
        | Some md =>
            match WholeObjectPath (codec W) (Hash it) (Shard it) (Timestamp it)
                    (Nursery it) with
            | None => merge re items' remoteItems'
            | Some path =>
                if sendItem
                then object re (with_path it path) md
                     :: merge re items' remoteItems'
                else merge re items' remoteItems'
            end
        end
  end.

Definition GetObjectsToReplicate (re : t) (prirep : PriorityRepJob)
  : E (list repObject) :=
  r ← getDB W (Dev (FromDevice prirep));
  match r with
  | None => mret []
  | Some db =>
      let '(startHash, stopHash) := RingPartRange (codec W) (Partition prirep) in
      let '(items, _) := IndexDB.List db startHash stopHash EmptyString 0 in
      if (length items =? 0)%nat then mret []
      else
        resp ← engine_Do W (partitionRequest "rep-partition" prirep);
        match resp with
        | None => mret []
        | Some _ => mret (merge re items (remote_items W resp))
        end
  end.

(** The loop of [repEngine.getObjectsToStabilize]: one object per listed
    item, sent as soon as it is built; an item with unreadable metadata is
    skipped. *)
Fixpoint stabilize_objects (re : t) (idbItems : list IndexDBItem)
  : list repObject :=
  match idbItems with
  | [] => []
  | it :: rest =>
      match Unmarshal (codec W) (Metabytes it) with
      | None => stabilize_objects re rest
      | Some md => object re it md :: stabilize_objects re rest
      end
  end.

Definition getObjectsToStabilize (re : t) (device : Device)
  : E (list repObject) :=
  r ← getDB W (Dev device);
  match r with
  | None => mret []
  | Some db =>
      db' ← expire W (Dev device) db;
      match IndexDB.ListObjectsToStabilize db' with
      | (_, Some _) => mret []
      | (idbItems, None) => mret (stabilize_objects re idbItems)
      end
  end.

(** [repEngine.UpdateItemStabilized]: the replication engine keeps no
    cache. *)
Definition UpdateItemStabilized (re : t) (device hash ts : string)
    (stabilized : bool) : E bool :=
  mret false.

(** [repEngine.deleteStableObject], the handler of
    [DELETE /rep-obj/:device/:hash].  [vars] are the variables of the route
    and [header] the headers of the request; the result lists the status
    codes handed to [srv.StandardResponse], in order.  When the date does not
    parse the handler answers 400 and, there being no [return], goes on with
    the time [common.ParseDate] returned along with its error, [errTime]
    here. *)
Definition deleteStableObject (re : t) (errTime : Z)
    (vars header : gmap string string) : E (list Z) :=
  r ← getDB W (at_key vars "device");
  match r with
  | None => mret [400%Z]
  | Some db =>
      let '(reqTimeStamp, written) :=
        match ParseDate (codec W) (at_key header "X-Timestamp") with
        | Some t => (t, [])
        | None => (errTime, [400%Z])
        end in
      match IndexDB.Lookup db (at_key vars "hash") roShard true with
      | (Some it, None) =>
          if (reqTimeStamp <? Timestamp it)%Z then mret (written ++ [409%Z])%list
          else
            '(_, err) ← remove (at_key vars "device") db (Hash it) (Shard it)
                          (Timestamp it) (Nursery it) (Metahash it);
            match err with
            | Some _ => mret (written ++ [500%Z])%list
            | None => mret (written ++ [204%Z])%list
            end
      | _ => mret (written ++ [404%Z])%list
      end
  end.

End Methods.

End repEngine.

(** *** The erasure-code engine *)

Module ecEngine.

(** The settings of the engine that the functions below read. *)
Record t := {
  f_policy : Z;
  f_dataShards : Z;
  f_parityShards : Z;
  f_chunkSize : Z;
  f_nurseryReplicas : Z
}.

Section Methods.

Context (W : World).

Definition object (f : t) (it : IndexDBItem)
    (md : gmap string string) (replicas : Z) : ecObject :=
  {| ec_item := it; ec_policy := f_policy f; ec_metadata := md;
     dataShards := f_dataShards f; parityShards := f_parityShards f;
     chunkSize := f_chunkSize f; nurseryReplicas := replicas |}.

(** [ecEngine.New] *)
Definition New (f : t) (vars : gmap string string) (needData : bool)
  : E (option ecObject * option error) :=
  let hash := ObjHash (codec W) vars in
  r ← getDB W (at_key vars "device");
  match r with
  | None => mret (None, Some ErrOpenDatabase)
  | Some db =>
      match IndexDB.Lookup db hash shardAny false with
      | (Some it, None) =>
          match Unmarshal (codec W) (Metabytes it) with
          | None => mret (None, Some ErrParseMetadata)
          | Some md =>
              if negb (Deletion it) then
                match FileSize W (Path it) with
                | None =>
                    record (EvQuarantine it) ;;
                    mret (None, Some (ErrOpen (Path it)))
                | Some size =>
                    match ParseInt (at_key md "Content-Length") with
                    | None =>
                        record (EvQuarantine it) ;;
                        mret (None, Some (ErrParseContentLength
                                            (at_key md "Content-Length")))
                    | Some contentLength =>
                        if Nursery it && negb (size =? contentLength)%Z then
                          record (EvQuarantine it) ;;
                          mret (None, Some (ErrSizeMismatch size contentLength))
                        else if negb (Nursery it)
                                && negb (size =? ecShardLength (codec W) contentLength
                                                   (f_dataShards f))%Z then
                          record (EvQuarantine it) ;;
                          mret (None, Some (ErrShardSizeMismatch size
                                  (ecShardLength (codec W) contentLength
                                     (f_dataShards f))))
                        else mret (Some (object f it md (f_nurseryReplicas f)), None)
                    end
                end
              else mret (Some (object f it md (f_nurseryReplicas f)), None)
          end
      | (_, Some err) => mret (None, Some err)
      | (None, None) =>
          mret (Some (object f (empty_item hash true) ∅ (f_nurseryReplicas f)), None)
      end
  end.

(** The merge loop of [ecEngine.GetObjectsToReplicate]: the object is
    built only for an item that is to be sent. *)
Fixpoint merge (f : t) (items remoteItems : list IndexDBItem)
  : list ecObject :=
  match items with
  | [] => []
  | it :: items' =>
      if Nursery it then merge f items' remoteItems
      else
        let '(sendItem, remoteItems') := scan_remote it remoteItems in
        if sendItem then
          match Unmarshal (codec W) (Metabytes it) with
          | None => merge f items' remoteItems'
          | Some md =>
              match WholeObjectPath (codec W) (Hash it) (Shard it) (Timestamp it)
                      (Nursery it) with
              | None => merge f items' remoteItems'
              | Some path =>
                  object f (with_path it path) md 0 :: merge f items' remoteItems'
              end
          end
        else merge f items' remoteItems'
  end.

Definition GetObjectsToReplicate (f : t) (prirep : PriorityRepJob)
  : E (list ecObject) :=
  r ← getDB W (Dev (FromDevice prirep));
  match r with
  | None => mret []
  | Some db =>
      let '(startHash, stopHash) := RingPartRange (codec W) (Partition prirep) in
      let '(items, _) := IndexDB.List db startHash stopHash EmptyString 0 in
      if (length items =? 0)%nat then mret []
      else
        resp ← engine_Do W (partitionRequest "ec-partition" prirep);
        match resp with
        | None => mret []
        | Some _ => mret (merge f items (remote_items W resp))
        end
  end.

(** The first loop of [ecEngine.getObjectsToStabilize], which collects the
    objects in [objs]. *)
Fixpoint stabilize_objects (f : t) (idbItems : list IndexDBItem)
  : list ecObject :=
  match idbItems with
  | [] => []
  | it :: rest =>
      match Unmarshal (codec W) (Metabytes it) with
      | None => stabilize_objects f rest
      | Some md => object f it md (f_nurseryReplicas f) :: stabilize_objects f rest
      end
  end.

(** [fmt.Sprintf("%s-%s-%s", device, o.Hash, o.Metahash)] *)
Definition stab_key (device hash mhash : string) : string :=
  device ++ "-" ++ hash ++ "-" ++ mhash.

Definition updateItemsBeingStabilized (device : string) (objs : list ecObject)
  : E unit :=
  fun e =>
    let reset := (maxStableObjectCacheSize W <? Z.of_nat (size (stabItems e)))%Z
                 || (10 * 60 * 1000000000 <? Now W - stabReset e)%Z in
    let items0 := if reset then ∅ else stabItems e in
    let items :=
      foldl (fun (m : gmap string bool) (o : ecObject) =>
               let k := stab_key device (Hash o) (Metahash o) in
               match m !! k with
               | Some _ => m
               | None => <[k := true]> m
               end) items0 objs in
    (tt, {| idbs := idbs e; stabItems := items;
            stabReset := if reset then Now W else stabReset e;
            log := log e; drawn := drawn e |}).

Definition getObjectsToStabilize (f : t) (device : Device)
  : E (list ecObject) :=
  r ← getDB W (Dev device);
  match r with
  | None => mret []
  | Some db =>
      db' ← expire W (Dev device) db;
      match IndexDB.ListObjectsToStabilize db' with
      | (_, Some _) => mret []
      | (idbItems, None) =>
          let objs := stabilize_objects f idbItems in
          updateItemsBeingStabilized (Dev device) objs ;;
          shuffled W objs
      end
  end.

(** [ecEngine.UpdateItemStabilized]: a notice that the item has been
    stabilized is refused when the cache already says so
    ([!val && ok]); otherwise the cache records [!stabilized]. *)
Definition UpdateItemStabilized (device hash mhash : string)
    (stabilized : bool) : E bool :=
  fun e =>
    let k := stab_key device hash mhash in
    if stabilized
       && match stabItems e !! k with Some val => negb val | None => false end
    then (false, e)
    else (true, {| idbs := idbs e;
                   stabItems := <[k := negb stabilized]> (stabItems e);
                   stabReset := stabReset e; log := log e; drawn := drawn e |}).

(** [ecEngine.ecNurseryPostHandler], the handler of
    [POST /ec-nursery/:device/:hash/:mhash/:ts], called after the object was
    stabilized from another server; the result is the status code of the
    response.  The metric counters are not represented. *)
Definition ecNurseryPostHandler (vars : gmap string string) : E Z :=
  r ← getDB W (at_key vars "device");
  match r with
  | None => mret 400%Z
  | Some db =>
      match ParseInt (at_key vars "ts") with
      | None => mret 400%Z
      | Some timestamp =>
          if String.eqb (at_key vars "mhash") EmptyString then mret 400%Z
          else
            fresh ← UpdateItemStabilized (at_key vars "device") (at_key vars "hash")
                      (at_key vars "mhash") true;
            if negb fresh then mret 204%Z
            else
              '(rr, err) ← remove (at_key vars "device") db (at_key vars "hash") 0
                             timestamp true (at_key vars "mhash");
              match err with
              | Some _ =>
                  UpdateItemStabilized (at_key vars "device") (at_key vars "hash")
                    (at_key vars "mhash") false ;;
                  mret 500%Z
              | None => if (rr =? 0)%Z then mret 404%Z else mret 202%Z
              end
      end
  end.

(** [ecEngine.ecShardDeleteHandler], the handler of
    [DELETE /ec-shard/:device/:hash/:index]; [strconv.Atoi] is [ParseInt],
    an [int] having 64 bits. *)
Definition ecShardDeleteHandler (vars header : gmap string string) : E Z :=
  r ← getDB W (at_key vars "device");
  match r with
  | None => mret 400%Z
  | Some db =>
      match ParseInt (at_key vars "index") with
      | None => mret 400%Z
      | Some shardIndex =>
          match IndexDB.Lookup db (at_key vars "hash") shardIndex true with
          | (Some it, None) =>
              match ParseDate (codec W) (at_key header "X-Timestamp") with
              | None => mret 400%Z
              | Some timestamp =>
                  if (timestamp <=? Timestamp it)%Z then mret 409%Z
                  else
                    '(_, err) ← remove (at_key vars "device") db (Hash it)
                                  (Shard it) (Timestamp it) (Nursery it)
                                  (Metahash it);
                    match err with
                    | Some _ => mret 500%Z
                    | None => mret 204%Z
                    end
              end
          | _ => mret 404%Z
          end
      end
  end.

End Methods.

End ecEngine.

(** *** The partition listing served to a peer *)

Section Listing.

Context (W : World).

(** [json.Marshal(items)]; [None] is its error. *)
Context (MarshalItems : list IndexDBItem -> option string).

(** [listPartitionHandler], which the two engines define with the same body
    for [GET /rep-partition/:device/:partition] and
    [GET /ec-partition/:device/:partition]: the status code and, for 200, the
    body written. *)
Definition listPartitionHandler (vars : gmap string string)
  : E (Z * option string) :=
  r ← getDB W (at_key vars "device");
  match r with
  | None => mret (400%Z, None)
  | Some db =>
      match ParseInt (at_key vars "partition") with
      | None => mret (400%Z, None)
      | Some part =>
          let '(startHash, stopHash) := RingPartRange (codec W) part in
          match IndexDB.List db startHash stopHash EmptyString 0 with
          | (_, Some _) => mret (500%Z, None)
          | (items, None) =>
              match MarshalItems items with
              | Some data => mret (200%Z, Some data)
              | None => mret (500%Z, None)
              end
          end
      end
  end.

End Listing.

(** ** The replication job planner *)

(** Modelled from the spec: [getPartMoveJobs] is defined in a file that is not
    among the files under study; only its test is.  Section 4.4: for every
    partition, it diffs the old against the new ordered device-assignment
    list; for each slot whose assigned device changed, it emits one
    [PriorityRepJob{partition, from=old, to=new}]; partitions in [excluded]
    are skipped.  A ring is seen through its assignment table, the list of
    the device lists of the partitions 0, 1, ...; devices are told apart by
    their [Id], as the test does.  [diff_slots] is the diff of the two lists
    of one partition. *)
Fixpoint diff_slots (partition policy : Z) (olddevs newdevs : list Device)
  : list PriorityRepJob :=
  match olddevs, newdevs with
  | o :: olddevs', n :: newdevs' =>
      (if (Id o =? Id n)%Z then []
       else [ {| Partition := partition; FromDevice := o; ToDevice := n;
                 Policy := policy |} ])
      ++ diff_slots partition policy olddevs' newdevs'
  | _, _ => []
  end.

(** Modelled from the spec: the loop of [getPartMoveJobs] over the
    partitions, from [partition] on. *)
Fixpoint part_jobs (partition : Z) (oldRing newRing : list (list Device))
    (excluded : list Z) (policy : Z) : list PriorityRepJob :=
  match oldRing, newRing with
  | olddevs :: oldRing', newdevs :: newRing' =>
      (if existsb (Z.eqb partition) excluded then []
       else diff_slots partition policy olddevs newdevs)
      ++ part_jobs (partition + 1) oldRing' newRing' excluded policy
  | _, _ => []
  end.

(** Modelled from the spec: [getPartMoveJobs(oldRing, newRing, excluded,
    policy)], section 4.4. *)
Definition getPartMoveJobs (oldRing newRing : list (list Device))
    (excluded : list Z) (policy : Z) : list PriorityRepJob :=
  part_jobs 0 oldRing newRing excluded policy.

(** ** The vocabulary of the statements *)

(** The jobs [Replicate] was invoked with, in order. *)
Definition replicate_calls (t : list Event) : list PriorityRepJob :=
  omap (fun e => match e with EvReplicate job => Some job | _ => None end) t.

(** The calls of mutating operations of the index database, in order. *)
Definition is_idb_call (e : Event) : bool :=
  match e with
  | EvCommit _ _ _ _ _ | EvRemove _ _ _ _ _ | EvSetStabilized _ _ _ _ => true
  | _ => false
  end.

Definition idb_calls (t : list Event) : list Event := List.filter is_idb_call t.

(** The other primaries, as the loops over [nodes] see them. *)
Definition others (dev : Device) (nodes : list Device) : list Device :=
  List.filter (fun node => negb (sameDevice node dev)) nodes.

(** The primaries [isStable] counts as good: the local device, and the
    peers whose answer passes [agrees]. *)
Definition good_nodes (W : World) (ro : repObject) (dev : Device)
    (partition : Z) (nodes : list Device) : list Device :=
  List.filter (fun node => sameDevice node dev
                           || agrees ro (Do W (headRequest ro partition node))) nodes.

(** The peers [isStable] reports in [notFoundNodes]: unreachable, or
    answering anything but the object's own [X-Timestamp]. *)
Definition disagreeing (W : World) (ro : repObject) (dev : Device)
    (partition : Z) (nodes : list Device) : list Device :=
  List.filter (fun node => negb (sameDevice node dev)
                           && negb (agrees ro (Do W (headRequest ro partition node))))
              nodes.

(** The peers that acknowledge the DELETE of [stabilizeDelete]. *)
Definition delete_acks (W : World) (ro : repObject) (dev : Device)
    (nodes : list Device) : list Device :=
  List.filter (fun node => deleteAck (Do W (deleteRequest ro node))) (others dev nodes).

(** The peers that acknowledge the POST of [restabilize]. *)
Definition post_acks (W : World) (ro : repObject) (dev : Device)
    (nodes : list Device) : list Device :=
  List.filter (fun node => postAck (Do W (postRequest ro node))) (others dev nodes).

(** The tuple [GetObjectsToReplicate] compares items by. *)
Definition version (it : IndexDBItem) : string * Z * bool * bool :=
  (Hash it, Timestamp it, Nursery it, Deletion it).

(** The length [ecEngine.New] holds the file of a row against: the content
    length for a nursery copy, the shard length for a stable shard. *)
Definition declared_length (W : World) (f : ecEngine.t) (it : IndexDBItem)
    (contentLength : Z) : Z :=
  if Nursery it then contentLength
  else ecShardLength (codec W) contentLength (ecEngine.f_dataShards f).

(** The rows whose metadata [json.Unmarshal] reads. *)
Definition readable (W : World) (it : IndexDBItem) : bool :=
  match Unmarshal (codec W) (Metabytes it) with Some _ => true | None => false end.

(** Whether the remote list holds the version of [it]. *)
Definition has_counterpart (it : IndexDBItem) (remoteItems : list IndexDBItem) : bool :=
  existsb (fun r => same_version r it) remoteItems.

(** The rows an object can be built for: readable metadata, and a path. *)
Definition sendable (W : World) (it : IndexDBItem) : bool :=
  readable W it
  && match WholeObjectPath (codec W) (Hash it) (Shard it) (Timestamp it) (Nursery it) with
     | Some _ => true
     | None => false
     end.

(** The row of an emitted object: the listed row, at its whole-object path. *)
Definition located (W : World) (it : IndexDBItem) : IndexDBItem :=
  with_path it (default EmptyString
                  (WholeObjectPath (codec W) (Hash it) (Shard it) (Timestamp it)
                     (Nursery it))).

(** The local rows that are out of the nursery, can be sent, and whose
    version the remote list lacks. *)
Definition missing_on_remote (W : World) (items remoteItems : list IndexDBItem)
  : list IndexDBItem :=
  List.filter (fun it => negb (Nursery it) && negb (has_counterpart it remoteItems)
                         && sendable W it) items.

(** Lists in hash order, without and with repeated hashes. *)
Definition hash_lt (a b : IndexDBItem) : Prop := String.ltb (Hash a) (Hash b) = true.
Definition hash_le (a b : IndexDBItem) : Prop := String.leb (Hash a) (Hash b) = true.

(** The job [Stabilize] hands to [Replicate] for a peer that does not hold
    the object. *)
Definition push_job (ro : repObject) (dev : Device) (partition : Z)
    (peer : Device) : PriorityRepJob :=
  {| Partition := partition; FromDevice := dev; ToDevice := peer;
     Policy := policy ro |}.

(** Whether the peer takes the PUT of [Replicate]:
    [resp.StatusCode/100 == 2 || resp.StatusCode == 409], no answer being a
    refusal. *)
Definition put_accepted (W : World) (ro : repObject) (job : PriorityRepJob) : bool :=
  match Do W (putRequest ro job) with
  | Some r => is2xx r || (StatusCode r =? 409)%Z
  | None => false
  end.

(** The requests among the events of a trace. *)
Definition requests (t : list Event) : list Request :=
  omap (fun e => match e with EvHTTP req => Some req | _ => None end) t.

(** The world with another random source. *)
Definition with_rand (W : World) (r : nat -> Z) : World :=
  {| ring := ring W; codec := codec W; Do := Do W; FileSize := FileSize W;
     NewIndexDB := NewIndexDB W; rand := r; Now := Now W;
     maxStableObjectCacheSize := maxStableObjectCacheSize W |}.

(** ** A small cluster

    Three primaries and one handoff device, after the fake ring of the
    planner's test: every hash of at least eight characters lies in
    partition 0, and device 0 is the handoff. *)
Definition drive (n : Z) (name : string) : Device :=
  {| Id := n; Scheme := "http"; Ip := "127.0.0.1"; Port := 6000 + n;
     ReplicationIp := "127.0.0.1"; ReplicationPort := 6500 + n; Dev := name;
     Region := n mod 2 |}.

Definition drive0 := drive 0 "drive0".
Definition drive1 := drive 1 "drive1".
Definition drive2 := drive 2 "drive2".
Definition drive3 := drive 3 "drive3".

Definition fakeRing : Ring :=
  {| PartitionForHash := fun h => if (String.length h <? 8)%nat then None else Some 0%Z;
     GetNodes := fun _ => [drive1; drive2; drive3];
     ReplicaCount := 3;
     GetJobNodes := fun _ localDevice =>
       if (localDevice =? 0)%Z then ([drive1; drive2], true)
       else ([drive (localDevice mod 2 + 1) "peer"], false) |}.

(** A codec that is enough to run the functions.  It stands in for JSON
    with an opening brace followed by [key=value;] pairs; like JSON, it does
    not read the empty input. *)
Fixpoint split_at (sep : ascii) (s : string) : option (string * string) :=
  match s with
  | EmptyString => None
  | String c s' =>
      if Ascii.eqb c sep then Some (EmptyString, s')
      else match split_at sep s' with
           | Some (a, b) => Some (String c a, b)
           | None => None
           end
  end.

Fixpoint read_pairs (fuel : nat) (s : string) : option (gmap string string) :=
  match fuel with
  | O => None
  | S fuel' =>
      match s with
      | EmptyString => Some ∅
      | _ =>
          match split_at "="%char s with
          | Some (k, rest) =>
              match split_at ";"%char rest with
              | Some (v, rest') =>
                  match read_pairs fuel' rest' with
                  | Some m => Some (<[k := v]> m)
                  | None => None
                  end
              | None => None
              end
          | None => None
          end
      end
  end.

Definition fakeCodec : Codec :=
  {| Marshal := fun m =>
       foldr (fun kv acc => (fst kv ++ "=" ++ snd kv ++ ";" ++ acc)%string)
             EmptyString (map_to_list m);
     Unmarshal := fun s =>
       match s with
       | EmptyString => None      (* the empty input is not a JSON value *)
       | String "{" s' => read_pairs (S (String.length s')) s'
       | _ => None
       end;
     UnmarshalItems := fun _ => [];
     MetadataHash := fun m => "d41d8cd9";
     ParseDate := ParseInt;
     WholeObjectPath := fun hash _ _ nursery =>
       Some ((if nursery then "/srv/nursery/" else "/srv/stable/") ++ hash)%string;
     ObjHash := fun vars => at_key vars "hash";
     ecShardLength := fun contentLength dataShards =>
       ((contentLength + dataShards - 1) / dataShards)%Z;
     RingPartRange := fun _ => (EmptyString, "g");
     Expired := fun _ => false |}.

(** The device a request is sent to. *)
Definition target (req : Request) : Device :=
  match Url req with
  | ObjectURL node _ _ => node
  | RepObjURL node _ _ => node
  | PartitionURL _ node _ => node
  end.

Definition status (code : Z) : option Response :=
  Some {| StatusCode := code; Header := ∅; Body := None |}.

Definition answer (code : Z) (ts : string) : option Response :=
  Some {| StatusCode := code; Header := {["X-Timestamp" := ts]}; Body := None |}.

Definition fakeWorld (peers : Request -> option Response)
    (files : string -> option Z) : World :=
  {| ring := fakeRing; codec := fakeCodec; Do := peers; FileSize := files;
     NewIndexDB := fun _ => None; rand := fun _ => 0%Z; Now := 0;
     maxStableObjectCacheSize := 1000 |}.

(** A nursery object written at time 1000, and the database holding it. *)
Definition hash1 : string := "d41d8cd98f00b204e9800998ecf8427e".

Definition meta1 : gmap string string :=
  <["X-Timestamp" := "1000"]> (<["Content-Length" := "4"]> (<["name" := "/a/c/o"]> ∅)).

Definition row1 : IndexDBItem :=
  {| Hash := hash1; Shard := 0; Timestamp := 1000; Deletion := false;
     Metahash := "d41d8cd9"; Nursery := true;
     Metabytes := "{X-Timestamp=1000;Content-Length=4;name=/a/c/o;";
     Path := "/srv/nursery/d41d8cd98f00b204e9800998ecf8427e";
     Restabilize := false |}.

Definition obj1 : repObject :=
  {| item := row1; policy := 0; atomicFileWriter := None; metadata := meta1 |}.

Definition db_of (rows : list IndexDBItem) : IndexDB.t :=
  {| IndexDB.rows := list_to_map (List.map (fun it => ((Hash it, Shard it), it)) rows);
     IndexDB.reachable := true |}.

Definition state_of (rows : list IndexDBItem) : State :=
  {| idb := db_of rows; trace := [] |}.

(** The tombstone of the same object, and a tombstone marked for
    restabilization. *)
Definition tombstone1 : IndexDBItem :=
  {| Hash := hash1; Shard := 0; Timestamp := 1000; Deletion := true;
     Metahash := "d41d8cd9"; Nursery := true;
     Metabytes := "{X-Timestamp=1000;"; Path := EmptyString;
     Restabilize := false |}.

Definition tombstone2 : IndexDBItem :=
  {| Hash := hash1; Shard := 0; Timestamp := 1000; Deletion := true;
     Metahash := "d41d8cd9"; Nursery := true;
     Metabytes := "{X-Timestamp=1000;"; Path := EmptyString;
     Restabilize := true |}.

Definition object_of (it : IndexDBItem) : repObject :=
  {| item := it; policy := 0; atomicFileWriter := None; metadata := meta1 |}.

(** Peers that all hold the object at time 1000 and accept what they are
    sent. *)
Definition peers_agree (req : Request) : option Response := answer 200 "1000".

(** The same, except that drive3 does not have the object (404) until it is
    pushed to it (201). *)
Definition peers_but_drive3 (req : Request) : option Response :=
  if (Id (target req) =? 3)%Z
  then if String.eqb (Method req) "PUT" then status 201 else status 404
  else answer 200 "1000".

Definition all_files (path : string) : option Z := Some 4%Z.

(** A stable copy of the object, and an object whose hash the ring rejects. *)
Definition stable1 : IndexDBItem :=
  {| Hash := hash1; Shard := 0; Timestamp := 1000; Deletion := false;
     Metahash := "d41d8cd9"; Nursery := false;
     Metabytes := "{X-Timestamp=1000;Content-Length=4;name=/a/c/o;";
     Path := "/srv/stable/d41d8cd98f00b204e9800998ecf8427e";
     Restabilize := false |}.

Definition stray1 : IndexDBItem :=
  {| Hash := "zz"; Shard := 0; Timestamp := 1000; Deletion := false;
     Metahash := "d41d8cd9"; Nursery := false;
     Metabytes := "{X-Timestamp=1000;"; Path := "/srv/stable/zz";
     Restabilize := false |}.

(** An engine that has the database of drive1 open, and engine settings. *)
Definition engine_of (rows : list IndexDBItem) : Engine :=
  {| idbs := {["drive1" := db_of rows]}; stabItems := ∅; stabReset := 0;
     log := []; drawn := 0 |}.

Definition re0 : repEngine.t := {| repEngine.re_policy := 0 |}.

Definition f0 : ecEngine.t :=
  {| ecEngine.f_policy := 1; ecEngine.f_dataShards := 4;
     ecEngine.f_parityShards := 2; ecEngine.f_chunkSize := 1048576;
     ecEngine.f_nurseryReplicas := 3 |}.

Definition vars1 : gmap string string :=
  <["device" := "drive1"]> (<["hash" := hash1]> ∅).

(** A file system where every file is one byte longer than row1 declares. *)
Definition long_files (path : string) : option Z := Some 5%Z.

(** The rings of [TestGetPartMoveJobs]: the fake ring of the test builds the
    device of id [p] on the fly. *)
Definition testDevice (p : Z) : Device :=
  {| Id := p; Scheme := EmptyString; Ip := "127.0.0.1"; Port := p;
     ReplicationIp := EmptyString; ReplicationPort := 0;
     Dev := "drive" ++ pretty p; Region := p mod 2 |}.

Definition testOldRing : list (list Device) :=
  [ List.map testDevice [1; 2; 3; 4; 5]%Z; List.map testDevice [6; 7; 8; 9; 10]%Z ].

Definition testNewRing : list (list Device) :=
  [ List.map testDevice [6; 2; 3; 4; 5]%Z; List.map testDevice [6; 7; 8; 9; 11]%Z ].

(** A second nursery object, later in hash order than the first. *)
Definition row2 : IndexDBItem :=
  {| Hash := "e4da3b7fbbce2345d7772b0674a318d5"; Shard := 0; Timestamp := 2000;
     Deletion := false; Metahash := "d41d8cd9"; Nursery := true;
     Metabytes := "{X-Timestamp=2000;Content-Length=4;name=/a/c/p;";
     Path := "/srv/nursery/e4da3b7fbbce2345d7772b0674a318d5";
     Restabilize := false |}.

(** A world whose peers answer a partition listing with [remote]. *)
Definition listing (req : Request) : option Response :=
  Some {| StatusCode := 200; Header := ∅; Body := Some "[...]" |}.

Definition listingCodec (remote : list IndexDBItem) : Codec :=
  {| Marshal := Marshal fakeCodec; Unmarshal := Unmarshal fakeCodec;
     UnmarshalItems := fun _ => remote;
     MetadataHash := MetadataHash fakeCodec; ParseDate := ParseDate fakeCodec;
     WholeObjectPath := WholeObjectPath fakeCodec; ObjHash := ObjHash fakeCodec;
     ecShardLength := ecShardLength fakeCodec;
     RingPartRange := RingPartRange fakeCodec; Expired := Expired fakeCodec |}.

Definition listingWorld (remote : list IndexDBItem) : World :=
  {| ring := fakeRing; codec := listingCodec remote; Do := listing;
     FileSize := all_files; NewIndexDB := fun _ => None; rand := fun _ => 0%Z;
     Now := 0; maxStableObjectCacheSize := 1000 |}.

(** Two stable shards of the first object, shard 0 of an older version and
    shard 1 of the current one; a stable row whose metadata is empty; and a
    job from drive1 to drive2. *)
Definition shard0 : IndexDBItem :=
  {| Hash := hash1; Shard := 0; Timestamp := 999; Deletion := false;
     Metahash := "d41d8cd9"; Nursery := false;
     Metabytes := "{X-Timestamp=999;Content-Length=4;name=/a/c/o;";
     Path := "/srv/stable/d41d8cd98f00b204e9800998ecf8427e";
     Restabilize := false |}.

Definition shard1 : IndexDBItem :=
  {| Hash := hash1; Shard := 1; Timestamp := 1000; Deletion := false;
     Metahash := "d41d8cd9"; Nursery := false;
     Metabytes := "{X-Timestamp=1000;Content-Length=4;name=/a/c/o;";
     Path := "/srv/stable/d41d8cd98f00b204e9800998ecf8427e";
     Restabilize := false |}.

Definition blank1 : IndexDBItem :=
  {| Hash := hash1; Shard := 0; Timestamp := 1000; Deletion := false;
     Metahash := "d41d8cd9"; Nursery := false; Metabytes := EmptyString;
     Path := "/srv/stable/d41d8cd98f00b204e9800998ecf8427e";
     Restabilize := false |}.

Definition stable2 : IndexDBItem :=
  {| Hash := "e4da3b7fbbce2345d7772b0674a318d5"; Shard := 0; Timestamp := 2000;
     Deletion := false; Metahash := "d41d8cd9"; Nursery := false;
     Metabytes := "{X-Timestamp=2000;Content-Length=4;name=/a/c/p;";
     Path := "/srv/stable/e4da3b7fbbce2345d7772b0674a318d5";
     Restabilize := false |}.

Definition job12 : PriorityRepJob :=
  {| Partition := 0; FromDevice := drive1; ToDevice := drive2; Policy := 0 |}.

(** Peers none of which holds the object, and which accept what they are
    sent; and peers that fail every request. *)
Definition peers_without_the_object (req : Request) : option Response :=
  if String.eqb (Method req) "PUT" then status 201 else status 404.

Definition failing_peers (req : Request) : option Response := status 500.

(** The variables of the route of a shard of the first object, and the
    headers of a request made at time 1000. *)
Definition vars_shard0 : gmap string string :=
  <["device" := "drive1"]> (<["hash" := hash1]> (<["index" := "0"]> ∅)).

Definition header1000 : gmap string string := {["X-Timestamp" := "1000"]}.

(** The variables of the route of a notice that the first object has been
    stabilized. *)
Definition vars_notice : gmap string string :=
  <["device" := "drive1"]>
    (<["hash" := hash1]> (<["mhash" := "d41d8cd9"]> (<["ts" := "1000"]> ∅))).

(** Peers as in [peers_but_drive3], except that drive3 refuses what it is
    sent (500). *)
Definition peers_but_drive3_refusing (req : Request) : option Response :=
  if (Id (target req) =? 3)%Z
  then if String.eqb (Method req) "PUT" then status 500 else status 404
  else answer 200 "1000".

(** ** Properties of the index database *)

Lemma with_rows_id (db : IndexDB.t) : IndexDB.with_rows db (IndexDB.rows db) = db.
Proof. by destruct db. Qed.

(** C1. For every key [(hash, shard)] holding a row, a commit whose timestamp
    is at most the stored one is rejected as a conflict and returns the
    database unchanged; a commit changes the database only when its
    timestamp is strictly greater than the stored one, and such a commit does
    install a row carrying the new timestamp. *)
Theorem commit_timestamp_monotone
    (C : Codec) (db : IndexDB.t) (f : option AtomicFileWriter) (hash : string)
    (shard ts : Z) (method : string) (md : gmap string string) (nursery : bool)
    (sh : string) (it : IndexDBItem) :
  IndexDB.reachable db = true ->
  IndexDB.rows db !! (hash, shard) = Some it ->
  ((ts <= Timestamp it)%Z ->
     IndexDB.Commit C db f hash shard ts method md nursery sh = (db, Some ErrConflict))
  /\ (fst (IndexDB.Commit C db f hash shard ts method md nursery sh) <> db ->
     (Timestamp it < ts)%Z)
  /\ ((Timestamp it < ts)%Z ->
     exists db',
       IndexDB.Commit C db f hash shard ts method md nursery sh = (db', None)
       /\ db' <> db
       /\ (Timestamp <$> IndexDB.rows db' !! (hash, shard)) = Some ts).
Proof.
  intros Hre Hrow. unfold IndexDB.Commit. rewrite Hre, Hrow. cbn [negb].
  destruct (Z.leb_spec ts (Timestamp it)) as [Hle | Hgt].
  - split; [done |]. split; [cbn; intros Hne; by destruct Hne | lia].
  - split; [lia |]. split; [done |]. intros _.
    eexists. split; [reflexivity |]. split.
    + intros Heq. apply (f_equal IndexDB.rows) in Heq. cbn in Heq.
      apply (f_equal (fun m => Timestamp <$> m !! (hash, shard))) in Heq.
      rewrite lookup_insert_eq, Hrow in Heq. cbn in Heq.
      injection Heq as Heq. lia.
    + cbn. by rewrite lookup_insert_eq.
Qed.

(** [ParseInt] on the inputs that tell [strconv.ParseInt(s, 10, 64)] apart. *)
Lemma ParseInt_examples :
  ParseInt "4" = Some 4%Z
  /\ ParseInt "-12" = Some (-12)%Z
  /\ ParseInt "+7" = Some 7%Z
  /\ ParseInt EmptyString = None
  /\ ParseInt "-" = None
  /\ ParseInt "4 " = None
  /\ ParseInt "1_000" = None
  /\ ParseInt "0x10" = None
  /\ ParseInt "9223372036854775807" = Some 9223372036854775807%Z
  /\ ParseInt "9223372036854775808" = None
  /\ ParseInt "-9223372036854775808" = Some (-9223372036854775808)%Z.
Proof. repeat split; reflexivity. Qed.

(** ** Properties of the methods of a replicated object *)

Ltac unfold_M :=
  unfold client_Do, emit, on_idb, mbind, M_bind, mret, M_ret in *.

Lemma state_eta (s : State) : {| idb := idb s; trace := trace s |} = s.
Proof. by destruct s. Qed.

(** C7. For every metadata map without an [X-Timestamp] key, [Commit],
    [Delete] and [CommitMetadata] return the validation error and the state
    they were called in: no operation of the index database has run and the
    stored rows are what they were. *)
Theorem commit_requires_timestamp
    (W : World) (ro : repObject) (md : gmap string string) (s : State) :
  md !! "X-Timestamp" = None ->
  Commit W ro md s = ((ro, Some ErrNoTimestamp), s)
  /\ Delete W ro md s = ((ro, Some ErrNoTimestamp), s)
  /\ CommitMetadata W ro md s = ((ro, Some ErrNoTimestamp), s).
Proof.
  intros Hmd. unfold Commit, Delete, CommitMetadata, commit.
  rewrite Hmd. by unfold_M.
Qed.

(** With a timestamp that parses, the commit path does reach the index
    database, and the writer is released whatever the outcome. *)
Lemma commit_reaches_database
    (W : World) (ro : repObject) (md : gmap string string) (method : string)
    (nursery : bool) (s : State) (raw : string) (ts : Z) :
  md !! "X-Timestamp" = Some raw ->
  ParseDate (codec W) raw = Some ts ->
  commit W ro md method nursery s =
    let '(db, err) := IndexDB.Commit (codec W) (idb s) (atomicFileWriter ro)
                        (Hash ro) roShard ts method md nursery EmptyString in
    ((set_writer ro None, err),
     {| idb := db;
        trace := (trace s ++ [EvCommit (Hash ro) roShard ts method nursery])%list |}).
Proof.
  intros Hmd Hts. unfold commit. rewrite Hmd, Hts. unfold_M.
  by destruct (IndexDB.Commit _ _ _ _ _ _ _ _ _ _).
Qed.

(** C10, as the code has it.  On an object whose [Nursery] and [Restabilize]
    flags are both false, [Stabilize] sends no request and leaves the index
    database alone; it returns [nil] when the ring resolves the partition of
    the hash, and the ring's error otherwise. *)
Theorem stabilize_stable_object_is_noop
    (W : World) (ro : repObject) (dev : Device) (s : State) :
  Nursery ro = false ->
  Restabilize ro = false ->
  Stabilize W ro dev s =
    (match PartitionForHash (ring W) (Hash ro) with
     | Some _ => None
     | None => Some ErrRing
     end, s).
Proof.
  intros Hn Hr. unfold Stabilize.
  destruct (PartitionForHash (ring W) (Hash ro)); [| done].
  by rewrite Hr, Hn.
Qed.

(** *** The loops over the primaries *)

Lemma count_step (a : Z) (n : nat) : (a + 1 + Z.of_nat n = a + Z.of_nat (S n))%Z.
Proof. lia. Qed.

Lemma isStable_nodes_run (W : World) (ro : repObject) (dev : Device)
    (partition : Z) (nodes : list Device) :
  forall (good : Z) (nf : list Device) (s : State),
  isStable_nodes W ro dev partition nodes good nf s =
    (((good + Z.of_nat (length (good_nodes W ro dev partition nodes)))%Z,
      (nf ++ disagreeing W ro dev partition nodes)%list),
     {| idb := idb s;
        trace := (trace s ++ map (fun node => EvHTTP (headRequest ro partition node))
                                 (others dev nodes))%list |}).
Proof.
  unfold good_nodes, disagreeing, others.
  induction nodes as [| node nodes IH]; intros good nf s; cbn.
  - unfold_M. by rewrite Z.add_0_r, !app_nil_r, state_eta.
  - destruct (sameDevice node dev) eqn:Hself; cbn.
    + by rewrite IH, count_step.
    + unfold_M. cbn.
      destruct (agrees ro (Do W (headRequest ro partition node))); cbn;
        rewrite IH; cbn.
      * by rewrite <- app_assoc, count_step.
      * by rewrite <- !app_assoc.
Qed.

Lemma stabilizeDelete_nodes_run (W : World) (ro : repObject) (dev : Device)
    (nodes : list Device) :
  forall (successes : Z) (s : State),
  stabilizeDelete_nodes W ro dev nodes successes s =
    ((successes + Z.of_nat (length (delete_acks W ro dev nodes)))%Z,
     {| idb := idb s;
        trace := (trace s ++ map (fun node => EvHTTP (deleteRequest ro node))
                                 (others dev nodes))%list |}).
Proof.
  unfold delete_acks, others.
  induction nodes as [| node nodes IH]; intros successes s; cbn.
  - unfold_M. by rewrite Z.add_0_r, app_nil_r, state_eta.
  - destruct (sameDevice node dev) eqn:Hself; cbn.
    + by rewrite IH.
    + unfold_M. cbn. rewrite IH. cbn.
      destruct (deleteAck (Do W (deleteRequest ro node))); cbn;
        rewrite <- app_assoc; cbn; [by rewrite count_step | done].
Qed.

Lemma restabilize_nodes_run (W : World) (ro : repObject) (dev : Device)
    (nodes : list Device) :
  forall (successes : Z) (s : State),
  restabilize_nodes W ro dev nodes successes s =
    ((successes + Z.of_nat (length (post_acks W ro dev nodes)))%Z,
     {| idb := idb s;
        trace := (trace s ++ map (fun node => EvHTTP (postRequest ro node))
                                 (others dev nodes))%list |}).
Proof.
  unfold post_acks, others.
  induction nodes as [| node nodes IH]; intros successes s; cbn.
  - unfold_M. by rewrite Z.add_0_r, app_nil_r, state_eta.
  - destruct (sameDevice node dev) eqn:Hself; cbn.
    + by rewrite IH.
    + unfold_M. cbn. rewrite IH. cbn.
      destruct (postAck (Do W (postRequest ro node))); cbn;
        rewrite <- app_assoc; cbn; [by rewrite count_step | done].
Qed.

(** *** What the trace says about [Replicate] *)

Lemma replicate_calls_app (t1 t2 : list Event) :
  replicate_calls (t1 ++ t2) = (replicate_calls t1 ++ replicate_calls t2)%list.
Proof. apply omap_app. Qed.

Lemma replicate_calls_http {A} (f : A -> Request) (l : list A) :
  replicate_calls (map (fun a => EvHTTP (f a)) l) = [].
Proof. induction l as [| a l IH]; [done | by cbn]. Qed.

Lemma idb_calls_app (t1 t2 : list Event) :
  idb_calls (t1 ++ t2) = (idb_calls t1 ++ idb_calls t2)%list.
Proof. apply List.filter_app. Qed.

Lemma idb_calls_http {A} (f : A -> Request) (l : list A) :
  idb_calls (map (fun a => EvHTTP (f a)) l) = [].
Proof. induction l as [| a l IH]; [done | by cbn]. Qed.

(** Every primary is counted once, as good or as not found. *)
Lemma good_or_disagreeing (W : World) (ro : repObject) (dev : Device)
    (partition : Z) (nodes : list Device) :
  (length (good_nodes W ro dev partition nodes)
   + length (disagreeing W ro dev partition nodes) = length nodes)%nat.
Proof.
  unfold good_nodes, disagreeing.
  induction nodes as [| node nodes IH]; [done |]. cbn.
  destruct (sameDevice node dev), (agrees ro _); cbn; lia.
Qed.

Lemma disagreeing_nil (W : World) (ro : repObject) (dev : Device)
    (partition : Z) (nodes : list Device) :
  (forall node, In node nodes -> sameDevice node dev = false ->
     agrees ro (Do W (headRequest ro partition node)) = true) ->
  disagreeing W ro dev partition nodes = [].
Proof.
  unfold disagreeing. induction nodes as [| node nodes IH]; intros H; [done |].
  cbn. destruct (sameDevice node dev) eqn:Hself; cbn.
  - apply IH. intros n Hn. apply H. by right.
  - rewrite (H node) by (by left || done). cbn.
    apply IH. intros n Hn. apply H. by right.
Qed.

Lemma isStable_run (W : World) (ro : repObject) (dev : Device) (partition : Z)
    (s : State) :
  Deletion ro = false ->
  PartitionForHash (ring W) (Hash ro) = Some partition ->
  isStable W ro dev s =
    (((Z.of_nat (length (good_nodes W ro dev partition (GetNodes (ring W) partition)))
       =? ReplicaCount (ring W))%Z,
      disagreeing W ro dev partition (GetNodes (ring W) partition),
      None),
     {| idb := idb s;
        trace := (trace s
                  ++ map (fun node => EvHTTP (headRequest ro partition node))
                         (others dev (GetNodes (ring W) partition)))%list |}).
Proof.
  intros Hdel Hpart. unfold isStable. rewrite Hdel, Hpart.
  unfold mbind, M_bind. rewrite isStable_nodes_run. by cbn.
Qed.

(** [Replicate] is recorded once; it leaves the database alone unless the
    sending device is a handoff, in which case it may remove the local row,
    and that removal is then its only call on the database. *)
Lemma Replicate_run (W : World) (ro : repObject) (job : PriorityRepJob) (s : State) :
  let handoff := snd (GetJobNodes (ring W) (Partition job) (Id (FromDevice job))) in
  let '(err, s') := Replicate W ro job s in
  replicate_calls (trace s') = (replicate_calls (trace s) ++ [job])%list
  /\ (handoff = false -> idb s' = idb s)
  /\ (idb s' = idb s /\ idb_calls (trace s') = idb_calls (trace s)
      \/ handoff = true
         /\ idb s' = fst (IndexDB.Remove (idb s) (Hash ro) (Shard ro) (Timestamp ro)
                            (Nursery ro) (Metahash ro))
         /\ idb_calls (trace s')
            = (idb_calls (trace s)
               ++ [ EvRemove (Hash ro) (Shard ro) (Timestamp ro) (Nursery ro)
                      (Metahash ro) ])%list).
Proof.
  unfold Replicate. unfold_M. cbn.
  destruct (FileSize W (Path ro)) as [size |]; cbn.
  2: { rewrite replicate_calls_app, idb_calls_app. cbn. rewrite ?app_nil_r. by auto. }
  destruct (Do W (putRequest ro job)) as [r |]; cbn.
  2: { rewrite !replicate_calls_app, !idb_calls_app. cbn. rewrite ?app_nil_r.
       by auto. }
  destruct (negb (is2xx r || (StatusCode r =? 409)%Z)); cbn.
  { rewrite !replicate_calls_app, !idb_calls_app. cbn. rewrite ?app_nil_r. by auto. }
  destruct (snd (GetJobNodes (ring W) (Partition job) (Id (FromDevice job)))); cbn.
  - destruct (IndexDB.Remove (idb s) _ _ _ _ _) as [db [n e]]; cbn.
    rewrite !replicate_calls_app, !idb_calls_app. cbn. rewrite ?app_nil_r.
    split; [done |]. split; [done |]. right. by auto.
  - rewrite !replicate_calls_app, !idb_calls_app. cbn. rewrite ?app_nil_r. by auto.
Qed.

(** What [Replicate] does to the index database, by what the ring, the
    file system and the peer say: the local row is removed, by one call of
    [idb.Remove], exactly when the sending device is a handoff, the file
    opens and the peer accepts the PUT; in every other case no operation is
    called on the database, which is left as it was. *)
Lemma Replicate_removes_after_acceptance
    (W : World) (ro : repObject) (job : PriorityRepJob) (s : State) :
  let handoff := snd (GetJobNodes (ring W) (Partition job) (Id (FromDevice job))) in
  let s' := snd (Replicate W ro job s) in
  (handoff = true -> FileSize W (Path ro) <> None -> put_accepted W ro job = true ->
   idb s' = fst (IndexDB.Remove (idb s) (Hash ro) (Shard ro) (Timestamp ro)
                   (Nursery ro) (Metahash ro))
   /\ idb_calls (trace s')
      = (idb_calls (trace s)
         ++ [ EvRemove (Hash ro) (Shard ro) (Timestamp ro) (Nursery ro)
                (Metahash ro) ])%list)
  /\ (handoff = false \/ FileSize W (Path ro) = None \/ put_accepted W ro job = false ->
      idb s' = idb s /\ idb_calls (trace s') = idb_calls (trace s)).
Proof.
  unfold Replicate, put_accepted. unfold_M. cbn.
  destruct (FileSize W (Path ro)) as [size |]; cbn.
  2: { rewrite idb_calls_app. cbn. rewrite ?app_nil_r. by split. }
  destruct (Do W (putRequest ro job)) as [r |]; cbn.
  2: { rewrite !idb_calls_app. cbn. rewrite ?app_nil_r. by split. }
  destruct (is2xx r || (StatusCode r =? 409)%Z); cbn.
  2: { rewrite !idb_calls_app. cbn. rewrite ?app_nil_r. by split. }
  destruct (snd (GetJobNodes (ring W) (Partition job) (Id (FromDevice job)))); cbn.
  - destruct (IndexDB.Remove (idb s) _ _ _ _ _) as [db [n e]]; cbn.
    rewrite !idb_calls_app. cbn. rewrite ?app_nil_r.
    split; [done |]. by intros [H | [H | H]].
  - rewrite !idb_calls_app. cbn. rewrite ?app_nil_r. by split.
Qed.

(** *** The row of the object in the index database *)

Lemma Remove_own_row (db : IndexDB.t) (it : IndexDBItem) :
  IndexDB.reachable db = true ->
  IndexDB.rows db !! (Hash it, Shard it) = Some it ->
  IndexDB.Remove db (Hash it) (Shard it) (Timestamp it) (Nursery it) (Metahash it)
  = (IndexDB.with_rows db (delete (Hash it, Shard it) (IndexDB.rows db)),
     (1%Z, None)).
Proof.
  intros Hre Hrow. unfold IndexDB.Remove. rewrite Hre, Hrow. cbn.
  by rewrite Z.eqb_refl, eqb_reflx, String.eqb_refl.
Qed.

Lemma SetStabilized_own_row (db : IndexDB.t) (it : IndexDBItem) (flag : bool) :
  IndexDB.reachable db = true ->
  IndexDB.rows db !! (Hash it, Shard it) = Some it ->
  IndexDB.SetStabilized db (Hash it) (Shard it) (Timestamp it) flag
  = (IndexDB.with_rows db
       (<[(Hash it, Shard it) := IndexDB.stabilized it]> (IndexDB.rows db)),
     None).
Proof.
  intros Hre Hrow. unfold IndexDB.SetStabilized. rewrite Hre, Hrow. cbn.
  by rewrite Z.eqb_refl.
Qed.

(** C2. A nursery object that is neither a deletion nor to be restabilized,
    whose every other primary answers its own [X-Timestamp], the ring
    handing out as many primaries as its replica count: [Stabilize] returns
    [nil] having sent only the HEAD requests of the quorum check, so
    [Replicate] is never invoked; on a handoff device the local row is
    removed from the index database, on a primary its nursery flag is
    cleared, and no other row changes. *)
Theorem stabilize_promotes_on_full_agreement
    (W : World) (ro : repObject) (dev : Device) (partition : Z) (s : State) :
  Nursery ro = true ->
  Deletion ro = false ->
  Restabilize ro = false ->
  Shard ro = roShard ->
  PartitionForHash (ring W) (Hash ro) = Some partition ->
  (forall node, In node (GetNodes (ring W) partition) ->
     sameDevice node dev = false ->
     agrees ro (Do W (headRequest ro partition node)) = true) ->
  Z.of_nat (length (GetNodes (ring W) partition)) = ReplicaCount (ring W) ->
  IndexDB.reachable (idb s) = true ->
  IndexDB.rows (idb s) !! (Hash ro, Shard ro) = Some (item ro) ->
  exists s',
    Stabilize W ro dev s = (None, s')
    /\ trace s' = (trace s
                   ++ map (fun node => EvHTTP (headRequest ro partition node))
                          (others dev (GetNodes (ring W) partition))
                   ++ [ if snd (GetJobNodes (ring W) partition (Id dev))
                        then EvRemove (Hash ro) (Shard ro) (Timestamp ro)
                               (Nursery ro) (Metahash ro)
                        else EvSetStabilized (Hash ro) roShard (Timestamp ro) true ])%list
    /\ replicate_calls (trace s') = replicate_calls (trace s)
    /\ (if snd (GetJobNodes (ring W) partition (Id dev))
        then IndexDB.rows (idb s') !! (Hash ro, Shard ro) = None
        else Nursery <$> IndexDB.rows (idb s') !! (Hash ro, Shard ro) = Some false)
    /\ (forall key, key <> (Hash ro, Shard ro) ->
          IndexDB.rows (idb s') !! key = IndexDB.rows (idb s) !! key).
Proof.
  intros Hn Hd Hr Hshard Hpart Hagree Hcount Hre Hrow.
  pose proof (Remove_own_row (idb s) ro Hre Hrow) as Hrem.
  pose proof (SetStabilized_own_row (idb s) ro true Hre Hrow) as Hset.
  rewrite Hshard in Hset at 1.
  unfold Stabilize. rewrite Hpart, Hr, Hn, Hd. rewrite Hn in Hrem. cbn [negb].
  unfold mbind, M_bind. rewrite (isStable_run W ro dev partition s Hd Hpart).
  pose proof (good_or_disagreeing W ro dev partition (GetNodes (ring W) partition))
    as Hsplit.
  rewrite (disagreeing_nil _ _ _ _ _ Hagree) in *. cbn [length] in Hsplit.
  replace (Z.of_nat (length (good_nodes W ro dev partition
                               (GetNodes (ring W) partition)))
           =? ReplicaCount (ring W))%Z with true
    by (symmetry; apply Z.eqb_eq; lia).
  set (heads := map _ (others dev _)).
  assert (Hcalls : replicate_calls (trace s ++ heads) = replicate_calls (trace s)).
  { rewrite replicate_calls_app. unfold heads.
    by rewrite replicate_calls_http, app_nil_r. }
  destruct (snd (GetJobNodes (ring W) partition (Id dev))).
  - unfold on_idb. cbn [idb trace]. rewrite Hrem.
    eexists. split; [reflexivity |]. cbn [idb trace IndexDB.rows IndexDB.with_rows].
    split; [by rewrite app_assoc |].
    split; [by rewrite replicate_calls_app, Hcalls, app_nil_r |].
    split; [apply lookup_delete_eq |].
    intros key Hkey. by rewrite lookup_delete_ne.
  - unfold on_idb. cbn [idb trace]. rewrite Hset.
    eexists. split; [reflexivity |]. cbn [idb trace IndexDB.rows IndexDB.with_rows].
    split; [by rewrite app_assoc |].
    split; [by rewrite replicate_calls_app, Hcalls, app_nil_r |].
    split; [by rewrite lookup_insert_eq |].
    intros key Hkey. by rewrite lookup_insert_ne.
Qed.

(** C3, as the code has it.  A nursery object that is neither a deletion nor
    to be restabilized, the ring having three replicas and three primaries
    for the partition, exactly one peer unreachable or not answering the
    object's [X-Timestamp]: [Stabilize] invokes [Replicate] exactly once, with
    a job from the local device to that peer, and returns an error.  It never
    clears the nursery flag: on a primary the index database is left as it
    was; on a handoff device either the database is left as it was, no
    operation having been called on it, or its only change is the removal of
    the local row by [Replicate], after a push of a file that opened and that
    the peer accepted (a 2xx or a 409 answer to the PUT).  It is the answer
    of the peer that decides: when the file does not open or the peer does
    not accept the PUT, no operation is called on the database, which is left
    as it was, also on a handoff device; and on a handoff device an accepted
    push is followed by the removal. *)
Theorem stabilize_pushes_to_the_disagreeing_peer
    (W : World) (ro : repObject) (dev peer : Device) (partition : Z) (s : State) :
  Nursery ro = true ->
  Deletion ro = false ->
  Restabilize ro = false ->
  PartitionForHash (ring W) (Hash ro) = Some partition ->
  ReplicaCount (ring W) = 3%Z ->
  length (GetNodes (ring W) partition) = 3%nat ->
  disagreeing W ro dev partition (GetNodes (ring W) partition) = [peer] ->
  exists (err : error) (s' : State),
    Stabilize W ro dev s = (Some err, s')
    /\ replicate_calls (trace s')
       = (replicate_calls (trace s)
          ++ [ {| Partition := partition; FromDevice := dev; ToDevice := peer;
                  Policy := policy ro |} ])%list
    /\ (snd (GetJobNodes (ring W) partition (Id dev)) = false -> idb s' = idb s)
    /\ (idb s' = idb s /\ idb_calls (trace s') = idb_calls (trace s)
        \/ snd (GetJobNodes (ring W) partition (Id dev)) = true
           /\ FileSize W (Path ro) <> None
           /\ put_accepted W ro
                {| Partition := partition; FromDevice := dev; ToDevice := peer;
                   Policy := policy ro |} = true
           /\ idb s' = fst (IndexDB.Remove (idb s) (Hash ro) (Shard ro)
                              (Timestamp ro) (Nursery ro) (Metahash ro))
           /\ idb_calls (trace s')
              = (idb_calls (trace s)
                 ++ [ EvRemove (Hash ro) (Shard ro) (Timestamp ro) (Nursery ro)
                        (Metahash ro) ])%list)
    /\ (FileSize W (Path ro) = None
        \/ put_accepted W ro
             {| Partition := partition; FromDevice := dev; ToDevice := peer;
                Policy := policy ro |} = false ->
        idb s' = idb s /\ idb_calls (trace s') = idb_calls (trace s))
    /\ (snd (GetJobNodes (ring W) partition (Id dev)) = true ->
        FileSize W (Path ro) <> None ->
        put_accepted W ro
          {| Partition := partition; FromDevice := dev; ToDevice := peer;
             Policy := policy ro |} = true ->
        idb s' = fst (IndexDB.Remove (idb s) (Hash ro) (Shard ro)
                        (Timestamp ro) (Nursery ro) (Metahash ro))
        /\ idb_calls (trace s')
           = (idb_calls (trace s)
              ++ [ EvRemove (Hash ro) (Shard ro) (Timestamp ro) (Nursery ro)
                     (Metahash ro) ])%list).
Proof.
  intros Hn Hd Hr Hpart Hcount Hlen Hdis.
  unfold Stabilize. rewrite Hpart, Hr, Hd.
  replace (negb (Nursery ro)) with false by (by rewrite Hn).
  unfold mbind, M_bind. rewrite (isStable_run W ro dev partition s Hd Hpart).
  pose proof (good_or_disagreeing W ro dev partition (GetNodes (ring W) partition))
    as Hsplit.
  rewrite Hdis, Hlen in *. cbn [length] in Hsplit.
  replace (Z.of_nat (length (good_nodes W ro dev partition
                               (GetNodes (ring W) partition)))
           =? ReplicaCount (ring W))%Z with false
    by (symmetry; apply Z.eqb_neq; lia).
  set (heads := map _ (others dev _)).
  cbn [replicate_nodes]. unfold mbind, M_bind.
  set (job := {| Partition := partition; FromDevice := dev; ToDevice := peer;
                 Policy := policy ro |}).
  pose proof (Replicate_run W ro job {| idb := idb s; trace := trace s ++ heads |})
    as Hrun.
  pose proof (Replicate_removes_after_acceptance W ro job
                {| idb := idb s; trace := trace s ++ heads |}) as Hacc.
  destruct (Replicate W ro job {| idb := idb s; trace := trace s ++ heads |})
    as [e s2].
  cbn [idb trace snd Partition FromDevice job] in Hrun, Hacc.
  destruct Hrun as (Hcalls & Hprim & _). destruct Hacc as (Hremoved & Hkept).
  rewrite replicate_calls_app, idb_calls_app in *. unfold heads in *.
  rewrite replicate_calls_http, idb_calls_http, !app_nil_r in *.
  assert (Hcases : idb s2 = idb s /\ idb_calls (trace s2) = idb_calls (trace s)
                   \/ snd (GetJobNodes (ring W) partition (Id dev)) = true
                      /\ FileSize W (Path ro) <> None
                      /\ put_accepted W ro job = true
                      /\ idb s2 = fst (IndexDB.Remove (idb s) (Hash ro) (Shard ro)
                                         (Timestamp ro) (Nursery ro) (Metahash ro))
                      /\ idb_calls (trace s2)
                         = (idb_calls (trace s)
                            ++ [ EvRemove (Hash ro) (Shard ro) (Timestamp ro)
                                   (Nursery ro) (Metahash ro) ])%list).
  { destruct (snd (GetJobNodes (ring W) partition (Id dev))) eqn:Hh;
      [| left; apply Hkept; by left].
    destruct (FileSize W (Path ro)) as [size |] eqn:Hsize;
      [| left; apply Hkept; right; by left].
    destruct (put_accepted W ro job) eqn:Hput;
      [| left; apply Hkept; right; by right].
    right. destruct Hremoved as [H1 H2]; by auto. }
  assert (Hrefused : FileSize W (Path ro) = None \/ put_accepted W ro job = false ->
                     idb s2 = idb s /\ idb_calls (trace s2) = idb_calls (trace s)).
  { intros [H | H]; apply Hkept; [right; by left | right; by right]. }
  destruct e as [e |]; cbn; unfold mret, M_ret;
    (eexists _, _; split; [reflexivity |]; split; [exact Hcalls |];
     split; [exact Hprim |]; split; [exact Hcases |];
     split; [exact Hrefused | exact Hremoved]).
Qed.

(** C4, as the code has it.  A nursery object with the deletion flag set and
    the restabilize flag not set, the ring handing out as many primaries as
    its replica count: [Stabilize] sends DELETE to every other primary and
    nothing else; an answer 2xx, 409 or 404 is an acknowledgement; success
    implies replica count - 1 acknowledgements; any error leaves the index
    database as it was; and with replica count - 1 acknowledgements and the
    local row in a reachable database, [Stabilize] succeeds and the row is
    gone, the other rows being kept. *)
Theorem stabilize_delete_quorum
    (W : World) (ro : repObject) (dev : Device) (partition : Z) (s : State) :
  Nursery ro = true ->
  Deletion ro = true ->
  Restabilize ro = false ->
  PartitionForHash (ring W) (Hash ro) = Some partition ->
  Z.of_nat (length (GetNodes (ring W) partition)) = ReplicaCount (ring W) ->
  exists (err : option error) (s' : State),
    Stabilize W ro dev s = (err, s')
    /\ trace s'
       = (trace s
          ++ map (fun node => EvHTTP (deleteRequest ro node))
                 (others dev (GetNodes (ring W) partition))
          ++ if (Z.of_nat (length (delete_acks W ro dev (GetNodes (ring W) partition)))
                 =? ReplicaCount (ring W) - 1)%Z
             then [ EvRemove (Hash ro) (Shard ro) (Timestamp ro) (Nursery ro)
                      (Metahash ro) ]
             else [])%list
    /\ (forall r, is2xx r = true \/ StatusCode r = 409%Z \/ StatusCode r = 404%Z ->
          deleteAck (Some r) = true)
    /\ (err = None ->
          Z.of_nat (length (delete_acks W ro dev (GetNodes (ring W) partition)))
          = (ReplicaCount (ring W) - 1)%Z)
    /\ (err <> None -> idb s' = idb s)
    /\ (Z.of_nat (length (delete_acks W ro dev (GetNodes (ring W) partition)))
        = (ReplicaCount (ring W) - 1)%Z ->
        IndexDB.reachable (idb s) = true ->
        IndexDB.rows (idb s) !! (Hash ro, Shard ro) = Some (item ro) ->
        err = None
        /\ IndexDB.rows (idb s') = delete (Hash ro, Shard ro) (IndexDB.rows (idb s))).
Proof.
  intros Hn Hd Hr Hpart Hcount.
  assert (Hack : forall r, is2xx r = true \/ StatusCode r = 409%Z \/ StatusCode r = 404%Z ->
                   deleteAck (Some r) = true).
  { intros r [H | [H | H]]; unfold deleteAck; rewrite H; cbn;
      by rewrite ?orb_true_r. }
  unfold Stabilize. rewrite Hpart, Hr, Hd.
  replace (negb (Nursery ro)) with false by (by rewrite Hn).
  unfold stabilizeDelete. rewrite Hpart. cbn zeta.
  unfold mbind, M_bind. rewrite stabilizeDelete_nodes_run.
  set (acks := Z.of_nat (length (delete_acks W ro dev (GetNodes (ring W) partition)))).
  set (deletes := map _ (others dev _)).
  rewrite Hcount. rewrite Z.add_0_l.
  destruct (Z.eqb_spec (acks + 1) (ReplicaCount (ring W))) as [Heq | Hne]; cbn [negb].
  - replace (acks =? ReplicaCount (ring W) - 1)%Z with true
      by (symmetry; apply Z.eqb_eq; lia).
    unfold on_idb. cbn [idb trace].
    destruct (IndexDB.Remove (idb s) (Hash ro) (Shard ro) (Timestamp ro)
                (Nursery ro) (Metahash ro)) as [db [n e]] eqn:Hrem.
    eexists e, _. split; [reflexivity |]. cbn [idb trace].
    split; [by rewrite app_assoc |]. split; [exact Hack |].
    split; [intros _; lia |]. split.
    + intros He. unfold IndexDB.Remove in Hrem.
      destruct (negb (IndexDB.reachable (idb s))); [congruence |].
      destruct (IndexDB.rows (idb s) !! (Hash ro, Shard ro)) as [it |];
        [| congruence].
      destruct (_ && _); congruence.
    + intros _ Hre Hrow. rewrite Remove_own_row in Hrem by done.
      injection Hrem as <- _ <-. by cbn.
  - replace (acks =? ReplicaCount (ring W) - 1)%Z with false
      by (symmetry; apply Z.eqb_neq; lia).
    eexists _, _. split; [reflexivity |]. cbn [idb trace].
    split; [by rewrite app_nil_r |]. split; [exact Hack |].
    split; [discriminate |]. split; [done |]. intros H; lia.
Qed.

(** *** The theorems at work on the small cluster *)

Lemma commit_timestamp_monotone_witness :
  IndexDB.Commit fakeCodec (db_of [row1]) None hash1 0 1000 "PUT" meta1 true EmptyString
  = (db_of [row1], Some ErrConflict).
Proof.
  destruct (commit_timestamp_monotone fakeCodec (db_of [row1]) None hash1 0 1000
              "PUT" meta1 true EmptyString row1) as [Hstale _];
    [reflexivity | reflexivity |].
  apply Hstale. cbn. lia.
Defined.

Lemma commit_requires_timestamp_witness :
  Commit (fakeWorld peers_agree all_files) obj1 ∅ (state_of [row1])
  = ((obj1, Some ErrNoTimestamp), state_of [row1]).
Proof.
  destruct (commit_requires_timestamp (fakeWorld peers_agree all_files) obj1 ∅
              (state_of [row1])) as [Hput _]; [reflexivity | exact Hput].
Defined.

Lemma stabilize_promotes_on_full_agreement_witness :
  exists s',
    Stabilize (fakeWorld peers_agree all_files) obj1 drive1 (state_of [row1]) = (None, s')
    /\ replicate_calls (trace s') = []
    /\ Nursery <$> IndexDB.rows (idb s') !! (hash1, 0%Z) = Some false.
Proof.
  destruct (stabilize_promotes_on_full_agreement
              (fakeWorld peers_agree all_files) obj1 drive1 0 (state_of [row1])
              eq_refl eq_refl eq_refl eq_refl eq_refl
              (fun node _ _ => eq_refl) eq_refl eq_refl eq_refl)
    as (s' & Hrun & _ & Hcalls & Hrow & _).
  exists s'. split; [exact Hrun |]. split; [exact Hcalls | exact Hrow].
Defined.

(** On the primary drive1 the row is left as it was.  On the handoff drive0
    the row is removed once drive3 has accepted the push, and is left as it
    was when drive3 refuses it. *)
Lemma stabilize_pushes_to_the_disagreeing_peer_witness :
  (exists (err : error) (s' : State),
     Stabilize (fakeWorld peers_but_drive3 all_files) obj1 drive1 (state_of [row1])
     = (Some err, s')
     /\ replicate_calls (trace s')
        = [ {| Partition := 0; FromDevice := drive1; ToDevice := drive3; Policy := 0 |} ]
     /\ idb s' = db_of [row1])
  /\ (exists (err : error) (s' : State),
        Stabilize (fakeWorld peers_but_drive3 all_files) obj1 drive0 (state_of [row1])
        = (Some err, s')
        /\ IndexDB.rows (idb s') !! (hash1, 0%Z) = None
        /\ idb_calls (trace s') = [EvRemove hash1 0 1000 true "d41d8cd9"])
  /\ (exists (err : error) (s' : State),
        Stabilize (fakeWorld peers_but_drive3_refusing all_files) obj1 drive0
          (state_of [row1])
        = (Some err, s')
        /\ idb s' = db_of [row1]
        /\ idb_calls (trace s') = []).
Proof.
  split; [| split].
  - destruct (stabilize_pushes_to_the_disagreeing_peer
                (fakeWorld peers_but_drive3 all_files) obj1 drive1 drive3 0
                (state_of [row1]) eq_refl eq_refl eq_refl eq_refl eq_refl eq_refl eq_refl)
      as (err & s' & Hrun & Hcalls & Hprimary & _).
    exists err, s'. split; [exact Hrun |]. split; [exact Hcalls |].
    apply Hprimary. reflexivity.
  - destruct (stabilize_pushes_to_the_disagreeing_peer
                (fakeWorld peers_but_drive3 all_files) obj1 drive0 drive3 0
                (state_of [row1]) eq_refl eq_refl eq_refl eq_refl eq_refl eq_refl eq_refl)
      as (err & s' & Hrun & _ & _ & _ & _ & Hremoved).
    destruct (Hremoved eq_refl ltac:(discriminate) eq_refl) as [Hdb Hcalls].
    exists err, s'. split; [exact Hrun |]. rewrite Hdb, Hcalls. split; reflexivity.
  - destruct (stabilize_pushes_to_the_disagreeing_peer
                (fakeWorld peers_but_drive3_refusing all_files) obj1 drive0 drive3 0
                (state_of [row1]) eq_refl eq_refl eq_refl eq_refl eq_refl eq_refl eq_refl)
      as (err & s' & Hrun & _ & _ & _ & Hrefused & _).
    destruct (Hrefused (or_intror eq_refl)) as [Hdb Hcalls].
    exists err, s'. split; [exact Hrun |]. rewrite Hdb, Hcalls. split; reflexivity.
Defined.

(** C3 as it is written fails on a handoff device: the peer that lacked the
    object accepts the push, and [Replicate] then removes the local row, so
    no row with the nursery flag set is left. *)
Lemma stabilize_on_handoff_drops_the_row :
  ~ (forall (W : World) (ro : repObject) (dev peer : Device) (partition : Z)
            (s : State),
       Nursery ro = true ->
       Deletion ro = false ->
       Restabilize ro = false ->
       PartitionForHash (ring W) (Hash ro) = Some partition ->
       ReplicaCount (ring W) = 3%Z ->
       length (GetNodes (ring W) partition) = 3%nat ->
       disagreeing W ro dev partition (GetNodes (ring W) partition) = [peer] ->
       IndexDB.rows (idb s) !! (Hash ro, Shard ro) = Some (item ro) ->
       replicate_calls (trace (snd (Stabilize W ro dev s)))
       = (replicate_calls (trace s)
          ++ [ {| Partition := partition; FromDevice := dev; ToDevice := peer;
                  Policy := policy ro |} ])%list
       /\ Nursery <$> IndexDB.rows (idb (snd (Stabilize W ro dev s)))
                        !! (Hash ro, Shard ro) = Some true
       /\ is_Some (fst (Stabilize W ro dev s))).
Proof.
  intros Hclaim.
  destruct (Hclaim (fakeWorld peers_but_drive3 all_files) obj1 drive0 drive3 0%Z
              (state_of [row1]) eq_refl eq_refl eq_refl eq_refl eq_refl eq_refl
              eq_refl eq_refl) as (_ & Hflag & _).
  vm_compute in Hflag. discriminate.
Qed.

Lemma stabilize_delete_quorum_witness :
  exists (err : option error) (s' : State),
    Stabilize (fakeWorld peers_agree all_files) (object_of tombstone1) drive1
      (state_of [tombstone1]) = (err, s')
    /\ err = None
    /\ IndexDB.rows (idb s') = delete (hash1, 0%Z) (IndexDB.rows (db_of [tombstone1])).
Proof.
  destruct (stabilize_delete_quorum
              (fakeWorld peers_agree all_files) (object_of tombstone1) drive1 0
              (state_of [tombstone1]) eq_refl eq_refl eq_refl eq_refl eq_refl)
    as (err & s' & Hrun & _ & _ & _ & _ & Hquorum).
  exists err, s'. split; [exact Hrun |].
  apply Hquorum; reflexivity.
Defined.

(** C4 as it is written fails on a tombstone whose restabilize flag is set:
    [Stabilize] takes the restabilize path, which sends POST rather than
    DELETE and, on success, keeps the row. *)
Lemma stabilize_restabilizes_a_marked_tombstone :
  ~ (forall (W : World) (ro : repObject) (dev : Device) (partition : Z) (s : State),
       Nursery ro = true ->
       Deletion ro = true ->
       PartitionForHash (ring W) (Hash ro) = Some partition ->
       Z.of_nat (length (GetNodes (ring W) partition)) = ReplicaCount (ring W) ->
       IndexDB.reachable (idb s) = true ->
       IndexDB.rows (idb s) !! (Hash ro, Shard ro) = Some (item ro) ->
       trace (snd (Stabilize W ro dev s))
       = (trace s
          ++ map (fun node => EvHTTP (deleteRequest ro node))
                 (others dev (GetNodes (ring W) partition))
          ++ if (Z.of_nat (length (delete_acks W ro dev (GetNodes (ring W) partition)))
                 =? ReplicaCount (ring W) - 1)%Z
             then [ EvRemove (Hash ro) (Shard ro) (Timestamp ro) (Nursery ro)
                      (Metahash ro) ]
             else [])%list
       /\ (fst (Stabilize W ro dev s) = None ->
           IndexDB.rows (idb (snd (Stabilize W ro dev s))) !! (Hash ro, Shard ro)
           = None)).
Proof.
  intros Hclaim.
  destruct (Hclaim (fakeWorld peers_agree all_files) (object_of tombstone2) drive1
              0%Z (state_of [tombstone2]) eq_refl eq_refl eq_refl eq_refl eq_refl
              eq_refl) as (_ & Hrow).
  specialize (Hrow eq_refl). vm_compute in Hrow. discriminate.
Qed.

Lemma stabilize_stable_object_is_noop_witness :
  Stabilize (fakeWorld peers_agree all_files) (object_of stable1) drive1
    (state_of [stable1]) = (None, state_of [stable1]).
Proof.
  exact (stabilize_stable_object_is_noop (fakeWorld peers_agree all_files)
           (object_of stable1) drive1 (state_of [stable1]) eq_refl eq_refl).
Defined.

(** C10 as it is written fails when the ring cannot resolve the hash:
    [Stabilize] returns the ring's error, not [nil]. *)
Lemma stabilize_reports_the_ring_error :
  ~ (forall (W : World) (ro : repObject) (dev : Device) (s : State),
       Nursery ro = false ->
       Restabilize ro = false ->
       Stabilize W ro dev s = (None, s)).
Proof.
  intros Hclaim.
  specialize (Hclaim (fakeWorld peers_agree all_files) (object_of stray1) drive1
                (state_of [stray1]) eq_refl eq_refl).
  vm_compute in Hclaim. discriminate.
Qed.

(** ** Properties of the engines *)

Ltac unfold_E :=
  unfold engine_Do, record, set_idb, mbind, E_bind, mret, E_ret in *.

(** C6. When [New] finds a live row whose metadata and content length can
    be read and whose file can be stat-ed, a file size different from the
    declared length makes it quarantine the row at once and return an error
    and no object: the replication engine holds the size against the content
    length, the erasure-code engine against the content length for a nursery
    copy and against [ecShardLength(contentLength, dataShards)] for a stable
    shard.  The quarantine is the one thing [New] has done besides opening
    the database: the log of the engine afterwards is the log it was called
    with followed by the quarantine of the row found, and nothing else of
    the engine has changed since the database was opened. *)
Theorem new_quarantines_on_size_mismatch
    (W : World) (re : repEngine.t) (f : ecEngine.t) (vars : gmap string string)
    (needData : bool) (e e1 : Engine) (db : IndexDB.t) (it : IndexDBItem)
    (md : gmap string string) (size contentLength : Z) :
  getDB W (at_key vars "device") e = (Some db, e1) ->
  Unmarshal (codec W) (Metabytes it) = Some md ->
  Deletion it = false ->
  FileSize W (Path it) = Some size ->
  ParseInt (at_key md "Content-Length") = Some contentLength ->
  let quarantined :=
    {| idbs := idbs e1; stabItems := stabItems e1; stabReset := stabReset e1;
       log := (log e ++ [EvQuarantine it])%list; drawn := drawn e1 |} in
  (IndexDB.Lookup db (ObjHash (codec W) vars) roShard false = (Some it, None) ->
   size <> contentLength ->
   repEngine.New W re vars needData e
   = ((None, Some (ErrSizeMismatch size contentLength)), quarantined)
   /\ log (snd (repEngine.New W re vars needData e))
      = (log e ++ [EvQuarantine it])%list)
  /\ (IndexDB.Lookup db (ObjHash (codec W) vars) shardAny false = (Some it, None) ->
      size <> declared_length W f it contentLength ->
      exists err,
        ecEngine.New W f vars needData e = ((None, Some err), quarantined)
        /\ log (snd (ecEngine.New W f vars needData e))
           = (log e ++ [EvQuarantine it])%list
        /\ err = if Nursery it then ErrSizeMismatch size contentLength
                 else ErrShardSizeMismatch size (declared_length W f it contentLength))
  /\ log e1 = log e.
Proof.
  intros Hdb Hmd Hdel Hsize Hlen.
  assert (Hlog : log e1 = log e).
  { unfold getDB in Hdb. destruct (idbs e !! at_key vars "device").
    - by injection Hdb as _ <-.
    - destruct (NewIndexDB W (at_key vars "device")); [| done].
      by injection Hdb as _ <-. }
  cbn zeta. split; [| split; [| exact Hlog]].
  - intros Hlook Hne.
    assert (Hrun : repEngine.New W re vars needData e
                   = ((None, Some (ErrSizeMismatch size contentLength)),
                      {| idbs := idbs e1; stabItems := stabItems e1;
                         stabReset := stabReset e1;
                         log := (log e ++ [EvQuarantine it])%list;
                         drawn := drawn e1 |})).
    { unfold repEngine.New. unfold mbind, E_bind. rewrite Hdb, Hlook, Hmd, Hdel.
      cbn [negb]. rewrite Hsize, Hlen.
      destruct (Z.eqb_spec size contentLength) as [| _]; [done |].
      cbn [negb]. unfold record, mret, E_ret. by rewrite Hlog. }
    split; [exact Hrun | by rewrite Hrun].
  - intros Hlook Hne.
    assert (Hrun : ecEngine.New W f vars needData e
                   = ((None, Some (if Nursery it then ErrSizeMismatch size contentLength
                                   else ErrShardSizeMismatch size
                                          (declared_length W f it contentLength))),
                      {| idbs := idbs e1; stabItems := stabItems e1;
                         stabReset := stabReset e1;
                         log := (log e ++ [EvQuarantine it])%list;
                         drawn := drawn e1 |})).
    { unfold ecEngine.New. unfold mbind, E_bind. rewrite Hdb, Hlook, Hmd, Hdel.
      cbn [negb]. rewrite Hsize, Hlen. unfold declared_length in *.
      destruct (Nursery it); cbn [andb negb].
      - destruct (Z.eqb_spec size contentLength) as [| _]; [done |].
        cbn [negb]. unfold record, mret, E_ret. by rewrite Hlog.
      - destruct (Z.eqb_spec size (ecShardLength (codec W) contentLength
                                     (ecEngine.f_dataShards f))) as [| _]; [done |].
        cbn [negb]. unfold record, mret, E_ret. by rewrite Hlog. }
    eexists. split; [exact Hrun |]. split; [by rewrite Hrun | done].
Qed.

Lemma new_quarantines_on_size_mismatch_witness :
  (repEngine.New (fakeWorld peers_agree long_files) re0 vars1 true (engine_of [row1])
   = ((None, Some (ErrSizeMismatch 5 4)),
      {| idbs := idbs (engine_of [row1]); stabItems := ∅; stabReset := 0;
         log := [EvQuarantine row1]; drawn := 0 |})
   /\ log (snd (repEngine.New (fakeWorld peers_agree long_files) re0 vars1 true
                  (engine_of [row1]))) = [EvQuarantine row1])
  /\ exists err,
       ecEngine.New (fakeWorld peers_agree long_files) f0 vars1 true (engine_of [row1])
       = ((None, Some err),
          {| idbs := idbs (engine_of [row1]); stabItems := ∅; stabReset := 0;
             log := [EvQuarantine row1]; drawn := 0 |})
       /\ log (snd (ecEngine.New (fakeWorld peers_agree long_files) f0 vars1 true
                      (engine_of [row1]))) = [EvQuarantine row1]
       /\ err = ErrSizeMismatch 5 4.
Proof.
  destruct (new_quarantines_on_size_mismatch
              (fakeWorld peers_agree long_files) re0 f0 vars1 true
              (engine_of [row1]) (engine_of [row1]) (db_of [row1]) row1 meta1 5 4
              eq_refl eq_refl eq_refl eq_refl eq_refl) as (Hrep & Hec & _).
  split.
  - apply Hrep; [reflexivity | discriminate].
  - apply Hec; [reflexivity | discriminate].
Defined.

(** ** Properties of the planner *)

Lemma diff_slots_same (partition policy : Z) (devs : list Device) :
  diff_slots partition policy devs devs = [].
Proof.
  induction devs as [| d devs IH]; [done |]. cbn.
  by rewrite Z.eqb_refl, IH.
Qed.

Lemma part_jobs_same (oldRing : list (list Device)) (excluded : list Z) (policy : Z) :
  forall partition, part_jobs partition oldRing oldRing excluded policy = [].
Proof.
  induction oldRing as [| devs oldRing IH]; intros partition; [done |]. cbn.
  rewrite IH, diff_slots_same. by destruct (existsb _ _).
Qed.

Lemma diff_slots_update (partition policy : Z) (devs : list Device) (i : nat)
    (o n : Device) :
  devs !! i = Some o ->
  Id o <> Id n ->
  diff_slots partition policy devs (<[i := n]> devs)
  = [ {| Partition := partition; FromDevice := o; ToDevice := n; Policy := policy |} ].
Proof.
  revert i. induction devs as [| d devs IH]; intros i Hi Hne; [done |].
  destruct i as [| i]; cbn in *.
  - injection Hi as ->. rewrite diff_slots_same.
    by destruct (Z.eqb_spec (Id o) (Id n)).
  - rewrite Z.eqb_refl. by apply (IH i).
Qed.

Lemma part_jobs_update (oldRing : list (list Device)) (excluded : list Z)
    (policy : Z) (p : nat) (olddevs newdevs : list Device) :
  forall partition,
  oldRing !! p = Some olddevs ->
  part_jobs partition oldRing (<[p := newdevs]> oldRing) excluded policy
  = if existsb (Z.eqb (partition + Z.of_nat p)) excluded then []
    else diff_slots (partition + Z.of_nat p) policy olddevs newdevs.
Proof.
  revert p. induction oldRing as [| devs oldRing IH]; intros p partition Hp; [done |].
  destruct p as [| p]; cbn in *.
  - injection Hp as ->. rewrite part_jobs_same, app_nil_r.
    by rewrite Z.add_0_r.
  - rewrite diff_slots_same, (IH p) by done.
    replace (partition + 1 + Z.of_nat p)%Z with (partition + Z.pos (Pos.of_succ_nat p))%Z
      by lia.
    by destruct (existsb (Z.eqb partition) excluded).
Qed.

Lemma diff_slots_partition (partition policy : Z) (olddevs newdevs : list Device)
    (job : PriorityRepJob) :
  In job (diff_slots partition policy olddevs newdevs) -> Partition job = partition.
Proof.
  revert newdevs. induction olddevs as [| o olddevs IH]; intros [| n newdevs]; cbn;
    try done.
  intros Hin. apply in_app_or in Hin as [Hin | Hin]; [| by eapply IH].
  destruct (Id o =? Id n)%Z; [done |]. by destruct Hin as [<- | []].
Qed.

Lemma part_jobs_skip_excluded (oldRing newRing : list (list Device))
    (excluded : list Z) (policy : Z) (job : PriorityRepJob) :
  forall partition,
  In job (part_jobs partition oldRing newRing excluded policy) ->
  ~ In (Partition job) excluded.
Proof.
  revert newRing. induction oldRing as [| o oldRing IH]; intros [| n newRing] partition;
    cbn; try done.
  intros Hin. apply in_app_or in Hin as [Hin | Hin]; [| by eapply IH].
  destruct (existsb (Z.eqb partition) excluded) eqn:Hex; [done |].
  apply diff_slots_partition in Hin as ->. intros Hin.
  assert (existsb (Z.eqb partition) excluded = true); [| congruence].
  apply existsb_exists. exists partition. split; [done | apply Z.eqb_refl].
Qed.

(** C8.  [getPartMoveJobs] is a function of its arguments.  On identical
    rings it returns no job; when the new ring differs from the old one in
    one slot of one partition that is not excluded, it returns exactly one
    job, for that partition, from the old device of the slot to the new one;
    and whatever the rings, no job is returned for an excluded partition. *)
Theorem getPartMoveJobs_is_a_diff
    (oldRing : list (list Device)) (excluded : list Z) (policy : Z)
    (p i : nat) (olddevs : list Device) (o n : Device) :
  oldRing !! p = Some olddevs ->
  olddevs !! i = Some o ->
  Id o <> Id n ->
  ~ In (Z.of_nat p) excluded ->
  getPartMoveJobs oldRing oldRing excluded policy = []
  /\ getPartMoveJobs oldRing (<[p := <[i := n]> olddevs]> oldRing) excluded policy
     = [ {| Partition := Z.of_nat p; FromDevice := o; ToDevice := n;
            Policy := policy |} ]
  /\ (forall newRing job,
        In job (getPartMoveJobs oldRing newRing excluded policy) ->
        ~ In (Partition job) excluded).
Proof.
  intros Hp Hi Hne Hex. unfold getPartMoveJobs. split; [apply part_jobs_same |].
  split; [| intros newRing job; apply part_jobs_skip_excluded].
  rewrite (part_jobs_update oldRing excluded policy p olddevs _ 0%Z Hp).
  rewrite Z.add_0_l.
  destruct (existsb (Z.eqb (Z.of_nat p)) excluded) eqn:Hin.
  - apply existsb_exists in Hin as (q & Hq & Heq).
    apply Z.eqb_eq in Heq as <-. done.
  - by apply diff_slots_update.
Qed.

Lemma getPartMoveJobs_is_a_diff_witness :
  getPartMoveJobs testOldRing testOldRing [] 3 = []
  /\ getPartMoveJobs testOldRing
       (<[1%nat := <[4%nat := testDevice 11]> (List.map testDevice [6; 7; 8; 9; 10]%Z)]>
          testOldRing) [] 3
     = [ {| Partition := 1; FromDevice := testDevice 10; ToDevice := testDevice 11;
            Policy := 3 |} ].
Proof.
  destruct (getPartMoveJobs_is_a_diff testOldRing [] 3 1 4
              (List.map testDevice [6; 7; 8; 9; 10]%Z) (testDevice 10) (testDevice 11)
              eq_refl eq_refl) as (Hsame & Hone & _).
  - cbn. discriminate.
  - cbn. tauto.
  - split; [exact Hsame | exact Hone].
Defined.

(** The planner on the rings of [TestGetPartMoveJobs] returns what the test
    requires. *)
Lemma getPartMoveJobs_test :
  List.map (fun job => (Partition job, Id (FromDevice job), Id (ToDevice job), Policy job))
           (getPartMoveJobs testOldRing testNewRing [] 3)
  = [ (0, 1, 6, 3); (1, 10, 11, 3) ]%Z.
Proof. reflexivity. Qed.

(** ** Properties of the stabilization feed *)

Lemma swap_Permutation {A} (objs : list A) (j i : nat) : swap objs j i ≡ₚ objs.
Proof.
  unfold swap.
  destruct (objs !! i) as [oi |] eqn:Hi; [| done].
  destruct (objs !! j) as [oj |] eqn:Hj; [| done].
  by apply Permutation_insert_swap.
Qed.

Lemma swap_map {A B} (g : A -> B) (objs : list A) (j i : nat) :
  fmap g (swap objs j i) = swap (List.map g objs) j i.
Proof.
  unfold swap. rewrite !list_lookup_fmap.
  destruct (objs !! i) as [oi |]; [| done].
  destruct (objs !! j) as [oj |]; [| done].
  cbn. by rewrite !list_fmap_insert.
Qed.

Lemma shuffle_from_Permutation (W : World) {A} (i : nat) :
  forall (k : nat) (objs : list A), shuffle_from W i k objs ≡ₚ objs.
Proof.
  induction i as [| i IH]; intros k objs; [done |].
  cbn [shuffle_from]. rewrite IH. apply swap_Permutation.
Qed.

Lemma shuffle_from_map (W : World) {A B} (g : A -> B) (i : nat) :
  forall (k : nat) (objs : list A),
  fmap g (shuffle_from W i k objs) = shuffle_from W i k (List.map g objs).
Proof.
  induction i as [| i IH]; intros k objs; [done |].
  cbn [shuffle_from]. by rewrite IH, swap_map.
Qed.

Lemma shuffle_map (W : World) {A B} (g : A -> B) (k : nat) (objs : list A) :
  fmap g (shuffle W k objs) = shuffle W k (List.map g objs).
Proof. unfold shuffle. by rewrite shuffle_from_map, length_fmap. Qed.

Lemma rep_stabilize_objects_items (W : World) (re : repEngine.t)
    (idbItems : list IndexDBItem) :
  fmap item (repEngine.stabilize_objects W re idbItems)
  = List.filter (readable W) idbItems.
Proof.
  unfold readable. induction idbItems as [| it rest IH]; [done |]. cbn.
  destruct (Unmarshal (codec W) (Metabytes it)); cbn; by rewrite IH.
Qed.

Lemma ec_stabilize_objects_items (W : World) (f : ecEngine.t)
    (idbItems : list IndexDBItem) :
  fmap ec_item (ecEngine.stabilize_objects W f idbItems)
  = List.filter (readable W) idbItems.
Proof.
  unfold readable. induction idbItems as [| it rest IH]; [done |]. cbn.
  destruct (Unmarshal (codec W) (Metabytes it)); cbn; by rewrite IH.
Qed.

(** X22. What the two engines send when the database of the device opens and
    lists: both first expire old tombstones and then list the nursery
    candidates of the purged database.  The erasure-code engine sends the
    candidates with readable metadata after the shuffle driven by the random
    source, hence in an order that is a permutation of the listing order; the
    replication engine sends them in listing order. *)
Lemma getObjectsToStabilize_order
    (W : World) (re : repEngine.t) (f : ecEngine.t) (device : Device)
    (e e1 : Engine) (db : IndexDB.t) (idbItems : list IndexDBItem) :
  getDB W (Dev device) e = (Some db, e1) ->
  IndexDB.ListObjectsToStabilize (IndexDB.ExpireObjects (codec W) db)
  = (idbItems, None) ->
  (exists e',
     fmap item (fst (repEngine.getObjectsToStabilize W re device e))
     = List.filter (readable W) idbItems
     /\ snd (repEngine.getObjectsToStabilize W re device e) = e'
     /\ log e' = (log e1 ++ [EvExpire])%list
     /\ idbs e' !! Dev device = Some (IndexDB.ExpireObjects (codec W) db))
  /\ (exists e',
        fmap ec_item (fst (ecEngine.getObjectsToStabilize W f device e))
        = shuffle W (drawn e1) (List.filter (readable W) idbItems)
        /\ fmap ec_item (fst (ecEngine.getObjectsToStabilize W f device e))
           ≡ₚ List.filter (readable W) idbItems
        /\ snd (ecEngine.getObjectsToStabilize W f device e) = e'
        /\ log e' = (log e1 ++ [EvExpire])%list
        /\ idbs e' !! Dev device = Some (IndexDB.ExpireObjects (codec W) db)).
Proof.
  intros Hdb Hlist. split.
  - unfold repEngine.getObjectsToStabilize, expire. unfold_E. rewrite Hdb. cbn.
    rewrite Hlist. cbn. eexists. split; [apply rep_stabilize_objects_items |].
    split; [reflexivity |]. cbn. split; [done | apply lookup_insert_eq].
  - unfold ecEngine.getObjectsToStabilize, expire, ecEngine.updateItemsBeingStabilized, shuffled.
    unfold_E. rewrite Hdb. cbn. rewrite Hlist. cbn.
    eexists. rewrite shuffle_map, ec_stabilize_objects_items.
    split; [done |]. split; [apply shuffle_from_Permutation |].
    split; [reflexivity |]. cbn. split; [done | apply lookup_insert_eq].
Qed.

Lemma getObjectsToStabilize_order_witness :
  fmap item (fst (repEngine.getObjectsToStabilize (fakeWorld peers_agree all_files) re0
                        drive1 (engine_of [row1; row2])))
  = [row1; row2]
  /\ fmap ec_item (fst (ecEngine.getObjectsToStabilize (fakeWorld peers_agree all_files) f0
                              drive1 (engine_of [row1; row2])))
     ≡ₚ [row1; row2].
Proof.
  destruct (getObjectsToStabilize_order (fakeWorld peers_agree all_files) re0 f0
              drive1 (engine_of [row1; row2]) (engine_of [row1; row2])
              (db_of [row1; row2]) [row1; row2] eq_refl eq_refl)
    as [(e1 & Hrep & _) (e2 & _ & Hec & _)].
  split; [exact Hrep | exact Hec].
Defined.

(** No shuffle decides what the replication engine sends: it is not the
    case that its output is the shuffle of the candidates. *)
Lemma rep_engine_does_not_shuffle :
  ~ (forall (W : World) (re : repEngine.t) (device : Device) (e e1 : Engine)
            (db : IndexDB.t) (idbItems : list IndexDBItem),
       getDB W (Dev device) e = (Some db, e1) ->
       IndexDB.ListObjectsToStabilize (IndexDB.ExpireObjects (codec W) db)
       = (idbItems, None) ->
       fmap item (fst (repEngine.getObjectsToStabilize W re device e))
       = shuffle W (drawn e1) (List.filter (readable W) idbItems)).
Proof.
  intros Hclaim.
  specialize (Hclaim (fakeWorld peers_agree all_files) re0 drive1
                (engine_of [row1; row2]) (engine_of [row1; row2])
                (db_of [row1; row2]) [row1; row2] eq_refl eq_refl).
  vm_compute in Hclaim. discriminate.
Qed.

(** C9 does not hold of the replication engine.  On the database of drive1
    holding two nursery candidates, with a random source whose first draw
    is 0, the erasure-code engine sends the second candidate first, as the
    shuffle has it, and both engines expire before they list; the
    replication engine sends the candidates in hash order, as listed. *)
Theorem rep_engine_sends_in_listing_order :
  item <$> fst (repEngine.getObjectsToStabilize (fakeWorld peers_agree all_files) re0
                  drive1 (engine_of [row1; row2]))
  = [row1; row2]
  /\ ec_item <$> fst (ecEngine.getObjectsToStabilize (fakeWorld peers_agree all_files) f0
                        drive1 (engine_of [row1; row2]))
     = [row2; row1]
  /\ log (snd (repEngine.getObjectsToStabilize (fakeWorld peers_agree all_files) re0
                 drive1 (engine_of [row1; row2]))) = [EvExpire]
  /\ log (snd (ecEngine.getObjectsToStabilize (fakeWorld peers_agree all_files) f0
                 drive1 (engine_of [row1; row2]))) = [EvExpire].
Proof. repeat split; reflexivity. Qed.

(** ** Properties of the replication feed *)

(** *** The order of hashes *)

Lemma ltb_lt (a b : string) : String.ltb a b = true <-> String_as_OT.lt a b.
Proof.
  unfold String.ltb. rewrite <- String_as_OT.cmp_lt. unfold String_as_OT.cmp.
  destruct (String.compare a b); split; congruence.
Qed.

Lemma ltb_irrefl (a : string) : String.ltb a a = false.
Proof.
  destruct (String.ltb a a) eqn:H; [| done].
  apply ltb_lt in H. by apply String_as_OT.lt_not_eq in H.
Qed.

Lemma ltb_trans (a b c : string) :
  String.ltb a b = true -> String.ltb b c = true -> String.ltb a c = true.
Proof. rewrite !ltb_lt. apply String_as_OT.lt_trans. Qed.

Lemma ltb_trichotomy (a b : string) :
  String.ltb a b = false -> String.ltb b a = false -> a = b.
Proof.
  unfold String.ltb. rewrite (String.compare_antisym b a).
  destruct (String.compare a b) eqn:H; cbn; try done.
  intros _ _. by apply String.compare_eq_iff.
Qed.

Lemma same_version_hash (r it : IndexDBItem) :
  same_version r it = true -> Hash r = Hash it.
Proof.
  unfold same_version. rewrite !andb_true_iff. intros [[[H _] _] _].
  by apply String.eqb_eq.
Qed.

Lemma same_version_lt (r it : IndexDBItem) :
  String.ltb (Hash r) (Hash it) = true \/ String.ltb (Hash it) (Hash r) = true ->
  same_version r it = false.
Proof.
  intros H. destruct (same_version r it) eqn:Hsame; [| done].
  apply same_version_hash in Hsame. rewrite Hsame, ltb_irrefl in H.
  by destruct H.
Qed.

(** The claim's wording of [has_counterpart]: some remote item has the same
    [(hash, timestamp, nursery, deletion)] tuple. *)
Lemma has_counterpart_version (it : IndexDBItem) (remoteItems : list IndexDBItem) :
  has_counterpart it remoteItems = true
  <-> exists r, In r remoteItems /\ version r = version it.
Proof.
  unfold has_counterpart, version, same_version. rewrite existsb_exists.
  split; intros (r & Hin & H); exists r; (split; [done |]).
  - rewrite !andb_true_iff in H. destruct H as [[[Hh Ht] Hn] Hd].
    apply String.eqb_eq in Hh. apply Z.eqb_eq in Ht.
    apply eqb_prop in Hn, Hd. congruence.
  - injection H as -> -> -> ->.
    by rewrite String.eqb_refl, Z.eqb_refl, !eqb_reflx.
Qed.

Lemma has_counterpart_cons (it r : IndexDBItem) (rest : list IndexDBItem) :
  has_counterpart it (r :: rest) = same_version r it || has_counterpart it rest.
Proof. reflexivity. Qed.

Lemma no_counterpart_above (it : IndexDBItem) (remoteItems : list IndexDBItem) :
  Forall (fun r => String.ltb (Hash it) (Hash r) = true) remoteItems ->
  has_counterpart it remoteItems = false.
Proof.
  induction 1 as [| r rest Hr _ IH]; [done |].
  rewrite has_counterpart_cons, IH, same_version_lt; by auto.
Qed.

(** The inner loop decides whether the remote list holds the version of the
    item, and what it consumes holds the version of no later item. *)
Lemma scan_remote_spec (it : IndexDBItem) (remoteItems : list IndexDBItem) :
  StronglySorted hash_lt remoteItems ->
  fst (scan_remote it remoteItems) = negb (has_counterpart it remoteItems)
  /\ StronglySorted hash_lt (snd (scan_remote it remoteItems))
  /\ (forall it', String.ltb (Hash it) (Hash it') = true ->
        has_counterpart it' (snd (scan_remote it remoteItems))
        = has_counterpart it' remoteItems).
Proof.
  induction 1 as [| r rest Hsorted IH Hr].
  { cbn. split; [done |]. split; [constructor | done]. }
  cbn [scan_remote].
  destruct (String.ltb (Hash it) (Hash r)) eqn:Hlt.
  - cbn [fst snd]. split; [| split; [by constructor | done]].
    rewrite (no_counterpart_above it (r :: rest)); [done |].
    constructor; [done |]. eapply Forall_impl; [exact Hr |].
    intros x Hx. by eapply ltb_trans.
  - destruct (String.ltb (Hash r) (Hash it)) eqn:Hgt.
    + destruct IH as (IH1 & IH2 & IH3).
      split; [| split; [done |]].
      * rewrite IH1, has_counterpart_cons, (same_version_lt r it); by auto.
      * intros it' Hit'.
        rewrite IH3, has_counterpart_cons, (same_version_lt r it'); [done | | done].
        left. by eapply ltb_trans.
    + cbn [fst snd]. assert (Hash it = Hash r) as Heq by (by apply ltb_trichotomy).
      split; [| split; [done |]].
      * rewrite has_counterpart_cons, (no_counterpart_above it rest), orb_false_r;
          [done |].
        eapply Forall_impl; [exact Hr |]. intros x Hx. unfold hash_lt in Hx.
        by rewrite Heq.
      * intros it' Hit'.
        rewrite has_counterpart_cons, (same_version_lt r it'); [done |].
        left. by rewrite <- Heq.
Qed.

(** *** The merge *)

Lemma missing_on_remote_cons (W : World) (it : IndexDBItem)
    (items remoteItems : list IndexDBItem) :
  missing_on_remote W (it :: items) remoteItems
  = if negb (Nursery it) && negb (has_counterpart it remoteItems) && sendable W it
    then it :: missing_on_remote W items remoteItems
    else missing_on_remote W items remoteItems.
Proof. reflexivity. Qed.

Lemma missing_on_remote_later (W : World) (it : IndexDBItem)
    (items remoteItems : list IndexDBItem) :
  StronglySorted hash_lt remoteItems ->
  Forall (hash_lt it) items ->
  missing_on_remote W items (snd (scan_remote it remoteItems))
  = missing_on_remote W items remoteItems.
Proof.
  intros Hsorted Hlater. unfold missing_on_remote. apply filter_ext_in.
  intros it' Hin. rewrite List.Forall_forall in Hlater.
  destruct (scan_remote_spec it remoteItems Hsorted) as (_ & _ & Htail).
  rewrite Htail; [done |]. by apply Hlater.
Qed.

Lemma rep_merge_spec (W : World) (re : repEngine.t) (items : list IndexDBItem) :
  StronglySorted hash_lt items ->
  forall remoteItems, StronglySorted hash_lt remoteItems ->
  item <$> repEngine.merge W re items remoteItems
  = located W <$> missing_on_remote W items remoteItems.
Proof.
  induction 1 as [| it items Hsorted IH Hlater]; intros remoteItems Hremote; [done |].
  rewrite missing_on_remote_cons. cbn [repEngine.merge].
  destruct (Nursery it) eqn:Hn; [by apply IH |]. cbn [negb andb].
  destruct (scan_remote_spec it remoteItems Hremote) as (Hsend & Hsorted' & _).
  pose proof (missing_on_remote_later W it items remoteItems Hremote Hlater) as Hrest.
  destruct (scan_remote it remoteItems) as [sendItem remoteItems']. cbn [fst snd] in *.
  specialize (IH remoteItems' Hsorted').
  rewrite <- Hrest, <- Hsend. unfold sendable, readable. rewrite Hn.
  destruct (Unmarshal (codec W) (Metabytes it)) as [md |];
    [| by rewrite andb_false_r].
  destruct (WholeObjectPath (codec W) (Hash it) (Shard it) (Timestamp it) false)
    as [path |] eqn:Hpath; [| by rewrite andb_false_r].
  destruct sendItem; [| done]. cbn. f_equal; [| exact IH].
  unfold located. by rewrite Hn, Hpath.
Qed.

(** The two engines send the same rows. *)
Lemma ec_merge_items (W : World) (re : repEngine.t) (f : ecEngine.t)
    (items : list IndexDBItem) :
  forall remoteItems,
  ec_item <$> ecEngine.merge W f items remoteItems
  = item <$> repEngine.merge W re items remoteItems.
Proof.
  induction items as [| it items IH]; intros remoteItems; [done |].
  cbn [ecEngine.merge repEngine.merge].
  destruct (Nursery it); [by apply IH |].
  destruct (scan_remote it remoteItems) as [sendItem remoteItems'].
  destruct sendItem, (Unmarshal (codec W) (Metabytes it)) as [md |]; try apply IH;
    destruct (WholeObjectPath (codec W) (Hash it) (Shard it) (Timestamp it) false)
      as [path |]; try apply IH.
  cbn. by rewrite IH.
Qed.

Lemma missing_on_remote_In (W : World) (items remoteItems : list IndexDBItem)
    (it : IndexDBItem) :
  In it (missing_on_remote W items remoteItems)
  <-> In it items /\ Nursery it = false /\ sendable W it = true
      /\ ~ (exists r, In r remoteItems /\ version r = version it).
Proof.
  unfold missing_on_remote. rewrite filter_In, !andb_true_iff, !negb_true_iff.
  rewrite <- has_counterpart_version, not_true_iff_false. tauto.
Qed.

(** C5, as the code has it.  The local list [L] of the job's partition and
    the list [R] the destination answers with both ascending in hash with no
    hash repeated: [GetObjectsToReplicate], in either engine, sends exactly
    the rows of [L], in order and at their whole-object path, that are out
    of the nursery, whose metadata reads and path builds, and whose
    [(hash, timestamp, nursery, deletion)] tuple no row of [R] has; it never
    sends a row whose nursery flag is set. *)
Theorem GetObjectsToReplicate_sends_what_the_remote_lacks
    (W : World) (re : repEngine.t) (f : ecEngine.t) (prirep : PriorityRepJob)
    (e e1 : Engine) (db : IndexDB.t) (L R : list IndexDBItem) (err : option error) :
  getDB W (Dev (FromDevice prirep)) e = (Some db, e1) ->
  IndexDB.List db (fst (RingPartRange (codec W) (Partition prirep)))
    (snd (RingPartRange (codec W) (Partition prirep))) EmptyString 0 = (L, err) ->
  (forall route, exists r data,
     Do W (partitionRequest route prirep) = Some r
     /\ is2xx r = true /\ Body r = Some data /\ UnmarshalItems (codec W) data = R) ->
  StronglySorted hash_lt L ->
  StronglySorted hash_lt R ->
  item <$> fst (repEngine.GetObjectsToReplicate W re prirep e)
  = located W <$> missing_on_remote W L R
  /\ ec_item <$> fst (ecEngine.GetObjectsToReplicate W f prirep e)
     = located W <$> missing_on_remote W L R
  /\ Forall (fun it => Nursery it = false) (missing_on_remote W L R)
  /\ (forall it,
        In it (missing_on_remote W L R)
        <-> In it L /\ Nursery it = false /\ sendable W it = true
            /\ ~ (exists r, In r R /\ version r = version it)).
Proof.
  intros Hdb Hlist Hfetch HL HR.
  assert (Hremote : forall route,
             exists r, Do W (partitionRequest route prirep) = Some r
                       /\ remote_items W (Some r) = R).
  { intros route. destruct (Hfetch route) as (r & data & Hdo & H2 & Hbody & Hdata).
    exists r. split; [done |]. unfold remote_items. by rewrite H2, Hbody. }
  split; [| split; [| split]].
  - unfold repEngine.GetObjectsToReplicate. unfold_E. rewrite Hdb.
    destruct (RingPartRange (codec W) (Partition prirep)) as [startHash stopHash].
    cbn [fst snd] in Hlist. rewrite Hlist.
    destruct L as [| it L]; [done |]. cbn [length Nat.eqb].
    destruct (Hremote "rep-partition") as (r & -> & Hr). cbn [fst].
    rewrite Hr. by apply rep_merge_spec.
  - unfold ecEngine.GetObjectsToReplicate. unfold_E. rewrite Hdb.
    destruct (RingPartRange (codec W) (Partition prirep)) as [startHash stopHash].
    cbn [fst snd] in Hlist. rewrite Hlist.
    destruct L as [| it L]; [done |]. cbn [length Nat.eqb].
    destruct (Hremote "ec-partition") as (r & -> & Hr). cbn [fst].
    rewrite Hr, (ec_merge_items W re). by apply rep_merge_spec.
  - apply List.Forall_forall. intros it Hin.
    by apply missing_on_remote_In in Hin as (_ & ? & _).
  - intros it. apply missing_on_remote_In.
Qed.

Lemma GetObjectsToReplicate_sends_what_the_remote_lacks_witness :
  item <$> fst (repEngine.GetObjectsToReplicate (listingWorld [stable1]) re0 job12
                  (engine_of [stable1; stable2]))
  = [stable2]
  /\ ec_item <$> fst (ecEngine.GetObjectsToReplicate (listingWorld [stable1]) f0 job12
                        (engine_of [stable1; stable2]))
     = [stable2].
Proof.
  assert (HL : StronglySorted hash_lt [stable1; stable2]).
  { repeat constructor. }
  assert (HR : StronglySorted hash_lt [stable1]).
  { repeat constructor. }
  destruct (GetObjectsToReplicate_sends_what_the_remote_lacks
              (listingWorld [stable1]) re0 f0 job12
              (engine_of [stable1; stable2]) (engine_of [stable1; stable2])
              (db_of [stable1; stable2]) [stable1; stable2] [stable1] None
              eq_refl eq_refl
              (fun route => ex_intro _ _ (ex_intro _ "[...]"
                 (conj eq_refl (conj eq_refl (conj eq_refl eq_refl)))))
              HL HR) as (Hrep & Hec & _).
  split; [exact Hrep | exact Hec].
Defined.

(** C5 as it is written fails in two ways.  First, on lists that are in hash
    order but repeat a hash: the remote holds shard 0 of an older version of
    the object and shard 1 of the current one, the local device holds that
    shard 1, and the merge, which holds each local row against one remote row
    only, sends the local row although the remote has its version.  Second,
    on a row whose metadata does not read: the row is skipped although the
    remote, which is empty, lacks it. *)
Lemma replicate_feed_counterexamples :
  ~ (forall (W : World) (f : ecEngine.t) (prirep : PriorityRepJob) (e e1 : Engine)
            (db : IndexDB.t) (L R : list IndexDBItem) (err : option error),
       getDB W (Dev (FromDevice prirep)) e = (Some db, e1) ->
       IndexDB.List db (fst (RingPartRange (codec W) (Partition prirep)))
         (snd (RingPartRange (codec W) (Partition prirep))) EmptyString 0 = (L, err) ->
       (forall route, exists r data,
          Do W (partitionRequest route prirep) = Some r
          /\ is2xx r = true /\ Body r = Some data /\ UnmarshalItems (codec W) data = R) ->
       Sorted hash_le L ->
       Sorted hash_le R ->
       version <$> (ec_item <$> fst (ecEngine.GetObjectsToReplicate W f prirep e))
       = version <$> List.filter (fun it => negb (Nursery it)
                                            && negb (has_counterpart it R)) L)
  /\ ~ (forall (W : World) (re : repEngine.t) (prirep : PriorityRepJob) (e e1 : Engine)
               (db : IndexDB.t) (L R : list IndexDBItem) (err : option error),
          getDB W (Dev (FromDevice prirep)) e = (Some db, e1) ->
          IndexDB.List db (fst (RingPartRange (codec W) (Partition prirep)))
            (snd (RingPartRange (codec W) (Partition prirep))) EmptyString 0 = (L, err) ->
          (forall route, exists r data,
             Do W (partitionRequest route prirep) = Some r
             /\ is2xx r = true /\ Body r = Some data
             /\ UnmarshalItems (codec W) data = R) ->
          StronglySorted hash_lt L ->
          StronglySorted hash_lt R ->
          version <$> (item <$> fst (repEngine.GetObjectsToReplicate W re prirep e))
          = version <$> List.filter (fun it => negb (Nursery it)
                                               && negb (has_counterpart it R)) L).
Proof.
  split; intros Hclaim.
  - specialize (Hclaim (listingWorld [shard0; shard1]) f0 job12
                  (engine_of [shard1]) (engine_of [shard1]) (db_of [shard1])
                  [shard1] [shard0; shard1] None eq_refl eq_refl
                  (fun route => ex_intro _ _ (ex_intro _ "[...]"
                     (conj eq_refl (conj eq_refl (conj eq_refl eq_refl)))))).
    assert (HL : Sorted hash_le [shard1]) by repeat constructor.
    assert (HR : Sorted hash_le [shard0; shard1]) by repeat constructor.
    specialize (Hclaim HL HR). vm_compute in Hclaim. discriminate.
  - specialize (Hclaim (listingWorld []) re0 job12
                  (engine_of [blank1]) (engine_of [blank1]) (db_of [blank1])
                  [blank1] [] None eq_refl eq_refl
                  (fun route => ex_intro _ _ (ex_intro _ "[...]"
                     (conj eq_refl (conj eq_refl (conj eq_refl eq_refl)))))).
    assert (HL : StronglySorted hash_lt [blank1]) by repeat constructor.
    assert (HR : StronglySorted hash_lt []) by constructor.
    specialize (Hclaim HL HR). vm_compute in Hclaim. discriminate.
Qed.

(** ** More on the methods of a replicated object *)

(** *** Closed forms of the broadcasts *)

Lemma restabilize_run (W : World) (ro : repObject) (dev : Device)
    (partition : Z) (s : State) :
  PartitionForHash (ring W) (Hash ro) = Some partition ->
  restabilize W ro dev s =
    let nodes := GetNodes (ring W) partition in
    let acks := Z.of_nat (length (post_acks W ro dev nodes)) in
    let posts := map (fun node => EvHTTP (postRequest ro node)) (others dev nodes) in
    if (acks =? Z.of_nat (length nodes) - 1)%Z
    then (snd (IndexDB.SetStabilized (idb s) (Hash ro) (Shard ro) (Timestamp ro) false),
          {| idb := fst (IndexDB.SetStabilized (idb s) (Hash ro) (Shard ro)
                           (Timestamp ro) false);
             trace := (trace s ++ posts
                       ++ [EvSetStabilized (Hash ro) (Shard ro) (Timestamp ro) false])%list |})
    else (Some (ErrRestabilize acks (Z.of_nat (length nodes))),
          {| idb := idb s; trace := (trace s ++ posts)%list |}).
Proof.
  intros Hpart. unfold restabilize. rewrite Hpart. cbn zeta.
  unfold mbind, M_bind. rewrite restabilize_nodes_run, Z.add_0_l.
  destruct (_ =? _)%Z; cbn [negb]; [| done].
  unfold on_idb. cbn [idb trace].
  destruct (IndexDB.SetStabilized _ _ _ _ _) as [db err]. cbn.
  by rewrite app_assoc.
Qed.

Lemma stabilizeDelete_run (W : World) (ro : repObject) (dev : Device)
    (partition : Z) (s : State) :
  PartitionForHash (ring W) (Hash ro) = Some partition ->
  stabilizeDelete W ro dev s =
    let nodes := GetNodes (ring W) partition in
    let acks := Z.of_nat (length (delete_acks W ro dev nodes)) in
    let deletes := map (fun node => EvHTTP (deleteRequest ro node)) (others dev nodes) in
    let removal := IndexDB.Remove (idb s) (Hash ro) (Shard ro) (Timestamp ro)
                     (Nursery ro) (Metahash ro) in
    if (acks + 1 =? Z.of_nat (length nodes))%Z
    then (snd (snd removal),
          {| idb := fst removal;
             trace := (trace s ++ deletes
                       ++ [EvRemove (Hash ro) (Shard ro) (Timestamp ro) (Nursery ro)
                             (Metahash ro)])%list |})
    else (Some (ErrStabilizeDelete acks (Z.of_nat (length nodes) - 1)),
          {| idb := idb s; trace := (trace s ++ deletes)%list |}).
Proof.
  intros Hpart. unfold stabilizeDelete. rewrite Hpart. cbn zeta.
  unfold mbind, M_bind. rewrite stabilizeDelete_nodes_run, Z.add_0_l.
  destruct (_ =? _)%Z; cbn [negb]; [| done].
  unfold on_idb. cbn [idb trace].
  destruct (IndexDB.Remove _ _ _ _ _ _) as [db [n err]]. cbn.
  by rewrite app_assoc.
Qed.

Lemma others_In (dev node : Device) (nodes : list Device) :
  In node (others dev nodes) <-> In node nodes /\ sameDevice node dev = false.
Proof. unfold others. by rewrite filter_In, negb_true_iff. Qed.

Lemma disagreeing_others (W : World) (ro : repObject) (dev : Device)
    (partition : Z) (nodes : list Device) (node : Device) :
  In node (disagreeing W ro dev partition nodes) -> In node (others dev nodes).
Proof.
  unfold disagreeing. rewrite filter_In, andb_true_iff, others_In, !negb_true_iff.
  tauto.
Qed.

Lemma post_acks_all (W : World) (ro : repObject) (dev : Device) (nodes : list Device) :
  (forall node, In node nodes -> sameDevice node dev = false) ->
  (forall node, In node nodes -> postAck (Do W (postRequest ro node)) = true) ->
  post_acks W ro dev nodes = nodes /\ others dev nodes = nodes.
Proof.
  unfold post_acks, others. intros Hoff Hack.
  induction nodes as [| node nodes IH]; [done |]. cbn.
  rewrite (Hoff node) by (by left). cbn. rewrite (Hack node) by (by left).
  destruct IH as [IH1 IH2].
  - intros n Hn. apply Hoff. by right.
  - intros n Hn. apply Hack. by right.
  - by rewrite IH2 in *; rewrite IH1.
Qed.

Lemma delete_acks_all (W : World) (ro : repObject) (dev : Device) (nodes : list Device) :
  (forall node, In node nodes -> sameDevice node dev = false) ->
  (forall node, In node nodes -> deleteAck (Do W (deleteRequest ro node)) = true) ->
  delete_acks W ro dev nodes = nodes /\ others dev nodes = nodes.
Proof.
  unfold delete_acks, others. intros Hoff Hack.
  induction nodes as [| node nodes IH]; [done |]. cbn.
  rewrite (Hoff node) by (by left). cbn. rewrite (Hack node) by (by left).
  destruct IH as [IH1 IH2].
  - intros n Hn. apply Hoff. by right.
  - intros n Hn. apply Hack. by right.
  - by rewrite IH2 in *; rewrite IH1.
Qed.

(** X1. An object marked for restabilization takes the restabilize path
    whatever its nursery and deletion flags: [Stabilize] sends one POST to
    every other primary and nothing else; with exactly [len(nodes) - 1]
    acknowledgements, an acknowledgement being a 2xx or a 409 answer, it calls
    [SetStabilized(hash, shard, timestamp, false)] and returns its result;
    with any other count it returns the error and leaves the index database
    alone.  Unlike for the DELETE broadcast, a 404 is no acknowledgement. *)
Theorem stabilize_restabilize_quorum
    (W : World) (ro : repObject) (dev : Device) (partition : Z) (s : State) :
  Restabilize ro = true ->
  PartitionForHash (ring W) (Hash ro) = Some partition ->
  let nodes := GetNodes (ring W) partition in
  let acks := Z.of_nat (length (post_acks W ro dev nodes)) in
  let posts := map (fun node => EvHTTP (postRequest ro node)) (others dev nodes) in
  Stabilize W ro dev s =
    (if (acks =? Z.of_nat (length nodes) - 1)%Z
     then (snd (IndexDB.SetStabilized (idb s) (Hash ro) (Shard ro) (Timestamp ro) false),
           {| idb := fst (IndexDB.SetStabilized (idb s) (Hash ro) (Shard ro)
                            (Timestamp ro) false);
              trace := (trace s ++ posts
                        ++ [EvSetStabilized (Hash ro) (Shard ro) (Timestamp ro) false])%list |})
     else (Some (ErrRestabilize acks (Z.of_nat (length nodes))),
           {| idb := idb s; trace := (trace s ++ posts)%list |}))
  /\ (forall r, StatusCode r = 404%Z ->
        postAck (Some r) = false /\ deleteAck (Some r) = true).
Proof.
  intros Hr Hpart. split.
  - unfold Stabilize. rewrite Hpart, Hr. by apply restabilize_run.
  - intros r H. unfold postAck, deleteAck, is2xx. rewrite H. by cbn.
Qed.

(** X2. The two broadcasts want one acknowledgement less than the partition
    has primaries, the local device being expected among them.  On a device
    that is none of the primaries of the partition, a tombstone that every
    primary acknowledges is not removed, and an object marked for
    restabilization that every primary acknowledges is not stabilized:
    [Stabilize] returns the error of the count and leaves the index database
    as it was. *)
Theorem broadcast_from_a_handoff_device_fails_on_full_acknowledgement
    (W : World) (ro : repObject) (dev : Device) (partition : Z) (s : State) :
  PartitionForHash (ring W) (Hash ro) = Some partition ->
  (forall node, In node (GetNodes (ring W) partition) -> sameDevice node dev = false) ->
  let nodes := GetNodes (ring W) partition in
  let n := Z.of_nat (length nodes) in
  (Restabilize ro = false -> Nursery ro = true -> Deletion ro = true ->
   (forall node, In node nodes -> deleteAck (Do W (deleteRequest ro node)) = true) ->
   Stabilize W ro dev s =
     (Some (ErrStabilizeDelete n (n - 1)),
      {| idb := idb s;
         trace := (trace s ++ map (fun node => EvHTTP (deleteRequest ro node)) nodes)%list |}))
  /\ (Restabilize ro = true ->
      (forall node, In node nodes -> postAck (Do W (postRequest ro node)) = true) ->
      Stabilize W ro dev s =
        (Some (ErrRestabilize n n),
         {| idb := idb s;
            trace := (trace s ++ map (fun node => EvHTTP (postRequest ro node)) nodes)%list |})).
Proof.
  intros Hpart Hoff nodes n. split.
  - intros Hr Hn Hd Hack. unfold Stabilize. rewrite Hpart, Hr, Hn, Hd. cbn [negb].
    rewrite (stabilizeDelete_run W ro dev partition s Hpart). cbn zeta.
    destruct (delete_acks_all W ro dev _ Hoff Hack) as [-> ->].
    fold nodes. fold n.
    by replace (n + 1 =? n)%Z with false by (symmetry; apply Z.eqb_neq; lia).
  - intros Hr Hack. unfold Stabilize. rewrite Hpart, Hr.
    rewrite (restabilize_run W ro dev partition s Hpart). cbn zeta.
    destruct (post_acks_all W ro dev _ Hoff Hack) as [-> ->].
    fold nodes. fold n.
    by replace (n =? n - 1)%Z with false by (symmetry; apply Z.eqb_neq; lia).
Qed.

(** *** Requests in a trace *)

Lemma requests_app (t1 t2 : list Event) :
  requests (t1 ++ t2) = (requests t1 ++ requests t2)%list.
Proof. apply omap_app. Qed.

Lemma requests_http {A} (f : A -> Request) (l : list A) :
  requests (map (fun a => EvHTTP (f a)) l) = map f l.
Proof. induction l as [| a l IH]; [done |]. cbn. by rewrite <- IH. Qed.

(** X3. [Replicate] opens the file before it talks to the peer: when the
    file cannot be opened it fails without sending anything.  It returns
    [nil] only if the file opened and the peer answered the PUT with a 2xx
    or a 409; and it calls the index database, to remove the local row, only
    on a handoff device and only after such an answer.  On a device that is
    no handoff, an accepted PUT of a file that opens is a success. *)
Theorem replicate_outcomes
    (W : World) (ro : repObject) (job : PriorityRepJob) (s : State) :
  let handoff := snd (GetJobNodes (ring W) (Partition job) (Id (FromDevice job))) in
  exists (err : option error) (s' : State),
    Replicate W ro job s = (err, s')
    /\ (FileSize W (Path ro) = None ->
          err = Some (ErrOpen (Path ro)) /\ idb s' = idb s
          /\ requests (trace s') = requests (trace s))
    /\ (FileSize W (Path ro) <> None ->
          requests (trace s') = (requests (trace s) ++ [putRequest ro job])%list)
    /\ (err = None -> FileSize W (Path ro) <> None /\ put_accepted W ro job = true)
    /\ (idb s' <> idb s \/ idb_calls (trace s') <> idb_calls (trace s) ->
          handoff = true /\ put_accepted W ro job = true)
    /\ (handoff = false -> FileSize W (Path ro) <> None ->
          put_accepted W ro job = true -> err = None).
Proof.
  unfold Replicate, put_accepted. unfold_M. cbn.
  destruct (FileSize W (Path ro)) as [size |]; cbn.
  2: { eexists _, _. split; [reflexivity |]. cbn.
       rewrite requests_app, idb_calls_app. cbn. rewrite !app_nil_r.
       intuition (try done; try congruence). }
  destruct (Do W (putRequest ro job)) as [r |]; cbn.
  2: { eexists _, _. split; [reflexivity |]. cbn.
       rewrite !requests_app, !idb_calls_app. cbn. rewrite !app_nil_r.
       intuition (try done; try congruence). }
  destruct (is2xx r || (StatusCode r =? 409)%Z); cbn.
  2: { eexists _, _. split; [reflexivity |]. cbn.
       rewrite !requests_app, !idb_calls_app. cbn. rewrite !app_nil_r.
       intuition (try done; try congruence). }
  destruct (snd (GetJobNodes (ring W) (Partition job) (Id (FromDevice job)))); cbn.
  - destruct (IndexDB.Remove (idb s) _ _ _ _ _) as [db [n e]]; cbn.
    eexists _, _. split; [reflexivity |]. cbn.
    rewrite !requests_app. cbn. rewrite !app_nil_r. by repeat split.
  - eexists _, _. split; [reflexivity |]. cbn.
    rewrite !requests_app, !idb_calls_app. cbn. rewrite !app_nil_r.
    intuition (try done; try congruence).
Qed.

(** *** The pushes of [Stabilize] *)

Lemma Replicate_requests (W : World) (ro : repObject) (job : PriorityRepJob)
    (s : State) :
  requests (trace (snd (Replicate W ro job s)))
  = (requests (trace s)
     ++ match FileSize W (Path ro) with
        | Some _ => [putRequest ro job]
        | None => []
        end)%list.
Proof.
  unfold Replicate. unfold_M. cbn.
  destruct (FileSize W (Path ro)) as [size |]; cbn.
  2: { rewrite requests_app. by cbn. }
  destruct (Do W (putRequest ro job)) as [r |]; cbn.
  2: { rewrite !requests_app. cbn. by rewrite app_nil_r. }
  destruct (negb (is2xx r || (StatusCode r =? 409)%Z)); cbn.
  { rewrite !requests_app. cbn. by rewrite app_nil_r. }
  destruct (snd (GetJobNodes (ring W) (Partition job) (Id (FromDevice job)))); cbn.
  - destruct (IndexDB.Remove (idb s) _ _ _ _ _) as [db [n e]]; cbn.
    rewrite !requests_app. cbn. by rewrite !app_nil_r.
  - rewrite !requests_app. cbn. by rewrite app_nil_r.
Qed.

Lemma replicate_nodes_run (W : World) (ro : repObject) (dev : Device)
    (partition : Z) (notFoundNodes : list Device) :
  forall (errs : list error) (s : State),
  let run := replicate_nodes W ro dev partition notFoundNodes errs s in
  replicate_calls (trace (snd run))
  = (replicate_calls (trace s) ++ map (push_job ro dev partition) notFoundNodes)%list
  /\ requests (trace (snd run))
     = (requests (trace s)
        ++ match FileSize W (Path ro) with
           | Some _ => map (fun peer => putRequest ro (push_job ro dev partition peer))
                         notFoundNodes
           | None => []
           end)%list
  /\ (snd (GetJobNodes (ring W) partition (Id dev)) = false -> idb (snd run) = idb s)
  /\ (forall ev, In ev (idb_calls (trace (snd run))) ->
        In ev (idb_calls (trace s))
        \/ ev = EvRemove (Hash ro) (Shard ro) (Timestamp ro) (Nursery ro) (Metahash ro))
  /\ (errs <> [] -> fst run <> []).
Proof.
  induction notFoundNodes as [| peer rest IH]; intros errs s.
  { cbn. rewrite !app_nil_r. destruct (FileSize W (Path ro)); rewrite ?app_nil_r;
      repeat split; by auto. }
  cbn [replicate_nodes]. unfold mbind, M_bind. fold (push_job ro dev partition peer).
  pose proof (Replicate_run W ro (push_job ro dev partition peer) s) as Hrun.
  pose proof (Replicate_requests W ro (push_job ro dev partition peer) s) as Hreq.
  destruct (Replicate W ro (push_job ro dev partition peer) s) as [e s1].
  cbn [snd Partition FromDevice push_job] in Hrun, Hreq.
  destruct Hrun as (Hcalls & Hprim & Hdb).
  specialize (IH (match e with Some e0 => (errs ++ [e0])%list | None => errs end) s1).
  cbn zeta in IH. destruct IH as (IH1 & IH2 & IH3 & IH4 & IH5).
  split; [| split; [| split; [| split]]].
  - rewrite IH1, Hcalls. cbn [map]. by rewrite <- app_assoc.
  - rewrite IH2, Hreq. destruct (FileSize W (Path ro)); cbn [map];
      by rewrite <- app_assoc.
  - intros Hh. by rewrite IH3, Hprim.
  - intros ev Hev. destruct (IH4 ev Hev) as [Hin | ->]; [| by right].
    destruct Hdb as [[_ Hsame] | (_ & _ & Hmore)].
    + left. by rewrite <- Hsame.
    + rewrite Hmore in Hin. apply in_app_or in Hin as [Hin | [<- | []]]; by auto.
  - intros Hne. apply IH5. destruct e; [| done]. by destruct errs.
Qed.

(** X4. A nursery object that is neither a deletion nor marked for
    restabilization, and for which the primaries counted as good are not as
    many as the replica count: [Stabilize] always returns an error; it
    invokes [Replicate] once for every peer that did not agree, in the order
    of the ring, each time from the local device to that peer; it never
    calls [SetStabilized], the only call on the index database it may make
    being the removal of the local row by [Replicate]; and on a device that
    is no handoff the index database is left as it was. *)
Theorem stabilize_pushes_to_every_disagreeing_peer
    (W : World) (ro : repObject) (dev : Device) (partition : Z) (s : State) :
  Nursery ro = true ->
  Deletion ro = false ->
  Restabilize ro = false ->
  PartitionForHash (ring W) (Hash ro) = Some partition ->
  Z.of_nat (length (good_nodes W ro dev partition (GetNodes (ring W) partition)))
  <> ReplicaCount (ring W) ->
  exists (err : error) (s' : State),
    Stabilize W ro dev s = (Some err, s')
    /\ replicate_calls (trace s')
       = (replicate_calls (trace s)
          ++ map (push_job ro dev partition)
               (disagreeing W ro dev partition (GetNodes (ring W) partition)))%list
    /\ (forall ev, In ev (idb_calls (trace s')) ->
          In ev (idb_calls (trace s))
          \/ ev = EvRemove (Hash ro) (Shard ro) (Timestamp ro) (Nursery ro) (Metahash ro))
    /\ (snd (GetJobNodes (ring W) partition (Id dev)) = false -> idb s' = idb s).
Proof.
  intros Hn Hd Hr Hpart Hcount.
  unfold Stabilize. rewrite Hpart, Hr, Hd, Hn. cbn [negb].
  unfold mbind, M_bind. rewrite (isStable_run W ro dev partition s Hd Hpart).
  replace (_ =? _)%Z with false by (symmetry; by apply Z.eqb_neq).
  set (heads := map _ (others dev _)).
  set (nf := disagreeing W ro dev partition (GetNodes (ring W) partition)).
  pose proof (replicate_nodes_run W ro dev partition nf []
                {| idb := idb s; trace := trace s ++ heads |}) as Hrun.
  cbn zeta in Hrun.
  destruct (replicate_nodes W ro dev partition nf []
              {| idb := idb s; trace := trace s ++ heads |}) as [errs s2].
  cbn [fst snd idb trace] in Hrun. destruct Hrun as (H1 & _ & H3 & H4 & _).
  rewrite replicate_calls_app, idb_calls_app in *. unfold heads in *.
  rewrite replicate_calls_http, idb_calls_http, !app_nil_r in *.
  destruct errs as [| e errs]; unfold mret, M_ret;
    (eexists _, _; split; [reflexivity |]; rewrite Hn in H4; by repeat split).
Qed.

(** X5. Whatever the flags of the object and the answers of the peers,
    every request [Stabilize] sends goes to a primary of the partition of the
    object other than the local device. *)
Theorem stabilize_only_talks_to_the_other_primaries
    (W : World) (ro : repObject) (dev : Device) (s : State) :
  exists added,
    requests (trace (snd (Stabilize W ro dev s))) = (requests (trace s) ++ added)%list
    /\ forall req, In req added ->
         exists partition,
           PartitionForHash (ring W) (Hash ro) = Some partition
           /\ In (target req) (GetNodes (ring W) partition)
           /\ sameDevice (target req) dev = false.
Proof.
  unfold Stabilize.
  destruct (PartitionForHash (ring W) (Hash ro)) as [partition |] eqn:Hpart.
  2: { exists []. by rewrite app_nil_r. }
  assert (Hothers : forall (f : Device -> Request),
             (forall node, target (f node) = node) ->
             forall req, In req (map f (others dev (GetNodes (ring W) partition))) ->
             exists p, Some partition = Some p
                       /\ In (target req) (GetNodes (ring W) p)
                       /\ sameDevice (target req) dev = false).
  { intros f Hf req Hin. apply in_map_iff in Hin as (node & <- & Hin).
    rewrite Hf. apply others_In in Hin. by exists partition. }
  destruct (Restabilize ro).
  { rewrite (restabilize_run W ro dev partition s Hpart). cbn zeta.
    exists (map (postRequest ro) (others dev (GetNodes (ring W) partition))).
    split; [| by apply Hothers].
    destruct (_ =? _)%Z; cbn [snd trace]; rewrite !requests_app, requests_http;
      [by cbn; rewrite app_nil_r | done]. }
  destruct (Nursery ro); cbn [negb].
  2: { exists []. by rewrite app_nil_r. }
  destruct (Deletion ro) eqn:Hd.
  { rewrite (stabilizeDelete_run W ro dev partition s Hpart). cbn zeta.
    exists (map (deleteRequest ro) (others dev (GetNodes (ring W) partition))).
    split; [| by apply Hothers].
    destruct (_ =? _)%Z; cbn [snd trace]; rewrite !requests_app, requests_http;
      [by cbn; rewrite app_nil_r | done]. }
  unfold mbind, M_bind. rewrite (isStable_run W ro dev partition s Hd Hpart).
  set (heads := map _ (others dev _)).
  assert (Hheads : requests (trace s ++ heads)
                   = (requests (trace s)
                      ++ map (headRequest ro partition)
                           (others dev (GetNodes (ring W) partition)))%list).
  { unfold heads. by rewrite requests_app, requests_http. }
  destruct (_ =? _)%Z.
  - exists (map (headRequest ro partition) (others dev (GetNodes (ring W) partition))).
    split; [| by apply Hothers].
    destruct (snd (GetJobNodes (ring W) partition (Id dev))); unfold on_idb;
      cbn [idb trace].
    + destruct (IndexDB.Remove _ _ _ _ _ _) as [db [n e]]. cbn [snd trace].
      unfold mret, M_ret. cbn [snd trace]. rewrite requests_app, Hheads. cbn.
      by rewrite app_nil_r.
    + destruct (IndexDB.SetStabilized _ _ _ _ _) as [db e]. cbn [snd trace].
      rewrite requests_app, Hheads. cbn. by rewrite app_nil_r.
  - set (nf := disagreeing W ro dev partition (GetNodes (ring W) partition)).
    pose proof (replicate_nodes_run W ro dev partition nf []
                  {| idb := idb s; trace := trace s ++ heads |}) as Hrun.
    cbn zeta in Hrun.
    destruct (replicate_nodes W ro dev partition nf []
                {| idb := idb s; trace := trace s ++ heads |}) as [errs s2].
    cbn [fst snd idb trace] in Hrun. destruct Hrun as (_ & H2 & _).
    exists (map (headRequest ro partition) (others dev (GetNodes (ring W) partition))
            ++ match FileSize W (Path ro) with
               | Some _ => map (fun peer => putRequest ro (push_job ro dev partition peer)) nf
               | None => []
               end)%list.
    split.
    + destruct errs; unfold mret, M_ret; cbn [snd]; by rewrite H2, Hheads, app_assoc.
    + intros req Hin. apply in_app_or in Hin as [Hin | Hin]; [by apply Hothers in Hin |].
      destruct (FileSize W (Path ro)); [| done].
      apply in_map_iff in Hin as (peer & <- & Hin). cbn.
      apply disagreeing_others, others_In in Hin. by exists partition.
Qed.

(** X6. On an object that is no deletion, [isStable] asks every other
    primary once, in the order of the ring, and counts every primary once,
    as good or as not found: the verdict is positive exactly when the
    primaries less the nodes reported as not found are as many as the replica
    count, and a node is reported exactly when it is a primary other than
    the local device whose answer is no 2xx carrying the [X-Timestamp] of
    the object.  The index database is not touched. *)
Theorem isStable_counts_every_primary_once
    (W : World) (ro : repObject) (dev : Device) (partition : Z) (s : State) :
  Deletion ro = false ->
  PartitionForHash (ring W) (Hash ro) = Some partition ->
  let nodes := GetNodes (ring W) partition in
  exists (stable : bool) (notFoundNodes : list Device) (s' : State),
    isStable W ro dev s = ((stable, notFoundNodes, None), s')
    /\ idb s' = idb s
    /\ requests (trace s')
       = (requests (trace s) ++ map (headRequest ro partition) (others dev nodes))%list
    /\ (stable = true
        <-> (Z.of_nat (length nodes) - Z.of_nat (length notFoundNodes)
             = ReplicaCount (ring W))%Z)
    /\ (forall node,
          In node notFoundNodes
          <-> In node nodes /\ sameDevice node dev = false
              /\ agrees ro (Do W (headRequest ro partition node)) = false).
Proof.
  intros Hd Hpart nodes.
  rewrite (isStable_run W ro dev partition s Hd Hpart). fold nodes.
  eexists _, _, _. split; [reflexivity |]. cbn [idb trace].
  split; [done |]. split; [by rewrite requests_app, requests_http |].
  pose proof (good_or_disagreeing W ro dev partition nodes) as Hsplit.
  split.
  - rewrite Z.eqb_eq. split; intros H; lia.
  - intros node. unfold disagreeing.
    rewrite filter_In, andb_true_iff, !negb_true_iff. tauto.
Qed.

(** X7. With an [X-Timestamp] that does not parse as a date, [Commit],
    [Delete] and [CommitMetadata] return the error of the parser and change
    nothing, the writer of the object included.  With one that parses, each
    makes exactly one call of [idb.Commit], for the hash of the object in
    shard [roShard] at the parsed time: [Commit] as a PUT into the nursery,
    [Delete] as a DELETE into the nursery, [CommitMetadata] as a POST that
    keeps the nursery flag the object has; the error is the one of
    [idb.Commit], and the writer is released whether or not the index
    database took the commit, so that a later [Close] has nothing to
    abandon. *)
Theorem commit_entry_points
    (W : World) (ro : repObject) (md : gmap string string) (s : State) (raw : string) :
  md !! "X-Timestamp" = Some raw ->
  match ParseDate (codec W) raw with
  | None =>
      Commit W ro md s = ((ro, Some ErrParseDate), s)
      /\ Delete W ro md s = ((ro, Some ErrParseDate), s)
      /\ CommitMetadata W ro md s = ((ro, Some ErrParseDate), s)
  | Some ts =>
      let outcome (method : string) (nursery : bool)
                  (run : (repObject * option error) * State) :=
        let committed := IndexDB.Commit (codec W) (idb s) (atomicFileWriter ro)
                           (Hash ro) roShard ts method md nursery EmptyString in
        run = ((set_writer ro None, snd committed),
               {| idb := fst committed;
                  trace := (trace s ++ [EvCommit (Hash ro) roShard ts method nursery])%list |})
        /\ atomicFileWriter (fst (fst run)) = None
        /\ Close (fst (fst run)) = (fst (fst run), None) in
      outcome "PUT" true (Commit W ro md s)
      /\ outcome "DELETE" true (Delete W ro md s)
      /\ outcome "POST" (Nursery ro) (CommitMetadata W ro md s)
  end.
Proof.
  intros Hmd. destruct (ParseDate (codec W) raw) as [ts |] eqn:Hts.
  - cbn zeta. unfold Commit, Delete, CommitMetadata.
    rewrite !(commit_reaches_database W ro md _ _ s raw ts Hmd Hts).
    repeat split; by destruct (IndexDB.Commit _ _ _ _ _ _ _ _ _ _).
  - unfold Commit, Delete, CommitMetadata, commit. by rewrite Hmd, Hts.
Qed.

(** ** More on the engines *)

(** *** Opening the database of a device *)

Lemma getDB_log (W : World) (device : string) (e : Engine) :
  log (snd (getDB W device e)) = log e
  /\ stabItems (snd (getDB W device e)) = stabItems e
  /\ stabReset (snd (getDB W device e)) = stabReset e
  /\ drawn (snd (getDB W device e)) = drawn e.
Proof.
  unfold getDB. destruct (idbs e !! device); [done |].
  by destruct (NewIndexDB W device).
Qed.

Lemma getDB_failure (W : World) (device : string) (e e1 : Engine) :
  getDB W device e = (None, e1) -> e1 = e.
Proof.
  unfold getDB. destruct (idbs e !! device); [done |].
  destruct (NewIndexDB W device); [done |]. by intros [= <-].
Qed.

(** X8. [getDB] opens the database of a device at most once.  When it
    succeeds the handle is kept in [idbs], and any later call for the device
    returns that very handle without opening anything, whatever
    [NewIndexDB] would answer by then; the handles of the other devices, the
    cache and the log are not touched, and a handle is opened only for a
    device that had none.  When it fails no handle is kept, so that the next
    call tries to open the database again, and nothing else has changed. *)
Theorem getDB_opens_a_database_once
    (W W' : World) (device : string) (e : Engine) :
  match getDB W device e with
  | (Some db, e1) =>
      getDB W' device e1 = (Some db, e1)
      /\ idbs e1 !! device = Some db
      /\ (forall d, d <> device -> idbs e1 !! d = idbs e !! d)
      /\ (idbs e !! device = None -> NewIndexDB W device = Some db)
      /\ (idbs e !! device <> None -> e1 = e)
      /\ stabItems e1 = stabItems e /\ log e1 = log e
  | (None, e1) =>
      e1 = e /\ idbs e !! device = None /\ NewIndexDB W device = None
  end.
Proof.
  unfold getDB. destruct (idbs e !! device) as [db |] eqn:Hdb.
  - rewrite Hdb. by repeat split.
  - destruct (NewIndexDB W device) as [db |] eqn:Hnew; [| done].
    cbn. rewrite lookup_insert_eq. repeat split; try done.
    intros d Hd. by rewrite lookup_insert_ne.
Qed.

(** *** Objects handed out by [New] *)

Ltac settle := intuition (try done; try congruence).

(** X9. What [repEngine.New] returns is either an object or an error, never
    both and never neither.  An object it hands out that exists (no
    tombstone, and with a path) has a file of exactly the length its
    metadata declare, and handing it out records nothing.  [New] quarantines
    at most one row per call, and only a row that is live and whose metadata
    read, when the file cannot be stat-ed or is not as long as a parsable
    [Content-Length] says; it then returns no object.  In particular metadata
    that do not read are an error without quarantine. *)
Theorem rep_New_postcondition
    (W : World) (re : repEngine.t) (vars : gmap string string) (needData : bool)
    (e : Engine) :
  exists (obj : option repObject) (err : option error) (e' : Engine),
    repEngine.New W re vars needData e = ((obj, err), e')
    /\ (obj = None <-> err <> None)
    /\ (forall o, obj = Some o ->
          log e' = log e /\ policy o = repEngine.re_policy re
          /\ atomicFileWriter o = None
          /\ (Exists o = true -> FileSize W (Path o) = Some (ContentLength o)))
    /\ (log e' <> log e ->
          exists it md,
            log e' = (log e ++ [EvQuarantine it])%list
            /\ obj = None
            /\ Deletion it = false
            /\ Unmarshal (codec W) (Metabytes it) = Some md
            /\ (forall size, FileSize W (Path it) = Some size ->
                  ParseInt (at_key md "Content-Length") <> Some size)).
Proof.
  unfold repEngine.New. unfold mbind, E_bind.
  destruct (getDB_log W (at_key vars "device") e) as (Hlog & _).
  destruct (getDB W (at_key vars "device") e) as [[db |] e1]; cbn [snd] in Hlog.
  2: { eexists _, _, _. split; [reflexivity |]. rewrite Hlog. by settle. }
  destruct (IndexDB.Lookup db (ObjHash (codec W) vars) roShard false)
    as [[it |] [err |]].
  1, 3: eexists _, _, _; (split; [reflexivity |]); rewrite Hlog; by settle.
  2: { eexists _, _, _. split; [reflexivity |]. rewrite Hlog.
       split; [by settle |]. split; [| by settle].
       intros o [= <-]. by repeat split. }
  destruct (Unmarshal (codec W) (Metabytes it)) as [md |] eqn:Hmd.
  2: { eexists _, _, _. split; [reflexivity |]. rewrite Hlog. by settle. }
  destruct (Deletion it) eqn:Hdel; cbn [negb].
  { eexists _, _, _. split; [reflexivity |]. rewrite Hlog.
    split; [by settle |]. split; [| by settle].
    intros o [= <-]. repeat split; try done. unfold Exists. cbn. by rewrite Hdel. }
  destruct (FileSize W (Path it)) as [size |] eqn:Hsize.
  2: { unfold_E. cbn. eexists _, _, _. split; [reflexivity |]. cbn. rewrite Hlog.
       split; [by settle |]. split; [done |]. intros _. exists it, md.
       repeat split; try done; congruence. }
  destruct (ParseInt (at_key md "Content-Length")) as [contentLength |] eqn:Hlen.
  2: { unfold_E. cbn. eexists _, _, _. split; [reflexivity |]. cbn. rewrite Hlog.
       split; [by settle |]. split; [done |]. intros _. exists it, md.
       repeat split; try done; congruence. }
  destruct (Z.eqb_spec size contentLength) as [<- | Hne]; cbn [negb].
  - eexists _, _, _. split; [reflexivity |]. rewrite Hlog.
    split; [by settle |]. split; [| by settle].
    intros o [= <-]. repeat split; try done. intros _. cbn.
    unfold ContentLength. cbn. by rewrite Hlen.
  - unfold_E. cbn. eexists _, _, _. split; [reflexivity |]. cbn. rewrite Hlog.
    split; [by settle |]. split; [done |]. intros _. exists it, md.
    repeat split; try done. intros size' [= <-]. congruence.
Qed.

(** X10. The same for [ecEngine.New], which holds the file of a nursery row
    against the content length and that of a stable shard against
    [ecShardLength(contentLength, dataShards)]: it returns an object or an
    error, never both; a live object with a path that it hands out has
    metadata with a parsable [Content-Length] and a file of exactly the
    length declared for it; and it quarantines at most one row per call, a
    live row with readable metadata whose file cannot be stat-ed or is not of
    the declared length, returning no object then. *)
Theorem ec_New_postcondition
    (W : World) (f : ecEngine.t) (vars : gmap string string) (needData : bool)
    (e : Engine) :
  exists (obj : option ecObject) (err : option error) (e' : Engine),
    ecEngine.New W f vars needData e = ((obj, err), e')
    /\ (obj = None <-> err <> None)
    /\ (forall o, obj = Some o ->
          log e' = log e /\ ec_policy o = ecEngine.f_policy f
          /\ nurseryReplicas o = ecEngine.f_nurseryReplicas f
          /\ (Deletion o = false -> Path o <> EmptyString ->
                exists contentLength,
                  ParseInt (at_key (ec_metadata o) "Content-Length") = Some contentLength
                  /\ FileSize W (Path o) = Some (declared_length W f o contentLength)))
    /\ (log e' <> log e ->
          exists it md,
            log e' = (log e ++ [EvQuarantine it])%list
            /\ obj = None
            /\ Deletion it = false
            /\ Unmarshal (codec W) (Metabytes it) = Some md
            /\ (forall contentLength,
                  ParseInt (at_key md "Content-Length") = Some contentLength ->
                  FileSize W (Path it) <> Some (declared_length W f it contentLength))).
Proof.
  unfold ecEngine.New. unfold mbind, E_bind.
  destruct (getDB_log W (at_key vars "device") e) as (Hlog & _).
  destruct (getDB W (at_key vars "device") e) as [[db |] e1]; cbn [snd] in Hlog.
  2: { eexists _, _, _. split; [reflexivity |]. rewrite Hlog. by settle. }
  destruct (IndexDB.Lookup db (ObjHash (codec W) vars) shardAny false)
    as [[it |] [err |]].
  1, 3: eexists _, _, _; (split; [reflexivity |]); rewrite Hlog; by settle.
  2: { eexists _, _, _. split; [reflexivity |]. rewrite Hlog.
       split; [by settle |]. split; [| by settle].
       intros o [= <-]. by repeat split. }
  destruct (Unmarshal (codec W) (Metabytes it)) as [md |] eqn:Hmd.
  2: { eexists _, _, _. split; [reflexivity |]. rewrite Hlog. by settle. }
  destruct (Deletion it) eqn:Hdel; cbn [negb].
  { eexists _, _, _. split; [reflexivity |]. rewrite Hlog.
    split; [by settle |]. split; [| by settle].
    intros o [= <-]. repeat split; try done. cbn. congruence. }
  destruct (FileSize W (Path it)) as [size |] eqn:Hsize.
  2: { unfold_E. cbn. eexists _, _, _. split; [reflexivity |]. cbn. rewrite Hlog.
       split; [by settle |]. split; [done |]. intros _. exists it, md.
       repeat split; try done; congruence. }
  destruct (ParseInt (at_key md "Content-Length")) as [contentLength |] eqn:Hlen.
  2: { unfold_E. cbn. eexists _, _, _. split; [reflexivity |]. cbn. rewrite Hlog.
       split; [by settle |]. split; [done |]. intros _. exists it, md.
       repeat split; try done; congruence. }
  unfold declared_length in *.
  destruct (Nursery it) eqn:Hn; cbn [andb negb].
  - destruct (Z.eqb_spec size contentLength) as [<- | Hne]; cbn [negb].
    + eexists _, _, _. split; [reflexivity |]. rewrite Hlog.
      split; [by settle |]. split; [| by settle].
      intros o [= <-]. repeat split; try done. intros _ _. cbn.
      exists size. by rewrite Hn.
    + unfold_E. cbn. eexists _, _, _. split; [reflexivity |]. cbn. rewrite Hlog.
      split; [by settle |]. split; [done |]. intros _. exists it, md.
      repeat split; try done. rewrite Hn. intros cl Hcl.
      rewrite Hsize. rewrite Hlen in Hcl. injection Hcl as <-. congruence.
  - destruct (Z.eqb_spec size (ecShardLength (codec W) contentLength
                                 (ecEngine.f_dataShards f))) as [-> | Hne];
      cbn [negb].
    + eexists _, _, _. split; [reflexivity |]. rewrite Hlog.
      split; [by settle |]. split; [| by settle].
      intros o [= <-]. repeat split; try done. intros _ _. cbn.
      exists contentLength. by rewrite Hn.
    + unfold_E. cbn. eexists _, _, _. split; [reflexivity |]. cbn. rewrite Hlog.
      split; [by settle |]. split; [done |]. intros _. exists it, md.
      repeat split; try done. rewrite Hn. intros cl Hcl.
      rewrite Hsize. rewrite Hlen in Hcl. injection Hcl as <-. congruence.
Qed.

(** *** The replication feed without assumptions on the lists *)

(** The inner loop withholds an item only on finding its version, and what
    it leaves of the remote list is part of that list. *)
Lemma scan_remote_sound (it : IndexDBItem) (remoteItems : list IndexDBItem) :
  (fst (scan_remote it remoteItems) = false -> has_counterpart it remoteItems = true)
  /\ (forall x, has_counterpart x (snd (scan_remote it remoteItems)) = true ->
        has_counterpart x remoteItems = true).
Proof.
  induction remoteItems as [| r rest IH]; [done |].
  cbn [scan_remote].
  destruct (String.ltb (Hash it) (Hash r)); [done |].
  destruct (String.ltb (Hash r) (Hash it)).
  - destruct IH as [IH1 IH2]. split.
    + intros H. rewrite has_counterpart_cons, IH1 by done. apply orb_true_r.
    + intros x H. rewrite has_counterpart_cons, IH2 by done. apply orb_true_r.
  - cbn [fst snd]. split.
    + intros H. apply negb_false_iff in H. by rewrite has_counterpart_cons, H.
    + intros x H. rewrite has_counterpart_cons, H. apply orb_true_r.
Qed.

Lemma rep_merge_sandwich (W : World) (re : repEngine.t) (items : list IndexDBItem) :
  forall remoteItems remoteItems',
  (forall x, has_counterpart x remoteItems' = true ->
     has_counterpart x remoteItems = true) ->
  located W <$> missing_on_remote W items remoteItems
    `sublist_of` item <$> repEngine.merge W re items remoteItems'
  /\ item <$> repEngine.merge W re items remoteItems'
       `sublist_of` located W <$> missing_on_remote W items [].
Proof.
  induction items as [| it items IH]; intros remoteItems remoteItems' Hpart.
  { split; constructor. }
  rewrite !missing_on_remote_cons. cbn [repEngine.merge has_counterpart existsb].
  destruct (Nursery it) eqn:Hn; cbn [negb andb]; [by apply IH |].
  destruct (scan_remote_sound it remoteItems') as [Hsend Hrest].
  destruct (scan_remote it remoteItems') as [sendItem remoteItems'']. cbn [fst snd] in *.
  destruct (IH remoteItems remoteItems'') as [IH1 IH2]; [by auto |].
  unfold sendable, readable. rewrite Hn.
  destruct (Unmarshal (codec W) (Metabytes it)) as [md |].
  2: { by rewrite andb_false_r. }
  destruct (WholeObjectPath (codec W) (Hash it) (Shard it) (Timestamp it) false)
    as [path |] eqn:Hpath.
  2: { by rewrite andb_false_r. }
  cbn [andb]. rewrite andb_true_r.
  assert (Hloc : located W it = with_path it path).
  { unfold located. by rewrite Hn, Hpath. }
  destruct sendItem.
  - cbn [fmap list_fmap]. rewrite Hloc. cbn [item repEngine.object]. split.
    + destruct (has_counterpart it remoteItems); cbn [negb fmap list_fmap].
      * by apply sublist_cons.
      * rewrite Hloc. by apply sublist_skip.
    + by apply sublist_skip.
  - rewrite (Hpart it) by (by apply Hsend). cbn [negb]. split; [done |].
    cbn [fmap list_fmap]. by apply sublist_cons.
Qed.

Lemma missing_on_remote_nil (W : World) (items : list IndexDBItem) :
  missing_on_remote W items []
  = List.filter (fun it => negb (Nursery it) && sendable W it) items.
Proof.
  unfold missing_on_remote. apply filter_ext. intros it. cbn.
  by rewrite andb_true_r.
Qed.

Lemma rep_GetObjectsToReplicate_run (W : World) (re : repEngine.t)
    (prirep : PriorityRepJob) (e e1 : Engine) (db : IndexDB.t)
    (L : list IndexDBItem) (err : option error) :
  getDB W (Dev (FromDevice prirep)) e = (Some db, e1) ->
  IndexDB.List db (fst (RingPartRange (codec W) (Partition prirep)))
    (snd (RingPartRange (codec W) (Partition prirep))) EmptyString 0 = (L, err) ->
  repEngine.GetObjectsToReplicate W re prirep e
  = match L with
    | [] => ([], e1)
    | _ =>
        (match Do W (partitionRequest "rep-partition" prirep) with
         | Some r => repEngine.merge W re L (remote_items W (Some r))
         | None => []
         end,
         snd (record (EvHTTP (partitionRequest "rep-partition" prirep)) e1))
    end.
Proof.
  intros Hdb Hlist. unfold repEngine.GetObjectsToReplicate. unfold_E. rewrite Hdb.
  destruct (RingPartRange (codec W) (Partition prirep)) as [startHash stopHash].
  cbn [fst snd] in Hlist. rewrite Hlist.
  destruct L as [| it L]; [done |]. cbn [length Nat.eqb].
  by destruct (Do W (partitionRequest "rep-partition" prirep)).
Qed.

Lemma ec_GetObjectsToReplicate_run (W : World) (f : ecEngine.t)
    (prirep : PriorityRepJob) (e e1 : Engine) (db : IndexDB.t)
    (L : list IndexDBItem) (err : option error) :
  getDB W (Dev (FromDevice prirep)) e = (Some db, e1) ->
  IndexDB.List db (fst (RingPartRange (codec W) (Partition prirep)))
    (snd (RingPartRange (codec W) (Partition prirep))) EmptyString 0 = (L, err) ->
  ecEngine.GetObjectsToReplicate W f prirep e
  = match L with
    | [] => ([], e1)
    | _ =>
        (match Do W (partitionRequest "ec-partition" prirep) with
         | Some r => ecEngine.merge W f L (remote_items W (Some r))
         | None => []
         end,
         snd (record (EvHTTP (partitionRequest "ec-partition" prirep)) e1))
    end.
Proof.
  intros Hdb Hlist. unfold ecEngine.GetObjectsToReplicate. unfold_E. rewrite Hdb.
  destruct (RingPartRange (codec W) (Partition prirep)) as [startHash stopHash].
  cbn [fst snd] in Hlist. rewrite Hlist.
  destruct L as [| it L]; [done |]. cbn [length Nat.eqb].
  by destruct (Do W (partitionRequest "ec-partition" prirep)).
Qed.

Lemma Forall_of_sublist {A} (P : A -> Prop) (l1 l2 : list A) :
  l1 `sublist_of` l2 -> Forall P l2 -> Forall P l1.
Proof.
  induction 1 as [| x l1 l2 _ IH | x l1 l2 _ IH]; intros H; [done | |].
  - inversion H; subst. constructor; by auto.
  - inversion H; subst. by auto.
Qed.

Lemma rep_merge_nil (W : World) (re : repEngine.t) (items : list IndexDBItem) :
  item <$> repEngine.merge W re items []
  = located W <$> List.filter (fun it => negb (Nursery it) && sendable W it) items.
Proof.
  induction items as [| it items IH]; [done |].
  cbn [repEngine.merge scan_remote List.filter].
  destruct (Nursery it) eqn:Hn; cbn [negb andb]; [done |].
  unfold sendable, readable. rewrite Hn.
  destruct (Unmarshal (codec W) (Metabytes it)) as [md |]; [| done].
  destruct (WholeObjectPath (codec W) (Hash it) (Shard it) (Timestamp it) false)
    as [path |] eqn:Hpath; [| done].
  cbn. rewrite IH. f_equal. unfold located. by rewrite Hn, Hpath.
Qed.

(** X11. Whatever the order of the two lists and however often a hash is
    repeated in them: what [GetObjectsToReplicate] sends, in either engine,
    is taken in order from the local rows that are out of the nursery and for
    which an object can be built, so no nursery row is ever sent; and every
    such row whose [(hash, timestamp, nursery, deletion)] tuple no row of the
    answer of the peer has is sent.  Lists that are out of order can make the
    engines send a row the peer holds, never withhold one it lacks. *)
Theorem GetObjectsToReplicate_never_withholds_a_missing_row
    (W : World) (re : repEngine.t) (f : ecEngine.t) (prirep : PriorityRepJob)
    (e e1 : Engine) (db : IndexDB.t) (L : list IndexDBItem) (err : option error)
    (rep ec : Response) :
  getDB W (Dev (FromDevice prirep)) e = (Some db, e1) ->
  IndexDB.List db (fst (RingPartRange (codec W) (Partition prirep)))
    (snd (RingPartRange (codec W) (Partition prirep))) EmptyString 0 = (L, err) ->
  Do W (partitionRequest "rep-partition" prirep) = Some rep ->
  Do W (partitionRequest "ec-partition" prirep) = Some ec ->
  let sent_rep := item <$> fst (repEngine.GetObjectsToReplicate W re prirep e) in
  let sent_ec := ec_item <$> fst (ecEngine.GetObjectsToReplicate W f prirep e) in
  let candidates := List.filter (fun it => negb (Nursery it) && sendable W it) L in
  (located W <$> missing_on_remote W L (remote_items W (Some rep)) `sublist_of` sent_rep
   /\ sent_rep `sublist_of` located W <$> candidates
   /\ Forall (fun it => Nursery it = false) sent_rep)
  /\ (located W <$> missing_on_remote W L (remote_items W (Some ec)) `sublist_of` sent_ec
      /\ sent_ec `sublist_of` located W <$> candidates
      /\ Forall (fun it => Nursery it = false) sent_ec).
Proof.
  intros Hdb Hlist Hrep Hec.
  rewrite (rep_GetObjectsToReplicate_run W re prirep e e1 db L err Hdb Hlist).
  rewrite (ec_GetObjectsToReplicate_run W f prirep e e1 db L err Hdb Hlist).
  rewrite Hrep, Hec. cbn zeta.
  assert (Hstable : forall sent,
             sent `sublist_of`
               located W <$> List.filter (fun it => negb (Nursery it) && sendable W it) L ->
             Forall (fun it => Nursery it = false) sent).
  { intros sent Hsub. eapply Forall_of_sublist; [exact Hsub |].
    apply List.Forall_forall. intros x Hx. apply in_map_iff in Hx as (it & <- & Hit).
    apply filter_In in Hit as [_ Hit]. apply andb_true_iff in Hit as [Hit _].
    apply negb_true_iff in Hit. by cbn. }
  assert (Hboth : forall R,
             located W <$> missing_on_remote W L R
               `sublist_of` item <$> repEngine.merge W re L R
             /\ item <$> repEngine.merge W re L R
                  `sublist_of`
                  located W <$> List.filter (fun it => negb (Nursery it) && sendable W it) L).
  { intros R. rewrite <- missing_on_remote_nil. by apply rep_merge_sandwich. }
  destruct L as [| it L].
  { cbn. repeat split; constructor. }
  cbn [fst]. rewrite (ec_merge_items W re f).
  destruct (Hboth (remote_items W (Some rep))) as [H1 H2].
  destruct (Hboth (remote_items W (Some ec))) as [H3 H4].
  repeat split; try done; by apply Hstable.
Qed.

(** X12. A peer that does not answer the listing with a 2xx or a 404, or
    whose answer cannot be read, is taken to hold nothing: both engines send
    it every local row of the partition that is out of the nursery and for
    which an object can be built, in the order of the local list. *)
Theorem GetObjectsToReplicate_sends_all_to_a_failing_peer
    (W : World) (re : repEngine.t) (f : ecEngine.t) (prirep : PriorityRepJob)
    (e e1 : Engine) (db : IndexDB.t) (L : list IndexDBItem) (err : option error) :
  getDB W (Dev (FromDevice prirep)) e = (Some db, e1) ->
  IndexDB.List db (fst (RingPartRange (codec W) (Partition prirep)))
    (snd (RingPartRange (codec W) (Partition prirep))) EmptyString 0 = (L, err) ->
  (forall route, exists r,
     Do W (partitionRequest route prirep) = Some r
     /\ (is2xx r || (StatusCode r =? 404)%Z = false \/ Body r = None)) ->
  item <$> fst (repEngine.GetObjectsToReplicate W re prirep e)
  = located W <$> List.filter (fun it => negb (Nursery it) && sendable W it) L
  /\ ec_item <$> fst (ecEngine.GetObjectsToReplicate W f prirep e)
     = located W <$> List.filter (fun it => negb (Nursery it) && sendable W it) L.
Proof.
  intros Hdb Hlist Hfail.
  assert (Hnone : forall route, exists r,
             Do W (partitionRequest route prirep) = Some r
             /\ remote_items W (Some r) = []).
  { intros route. destruct (Hfail route) as (r & Hdo & Hr). exists r.
    split; [done |]. unfold remote_items.
    destruct Hr as [-> | ->]; [done | by destruct (_ || _)]. }
  rewrite (rep_GetObjectsToReplicate_run W re prirep e e1 db L err Hdb Hlist).
  rewrite (ec_GetObjectsToReplicate_run W f prirep e e1 db L err Hdb Hlist).
  destruct L as [| it L]; [done |].
  destruct (Hnone "rep-partition") as (r1 & -> & ->).
  destruct (Hnone "ec-partition") as (r2 & -> & ->).
  cbn [fst]. rewrite (ec_merge_items W re f). split; apply rep_merge_nil.
Qed.

(** X23. The two engines differ in when they build the object of a row,
    the replication engine before it knows whether the row is to be sent and
    the erasure-code engine after, and in the route they ask; they send the
    same rows.  Run on the same engine state against a peer that answers
    the two routes alike, [ecEngine.GetObjectsToReplicate] and
    [repEngine.GetObjectsToReplicate] send the same rows in the same order,
    each at its whole-object path, and leave the same databases open. *)
Theorem engines_send_the_same_rows
    (W : World) (re : repEngine.t) (f : ecEngine.t) (prirep : PriorityRepJob)
    (e : Engine) :
  Do W (partitionRequest "ec-partition" prirep)
  = Do W (partitionRequest "rep-partition" prirep) ->
  ec_item <$> fst (ecEngine.GetObjectsToReplicate W f prirep e)
  = item <$> fst (repEngine.GetObjectsToReplicate W re prirep e)
  /\ idbs (snd (ecEngine.GetObjectsToReplicate W f prirep e))
     = idbs (snd (repEngine.GetObjectsToReplicate W re prirep e)).
Proof.
  intros Hsame.
  destruct (getDB W (Dev (FromDevice prirep)) e) as [[db |] e1] eqn:Hdb.
  2: { unfold repEngine.GetObjectsToReplicate, ecEngine.GetObjectsToReplicate.
       unfold mbind, E_bind. by rewrite Hdb. }
  destruct (IndexDB.List db (fst (RingPartRange (codec W) (Partition prirep)))
              (snd (RingPartRange (codec W) (Partition prirep))) EmptyString 0)
    as [L err] eqn:Hlist.
  rewrite (rep_GetObjectsToReplicate_run W re prirep e e1 db L err Hdb Hlist).
  rewrite (ec_GetObjectsToReplicate_run W f prirep e e1 db L err Hdb Hlist).
  destruct L as [| it L]; [done |]. rewrite Hsame. cbn [fst snd].
  split; [| done].
  destruct (Do W (partitionRequest "rep-partition" prirep)) as [r |]; [| done].
  apply ec_merge_items.
Qed.

(** X13. [GetObjectsToReplicate], in either engine, asks the peer for its
    listing at most once and makes no other request.  It asks nothing, and
    sends nothing, when the database of the sending device does not open or
    lists no row for the partition; and it sends nothing when the request
    fails in transport. *)
Theorem GetObjectsToReplicate_asks_at_most_once
    (W : World) (re : repEngine.t) (f : ecEngine.t) (prirep : PriorityRepJob)
    (e : Engine) :
  let rep := repEngine.GetObjectsToReplicate W re prirep e in
  let ec := ecEngine.GetObjectsToReplicate W f prirep e in
  let listed db :=
    fst (IndexDB.List db (fst (RingPartRange (codec W) (Partition prirep)))
           (snd (RingPartRange (codec W) (Partition prirep))) EmptyString 0) in
  (log (snd rep) = log e
   \/ log (snd rep) = (log e ++ [EvHTTP (partitionRequest "rep-partition" prirep)])%list)
  /\ (log (snd ec) = log e
      \/ log (snd ec) = (log e ++ [EvHTTP (partitionRequest "ec-partition" prirep)])%list)
  /\ (log (snd rep) = log e -> fst rep = [])
  /\ (log (snd ec) = log e -> fst ec = [])
  /\ (Do W (partitionRequest "rep-partition" prirep) = None -> fst rep = [])
  /\ (Do W (partitionRequest "ec-partition" prirep) = None -> fst ec = [])
  /\ match getDB W (Dev (FromDevice prirep)) e with
     | (Some db, e1) => listed db = [] -> rep = ([], e1) /\ ec = ([], e1)
     | (None, _) => rep = ([], e) /\ ec = ([], e)
     end.
Proof.
  cbn zeta.
  destruct (getDB_log W (Dev (FromDevice prirep)) e) as (Hlog & _).
  destruct (getDB W (Dev (FromDevice prirep)) e) as [[db |] e1] eqn:Hdb;
    cbn [snd] in Hlog.
  2: { apply getDB_failure in Hdb as Hsame. subst e1.
       unfold repEngine.GetObjectsToReplicate, ecEngine.GetObjectsToReplicate.
       unfold mbind, E_bind. rewrite Hdb. unfold mret, E_ret. cbn. by auto 10. }
  destruct (IndexDB.List db (fst (RingPartRange (codec W) (Partition prirep)))
              (snd (RingPartRange (codec W) (Partition prirep))) EmptyString 0)
    as [L err] eqn:Hlist.
  rewrite (rep_GetObjectsToReplicate_run W re prirep e e1 db L err Hdb Hlist).
  rewrite (ec_GetObjectsToReplicate_run W f prirep e e1 db L err Hdb Hlist).
  cbn [fst]. destruct L as [| it L]; cbn [fst snd]; [by auto 10 |].
  unfold record. cbn [fst snd log]. rewrite Hlog.
  assert (Hmore : forall ev, (log e ++ [ev])%list <> log e).
  { intros ev H. apply (f_equal length) in H. rewrite length_app in H. cbn in H. lia. }
  repeat split; try (by right); try (by intros H; apply Hmore in H);
    try (by intros ->); done.
Qed.

(** *** The cache of items being stabilized *)

Lemma register_fold (device : string) (objs : list ecObject) :
  forall (m : gmap string bool),
  let m' :=
    foldl (fun (m : gmap string bool) (o : ecObject) =>
             let k := ecEngine.stab_key device (Hash o) (Metahash o) in
             match m !! k with
             | Some _ => m
             | None => <[k := true]> m
             end) m objs in
  (forall k v, m !! k = Some v -> m' !! k = Some v)
  /\ (forall o, In o objs ->
        is_Some (m' !! ecEngine.stab_key device (Hash o) (Metahash o)))
  /\ (forall k, m' !! k = Some false -> m !! k = Some false)
  /\ (forall k, is_Some (m' !! k) ->
        is_Some (m !! k)
        \/ exists o, In o objs /\ k = ecEngine.stab_key device (Hash o) (Metahash o)).
Proof.
  induction objs as [| o objs IH]; intros m; cbn zeta.
  { cbn. repeat split; try done. by left. }
  cbn [foldl].
  set (k0 := ecEngine.stab_key device (Hash o) (Metahash o)).
  set (m1 := match m !! k0 with Some _ => m | None => <[k0 := true]> m end).
  destruct (IH m1) as (IH1 & IH2 & IH3 & IH4).
  assert (Hkeep : forall k v, m !! k = Some v -> m1 !! k = Some v).
  { intros k v Hk. unfold m1. destruct (m !! k0) eqn:Hk0; [done |].
    rewrite lookup_insert_ne; [done |]. intros <-. congruence. }
  assert (Hk0 : is_Some (m1 !! k0)).
  { unfold m1. destruct (m !! k0) eqn:Hk0; [by rewrite Hk0 |].
    by rewrite lookup_insert_eq. }
  assert (Hback : forall k v, m1 !! k = Some v ->
                    m !! k = Some v \/ k = k0 /\ v = true /\ m !! k0 = None).
  { intros k v Hk. unfold m1 in Hk. destruct (m !! k0) eqn:Hm; [by left |].
    destruct (decide (k = k0)) as [-> | Hne].
    - rewrite lookup_insert_eq in Hk. right. by injection Hk as <-.
    - rewrite lookup_insert_ne in Hk by done. by left. }
  split; [| split; [| split]].
  - intros k v Hk. by apply IH1, Hkeep.
  - intros o' [<- | Hin]; [| by apply IH2].
    destruct Hk0 as [v Hv]. exists v. by apply IH1.
  - intros k Hk. apply IH3 in Hk. by destruct (Hback k false Hk) as [? | (_ & ? & _)].
  - intros k Hk. destruct (IH4 k Hk) as [[v Hv] | (o' & Hin & ->)].
    + destruct (Hback k v Hv) as [? | (-> & _)]; [by left; exists v |].
      right. exists o. split; [by left | done].
    + right. exists o'. split; [by right | done].
Qed.

(** X14. [updateItemsBeingStabilized] leaves every object it is given
    registered in the cache under its device-hash-metahash key.  It only ever
    adds entries saying that the item is being stabilized: an entry saying
    that an item has been stabilized is one that was there before, which the
    function does not overwrite.  Short of a reset no entry is lost or
    changed; a reset, which happens when the cache is larger than the limit
    or older than ten minutes, sets the time of the reset to now and leaves
    the keys of the objects given as the only entries.  The databases and
    the log are not touched. *)
Theorem updateItemsBeingStabilized_registers
    (W : World) (device : string) (objs : list ecObject) (e : Engine) :
  let e' := snd (ecEngine.updateItemsBeingStabilized W device objs e) in
  let reset :=
    (maxStableObjectCacheSize W <? Z.of_nat (size (stabItems e)))%Z
    || (10 * 60 * 1000000000 <? Now W - stabReset e)%Z in
  (forall o, In o objs ->
     is_Some (stabItems e' !! ecEngine.stab_key device (Hash o) (Metahash o)))
  /\ (forall k, stabItems e' !! k = Some false ->
        reset = false /\ stabItems e !! k = Some false)
  /\ (reset = false ->
        forall k v, stabItems e !! k = Some v -> stabItems e' !! k = Some v)
  /\ (reset = true ->
        forall k, is_Some (stabItems e' !! k)
                  <-> exists o, In o objs
                                /\ k = ecEngine.stab_key device (Hash o) (Metahash o))
  /\ stabReset e' = (if reset then Now W else stabReset e)
  /\ idbs e' = idbs e /\ log e' = log e /\ drawn e' = drawn e.
Proof.
  unfold ecEngine.updateItemsBeingStabilized. cbn [snd stabItems stabReset idbs log drawn].
  set (reset := (_ || _)).
  destruct (register_fold device objs (if reset then ∅ else stabItems e))
    as (H1 & H2 & H3 & H4).
  cbn zeta in *. repeat split; try done.
  - destruct reset; [| done]. apply H3 in H. by rewrite lookup_empty in H.
  - apply H3 in H. by destruct reset; [rewrite lookup_empty in H |].
  - intros ->. by exact H1.
  - intros Hk. subst reset. rewrite H in *. apply H4 in Hk as [[v Hv] | Hk]; [| done].
    by rewrite lookup_empty in Hv.
  - intros (o & Hin & ->). by apply H2.
Qed.

(** *** Notices of stabilization *)

Lemma getDB_hit (W : World) (device : string) (e : Engine) (db : IndexDB.t) :
  idbs e !! device = Some db -> getDB W device e = (Some db, e).
Proof. intros H. unfold getDB. by rewrite H. Qed.

Lemma getDB_kept (W : World) (device : string) (e e1 : Engine) (db : IndexDB.t) :
  getDB W device e = (Some db, e1) -> idbs e1 !! device = Some db.
Proof.
  unfold getDB. destruct (idbs e !! device) as [db0 |] eqn:Hdb.
  - by intros [= <- <-].
  - destruct (NewIndexDB W device); [| done]. intros [= <- <-]. cbn.
    apply lookup_insert_eq.
Qed.

(** X15. A notice that an item has been stabilized is acted on once.
    [UpdateItemStabilized(device, hash, mhash, true)] answers [true] unless
    the cache already says that the item has been stabilized, and it then
    records that; so a second notice for the same item is always refused, and
    a refused notice changes nothing.  Entries under other keys are never
    touched.  Taking the notice back, with [false], makes the next one
    welcome again. *)
Theorem UpdateItemStabilized_acts_once
    (device hash mhash : string) (e : Engine) :
  let k := ecEngine.stab_key device hash mhash in
  let first := ecEngine.UpdateItemStabilized device hash mhash true e in
  let again := ecEngine.UpdateItemStabilized device hash mhash true (snd first) in
  let undone := ecEngine.UpdateItemStabilized device hash mhash false (snd first) in
  (fst first = true <-> stabItems e !! k <> Some false)
  /\ (fst first = false -> snd first = e)
  /\ stabItems (snd first) !! k = Some false
  /\ (forall k', k' <> k -> stabItems (snd first) !! k' = stabItems e !! k')
  /\ again = (false, snd first)
  /\ fst undone = true
  /\ stabItems (snd undone) !! k = Some true
  /\ fst (ecEngine.UpdateItemStabilized device hash mhash true (snd undone)) = true.
Proof.
  cbn zeta. unfold ecEngine.UpdateItemStabilized. cbn [andb negb].
  destruct (stabItems e !! ecEngine.stab_key device hash mhash) as [[|] |] eqn:Hk;
    cbn [negb fst snd stabItems]; rewrite ?Hk, ?lookup_insert_eq; cbn [negb fst snd stabItems];
    rewrite ?lookup_insert_eq; cbn [negb fst snd];
    repeat split; try done.
  all: intros k' Hk'; by rewrite lookup_insert_ne.
Qed.


Lemma ecNurseryPostHandler_run (W : World) (vars : gmap string string)
    (e e1 : Engine) (db : IndexDB.t) (timestamp : Z) :
  getDB W (at_key vars "device") e = (Some db, e1) ->
  ParseInt (at_key vars "ts") = Some timestamp ->
  String.eqb (at_key vars "mhash") EmptyString = false ->
  let k := ecEngine.stab_key (at_key vars "device") (at_key vars "hash")
             (at_key vars "mhash") in
  let removal := IndexDB.Remove db (at_key vars "hash") 0 timestamp true
                   (at_key vars "mhash") in
  ecEngine.ecNurseryPostHandler W vars e
  = match stabItems e1 !! k with
    | Some false => (204%Z, e1)
    | _ =>
        (match snd (snd removal) with
         | Some _ => 500%Z
         | None => if (fst (snd removal) =? 0)%Z then 404%Z else 202%Z
         end,
         {| idbs := <[at_key vars "device" := fst removal]> (idbs e1);
            stabItems :=
              match snd (snd removal) with
              | Some _ => <[k := true]> (<[k := false]> (stabItems e1))
              | None => <[k := false]> (stabItems e1)
              end;
            stabReset := stabReset e1;
            log := (log e1 ++ [EvRemove (at_key vars "hash") 0 timestamp true
                                 (at_key vars "mhash")])%list;
            drawn := drawn e1 |})
    end.
Proof.
  intros Hdb Hts Hmhash. cbn zeta.
  unfold ecEngine.ecNurseryPostHandler. unfold mbind at 1, E_bind at 1.
  rewrite Hdb, Hts, Hmhash. unfold mbind at 1, E_bind at 1.
  unfold ecEngine.UpdateItemStabilized at 1. cbn [andb].
  destruct (stabItems e1 !! _) as [[|] |]; cbn [negb]; try done.
  all: unfold remove, ecEngine.UpdateItemStabilized;
    destruct (IndexDB.Remove db _ _ _ _ _) as [db' [rr [err |]]];
    unfold_E; cbn; try done; by destruct (rr =? 0)%Z.
Qed.

(** X16. The handler of [POST /ec-nursery/:device/:hash/:mhash/:ts] acts
    on a notice once.  It answers 400, 204, 202, 404 or 500 and calls
    [idb.Remove] at most once, for the hash in shard 0 with the nursery flag
    set, at the time and metadata hash of the route.  After an answer 202
    (row removed), 404 (no such row) or 204 (already known), the same
    notice is answered 204 without any call on the index database and
    without any change to the engine.  After an answer 500, the removal
    having failed, the cache is set back, so that the same notice is not
    answered 204 and the removal is tried again. *)
Theorem ecNurseryPostHandler_acts_on_a_notice_once
    (W : World) (vars : gmap string string) (e : Engine) :
  let first := ecEngine.ecNurseryPostHandler W vars e in
  let again := ecEngine.ecNurseryPostHandler W vars (snd first) in
  let removal timestamp :=
    EvRemove (at_key vars "hash") 0 timestamp true (at_key vars "mhash") in
  In (fst first) [400; 204; 202; 404; 500]%Z
  /\ (log (snd first) = log e
      \/ exists timestamp,
           ParseInt (at_key vars "ts") = Some timestamp
           /\ log (snd first) = (log e ++ [removal timestamp])%list)
  /\ (In (fst first) [202; 404; 204]%Z -> again = (204%Z, snd first))
  /\ (fst first = 204%Z -> log (snd first) = log e)
  /\ (fst first = 500%Z ->
        fst again <> 204%Z
        /\ exists timestamp,
             log (snd again) = (log (snd first) ++ [removal timestamp])%list).
Proof.
  cbn zeta.
  destruct (getDB_log W (at_key vars "device") e) as (Hlog & _).
  destruct (getDB W (at_key vars "device") e) as [[db |] e1] eqn:Hdb; cbn [snd] in Hlog.
  2: { assert (Hfirst : ecEngine.ecNurseryPostHandler W vars e = (400%Z, e1)).
       { unfold ecEngine.ecNurseryPostHandler. unfold mbind, E_bind. by rewrite Hdb. }
       rewrite Hfirst. cbn. by intuition (try done; try lia). }
  apply getDB_kept in Hdb as Hkept.
  destruct (ParseInt (at_key vars "ts")) as [timestamp |] eqn:Hts.
  2: { assert (Hfirst : ecEngine.ecNurseryPostHandler W vars e = (400%Z, e1)).
       { unfold ecEngine.ecNurseryPostHandler. unfold mbind, E_bind.
         by rewrite Hdb, Hts. }
       rewrite Hfirst. cbn. by intuition (try done; try lia). }
  destruct (String.eqb (at_key vars "mhash") EmptyString) eqn:Hmhash.
  { assert (Hfirst : ecEngine.ecNurseryPostHandler W vars e = (400%Z, e1)).
    { unfold ecEngine.ecNurseryPostHandler. unfold mbind, E_bind.
      by rewrite Hdb, Hts, Hmhash. }
    rewrite Hfirst. cbn. by intuition (try done; try lia). }
  rewrite (ecNurseryPostHandler_run W vars e e1 db timestamp Hdb Hts Hmhash).
  cbn zeta.
  set (k := ecEngine.stab_key (at_key vars "device") (at_key vars "hash")
              (at_key vars "mhash")).
  assert (Hknown : forall e2 db2,
             idbs e2 !! at_key vars "device" = Some db2 ->
             stabItems e2 !! k = Some false ->
             ecEngine.ecNurseryPostHandler W vars e2 = (204%Z, e2)).
  { intros e2 db2 Hdb2 Hk2.
    rewrite (ecNurseryPostHandler_run W vars e2 e2 db2 timestamp
               (getDB_hit W _ e2 db2 Hdb2) Hts Hmhash).
    cbn zeta. fold k. by rewrite Hk2. }
  destruct (stabItems e1 !! k) as [[|] |] eqn:Hk.
  2: { cbn [fst snd]. rewrite (Hknown e1 db Hkept Hk), Hlog. cbn [In].
       by intuition (try done; try lia). }
  all: destruct (IndexDB.Remove db (at_key vars "hash") 0 timestamp true
                   (at_key vars "mhash")) as [db' [rr [err |]]] eqn:Hrem;
    cbn [fst snd log]; rewrite Hlog.
  1, 3: (* the removal failed *)
    split; [cbn; by auto 10 |]; split; [right; by exists timestamp |];
    split; [cbn; by intuition lia |]; split; [done |]; intros _;
    match goal with
    | |- context [ecEngine.ecNurseryPostHandler ?W0 ?vars0 ?e2] =>
        rewrite (ecNurseryPostHandler_run W0 vars0 e2 e2 db' timestamp
                   (getDB_hit W0 _ e2 db' (lookup_insert_eq _ _ _)) Hts Hmhash)
    end;
    cbn zeta; fold k; cbn [stabItems]; rewrite lookup_insert_eq;
    destruct (IndexDB.Remove db' _ _ _ _ _) as [db'' [rr' [err' |]]];
    cbn [fst snd log]; (split; [| by exists timestamp]);
    [done | by destruct (rr' =? 0)%Z].
  all: (* the removal went through *)
    split; [destruct (rr =? 0)%Z; cbn; by auto 10 |];
    split; [right; by exists timestamp |];
    split; [| split; [by destruct (rr =? 0)%Z | by destruct (rr =? 0)%Z]];
    intros _; apply (Hknown _ db'); cbn [idbs stabItems]; apply lookup_insert_eq.
Qed.

(** *** Deleting a stable row on behalf of a peer *)

(** X17. [ecShardDeleteHandler], having found the row of the shard, wants
    a parsable [X-Timestamp] strictly newer than the timestamp of the row:
    without a parsable date it answers 400, with a time that is not newer it
    answers 409, and in both cases it leaves the index database alone.  With
    a newer time it calls [idb.Remove] once, with the hash, shard, timestamp,
    nursery flag and metadata hash of the row it found, and answers 204, or
    500 when the removal fails. *)
Theorem ecShardDeleteHandler_wants_a_newer_timestamp
    (W : World) (vars header : gmap string string) (e e1 : Engine)
    (db : IndexDB.t) (shardIndex : Z) (it : IndexDBItem) :
  getDB W (at_key vars "device") e = (Some db, e1) ->
  ParseInt (at_key vars "index") = Some shardIndex ->
  IndexDB.Lookup db (at_key vars "hash") shardIndex true = (Some it, None) ->
  let run := ecEngine.ecShardDeleteHandler W vars header e in
  let removal := IndexDB.Remove db (Hash it) (Shard it) (Timestamp it) (Nursery it)
                   (Metahash it) in
  match ParseDate (codec W) (at_key header "X-Timestamp") with
  | None => run = (400%Z, e1)
  | Some timestamp =>
      ((timestamp <= Timestamp it)%Z -> run = (409%Z, e1))
      /\ ((Timestamp it < timestamp)%Z ->
            fst run = match snd (snd removal) with Some _ => 500%Z | None => 204%Z end
            /\ log (snd run)
               = (log e1 ++ [EvRemove (Hash it) (Shard it) (Timestamp it) (Nursery it)
                               (Metahash it)])%list
            /\ idbs (snd run) = <[at_key vars "device" := fst removal]> (idbs e1)
            /\ stabItems (snd run) = stabItems e1)
  end.
Proof.
  intros Hdb Hindex Hlook. cbn zeta.
  unfold ecEngine.ecShardDeleteHandler. unfold mbind, E_bind.
  rewrite Hdb, Hindex, Hlook.
  destruct (ParseDate (codec W) (at_key header "X-Timestamp")) as [timestamp |];
    [| done].
  split; intros Hts.
  - by replace (timestamp <=? Timestamp it)%Z with true by (symmetry; apply Z.leb_le; lia).
  - replace (timestamp <=? Timestamp it)%Z with false by (symmetry; apply Z.leb_gt; lia).
    unfold remove. destruct (IndexDB.Remove db _ _ _ _ _) as [db' [rr [err |]]];
      by unfold_E.
Qed.

(** X18. [deleteStableObject], having found the row, refuses with 409 only
    a request whose time is strictly older than the timestamp of the row: a
    request carrying that very timestamp removes the row, where the handler
    of the erasure-code engine answers 409.  And a request whose
    [X-Timestamp] does not parse is answered 400 but not dropped: the handler
    goes on with the time the parser returned along with its error, and
    removes the row unless that time is older than the row. *)
Theorem deleteStableObject_outcomes
    (W : World) (re : repEngine.t) (errTime : Z) (vars header : gmap string string)
    (e e1 : Engine) (db : IndexDB.t) (it : IndexDBItem) :
  getDB W (at_key vars "device") e = (Some db, e1) ->
  IndexDB.Lookup db (at_key vars "hash") roShard true = (Some it, None) ->
  let run := repEngine.deleteStableObject W re errTime vars header e in
  let removal := IndexDB.Remove db (Hash it) (Shard it) (Timestamp it) (Nursery it)
                   (Metahash it) in
  let answer := match snd (snd removal) with Some _ => 500%Z | None => 204%Z end in
  let removed :=
    log (snd run)
    = (log e1 ++ [EvRemove (Hash it) (Shard it) (Timestamp it) (Nursery it)
                    (Metahash it)])%list
    /\ idbs (snd run) = <[at_key vars "device" := fst removal]> (idbs e1) in
  match ParseDate (codec W) (at_key header "X-Timestamp") with
  | Some timestamp =>
      ((timestamp < Timestamp it)%Z -> run = ([409%Z], e1))
      /\ ((Timestamp it <= timestamp)%Z -> fst run = [answer] /\ removed)
  | None =>
      ((errTime < Timestamp it)%Z -> run = ([400%Z; 409%Z], e1))
      /\ ((Timestamp it <= errTime)%Z -> fst run = [400%Z; answer] /\ removed)
  end.
Proof.
  intros Hdb Hlook. cbn zeta.
  unfold repEngine.deleteStableObject. unfold mbind, E_bind.
  rewrite Hdb.
  destruct (ParseDate (codec W) (at_key header "X-Timestamp")) as [timestamp |];
    rewrite Hlook; (split; intros Hts).
  1, 3: by match goal with
           | |- context [(?a <? ?b)%Z] =>
               replace (a <? b)%Z with true by (symmetry; apply Z.ltb_lt; lia)
           end.
  all: match goal with
       | |- context [(?a <? ?b)%Z] =>
           replace (a <? b)%Z with false by (symmetry; apply Z.ltb_ge; lia)
       end;
    unfold remove; destruct (IndexDB.Remove db _ _ _ _ _) as [db' [rr [err |]]];
    by unfold_E.
Qed.

(** *** When the candidates cannot be listed *)

(** X19. [getObjectsToStabilize] sends nothing, in either engine, when the
    database of the device does not open, and then nothing has been done at
    all; and it sends nothing when the database opens but the listing of the
    candidates fails.  In that case the old tombstones have been expired all
    the same, the expiry coming first, and the erasure-code engine has
    neither touched its cache nor drawn from the random source. *)
Theorem getObjectsToStabilize_failures
    (W : World) (re : repEngine.t) (f : ecEngine.t) (device : Device) (e : Engine) :
  let rep := repEngine.getObjectsToStabilize W re device e in
  let ec := ecEngine.getObjectsToStabilize W f device e in
  match getDB W (Dev device) e with
  | (None, _) => rep = ([], e) /\ ec = ([], e)
  | (Some db, e1) =>
      snd (IndexDB.ListObjectsToStabilize (IndexDB.ExpireObjects (codec W) db)) <> None ->
      fst rep = [] /\ fst ec = [] /\ snd ec = snd rep
      /\ log (snd rep) = (log e ++ [EvExpire])%list
      /\ idbs (snd rep) !! Dev device = Some (IndexDB.ExpireObjects (codec W) db)
      /\ stabItems (snd ec) = stabItems e
      /\ drawn (snd ec) = drawn e
  end.
Proof.
  cbn zeta. unfold repEngine.getObjectsToStabilize, ecEngine.getObjectsToStabilize.
  unfold mbind, E_bind.
  destruct (getDB_log W (Dev device) e) as (Hlog & Hstab & _ & Hdrawn).
  destruct (getDB W (Dev device) e) as [[db |] e1] eqn:Hdb; cbn [snd] in *.
  2: { apply getDB_failure in Hdb as ->. by unfold mret, E_ret. }
  unfold expire. unfold_E. cbn.
  destruct (IndexDB.ListObjectsToStabilize (IndexDB.ExpireObjects (codec W) db))
    as [idbItems [err |]]; [| done].
  intros _. cbn. rewrite Hlog, Hstab, Hdrawn. repeat split; try done.
  apply lookup_insert_eq.
Qed.

(** *** The listing served to a peer *)

(** X20. [listPartitionHandler] answers 200, 400 or 500, with a body exactly
    when it answers 200.  The body is the rows of the database of the device
    of the route, listed over the hash range of the partition of the route
    with no marker and no limit, which is the very listing
    [GetObjectsToReplicate] makes of its own rows, marshalled.  It answers 400
    exactly when the database does not open or the partition is no number,
    and it never changes a row, the cache or the log. *)
Theorem listPartitionHandler_serves_the_listing
    (W : World) (MarshalItems : list IndexDBItem -> option string)
    (vars : gmap string string) (e : Engine) :
  exists (code : Z) (body : option string) (e' : Engine),
    listPartitionHandler W MarshalItems vars e = ((code, body), e')
    /\ In code [200; 400; 500]%Z
    /\ (code = 200%Z <-> body <> None)
    /\ (forall data, body = Some data ->
          exists db part items,
            idbs e' !! at_key vars "device" = Some db
            /\ ParseInt (at_key vars "partition") = Some part
            /\ IndexDB.List db (fst (RingPartRange (codec W) part))
                 (snd (RingPartRange (codec W) part)) EmptyString 0 = (items, None)
            /\ MarshalItems items = Some data)
    /\ (code = 400%Z
        <-> fst (getDB W (at_key vars "device") e) = None
            \/ ParseInt (at_key vars "partition") = None)
    /\ e' = snd (getDB W (at_key vars "device") e)
    /\ log e' = log e /\ stabItems e' = stabItems e.
Proof.
  unfold listPartitionHandler. unfold mbind, E_bind.
  destruct (getDB_log W (at_key vars "device") e) as (Hlog & Hstab & _).
  destruct (getDB W (at_key vars "device") e) as [[db |] e1] eqn:Hdb; cbn [fst snd] in *.
  2: { eexists _, _, _. split; [reflexivity |]. cbn [In].
       by intuition (try done; try lia). }
  apply getDB_kept in Hdb as Hkept.
  destruct (ParseInt (at_key vars "partition")) as [part |] eqn:Hpart.
  2: { eexists _, _, _. split; [reflexivity |]. cbn [In].
       by intuition (try done; try lia). }
  destruct (RingPartRange (codec W) part) as [startHash stopHash] eqn:Hrange.
  destruct (IndexDB.List db startHash stopHash EmptyString 0) as [items [err |]] eqn:Hlist.
  { eexists _, _, _. split; [reflexivity |]. cbn [In].
    by intuition (try done; try lia). }
  destruct (MarshalItems items) as [data |] eqn:Hdata.
  2: { eexists _, _, _. split; [reflexivity |]. cbn [In].
       by intuition (try done; try lia). }
  eexists _, _, _. split; [reflexivity |]. cbn [In].
  split; [by auto |]. split; [done |]. split.
  - intros data' [= <-]. exists db, part, items. by rewrite Hrange.
  - by intuition (try done; try lia).
Qed.

(** *** The orders the shuffle can produce *)

Lemma shuffle_from_ext {A} (W : World) (r1 r2 : nat -> Z) (i : nat) :
  forall (k : nat) (objs : list A),
  (forall n, k <= n -> r1 n = r2 n) ->
  shuffle_from (with_rand W r1) i k objs = shuffle_from (with_rand W r2) i k objs.
Proof.
  induction i as [| i IH]; intros k objs Hr; [done |].
  cbn [shuffle_from]. unfold Intn. cbn [rand with_rand].
  rewrite (Hr k) by lia. apply IH. intros n Hn. apply Hr. lia.
Qed.

Lemma swap_drop {A} (objs : list A) (j i : nat) (x : A) :
  j <= i -> objs !! j = Some x -> i < length objs ->
  drop i (swap objs j i) = x :: drop (S i) objs.
Proof.
  intros Hj Hx Hi. unfold swap.
  destruct (lookup_lt_is_Some_2 objs i Hi) as [oi Hoi]. rewrite Hoi, Hx.
  assert (Hat : <[j := oi]> (<[i := x]> objs) !! i = Some x).
  { destruct (decide (j = i)) as [-> | Hne].
    - rewrite Hoi in Hx. injection Hx as ->.
      rewrite list_lookup_insert_eq; [done |]. by rewrite length_insert.
    - rewrite list_lookup_insert_ne by done.
      by rewrite list_lookup_insert_eq. }
  rewrite (drop_S _ _ _ Hat). f_equal.
  by rewrite !drop_insert_lt by lia.
Qed.

Lemma same_tail_same_head {A} (a b : A) (t : list A) :
  a :: t ≡ₚ b :: t -> a = b.
Proof.
  intros H. change ([a] ++ t ≡ₚ [b] ++ t) in H.
  apply Permutation_app_inv_r in H. by apply Permutation_singleton_inj in H.
Qed.

Lemma shuffle_from_complete {A} (W : World) (i : nat) :
  forall (k : nat) (objs target : list A),
  i < length objs ->
  objs ≡ₚ target ->
  drop (S i) objs = drop (S i) target ->
  exists r : nat -> Z, shuffle_from (with_rand W r) i k objs = target.
Proof.
  induction i as [| i IH]; intros k objs target Hi Hperm Htail.
  - exists (fun _ => 0%Z). cbn.
    apply Permutation_length in Hperm as Hlen.
    destruct objs as [| a objs]; [cbn in Hi; lia |].
    destruct target as [| b target]; [done |].
    simpl in Htail. rewrite ?drop_0 in Htail. subst target.
    f_equal. by apply same_tail_same_head in Hperm.
  - apply Permutation_length in Hperm as Hlen.
    destruct (lookup_lt_is_Some_2 target (S i)) as [x Hx]; [lia |].
    assert (Hhead : take (S (S i)) objs ≡ₚ take (S (S i)) target).
    { rewrite <- (take_drop (S (S i)) objs), <- (take_drop (S (S i)) target) in Hperm.
      rewrite Htail in Hperm. by apply Permutation_app_inv_r in Hperm. }
    assert (Hin : x ∈ take (S (S i)) objs).
    { rewrite Hhead. apply list_elem_of_lookup. exists (S i).
      rewrite lookup_take_lt by lia. done. }
    apply list_elem_of_lookup in Hin as (j & Hj).
    apply lookup_lt_Some in Hj as Hjlt. rewrite length_take in Hjlt.
    rewrite lookup_take_lt in Hj by lia.
    destruct (IH (S k) (swap objs j (S i)) target) as (r' & Hr').
    + rewrite (Permutation_length (swap_Permutation objs j (S i))). lia.
    + by rewrite swap_Permutation.
    + rewrite (swap_drop objs j (S i) x) by (done || lia).
      rewrite Htail. symmetry. by apply drop_S.
    + exists (fun n => if (n =? k)%nat then Z.of_nat j else r' n).
      cbn [shuffle_from].
      replace (Intn _ k (Z.of_nat (S i) + 1)) with j.
      * rewrite <- Hr'. apply shuffle_from_ext. intros n Hn.
        destruct (Nat.eqb_spec n k); [lia | done].
      * unfold Intn. cbn [rand with_rand]. rewrite Nat.eqb_refl.
        rewrite Z.mod_small by lia. by rewrite Nat2Z.id.
Qed.

(** X21. The shuffle of [ecEngine.getObjectsToStabilize] can produce every
    order: when the database of the device opens and lists, for every
    arrangement of the candidates with readable metadata there is a random
    source with which the engine sends them in exactly that arrangement. *)
Theorem ec_getObjectsToStabilize_reaches_every_order
    (W : World) (f : ecEngine.t) (device : Device) (e e1 : Engine) (db : IndexDB.t)
    (idbItems : list IndexDBItem) (target : list ecObject) :
  getDB W (Dev device) e = (Some db, e1) ->
  IndexDB.ListObjectsToStabilize (IndexDB.ExpireObjects (codec W) db)
  = (idbItems, None) ->
  ecEngine.stabilize_objects W f idbItems ≡ₚ target ->
  exists r : nat -> Z,
    fst (ecEngine.getObjectsToStabilize (with_rand W r) f device e) = target.
Proof.
  intros Hdb Hlist Hperm.
  assert (Hrun : forall r,
             fst (ecEngine.getObjectsToStabilize (with_rand W r) f device e)
             = shuffle (with_rand W r) (drawn e1) (ecEngine.stabilize_objects W f idbItems)).
  { intros r. unfold ecEngine.getObjectsToStabilize, expire,
      ecEngine.updateItemsBeingStabilized, shuffled. unfold_E.
    change (getDB (with_rand W r) (Dev device) e) with (getDB W (Dev device) e).
    rewrite Hdb. cbn [codec with_rand]. cbn. rewrite Hlist. cbn. reflexivity. }
  revert Hperm Hrun. generalize (ecEngine.stabilize_objects W f idbItems).
  intros objs Hperm Hrun. destruct objs as [| o objs].
  - exists (fun _ => 0%Z). rewrite Hrun. by apply Permutation_nil in Hperm as ->.
  - destruct (shuffle_from_complete W (length (o :: objs) - 1) (drawn e1) (o :: objs)
                target) as (r & Hr); [cbn; lia | done | |].
    + apply Permutation_length in Hperm as Hlen.
      rewrite !drop_ge; [done | cbn in *; lia | cbn; lia].
    + exists r. by rewrite Hrun.
Qed.

(** *** The theorems at work on the small cluster, continued *)

Lemma stabilize_restabilize_quorum_witness :
  fst (Stabilize (fakeWorld peers_agree all_files) (object_of tombstone2) drive1
         (state_of [tombstone2])) = None
  /\ trace (snd (Stabilize (fakeWorld peers_agree all_files) (object_of tombstone2)
                   drive1 (state_of [tombstone2])))
     = [ EvHTTP (postRequest (object_of tombstone2) drive2);
         EvHTTP (postRequest (object_of tombstone2) drive3);
         EvSetStabilized hash1 0 1000 false ].
Proof.
  destruct (stabilize_restabilize_quorum (fakeWorld peers_agree all_files)
              (object_of tombstone2) drive1 0 (state_of [tombstone2])
              eq_refl eq_refl) as [H _].
  rewrite H. split; reflexivity.
Defined.

Lemma broadcast_from_a_handoff_device_fails_on_full_acknowledgement_witness :
  Stabilize (fakeWorld peers_agree all_files) (object_of tombstone1) drive0
    (state_of [tombstone1])
  = (Some (ErrStabilizeDelete 3 2),
     {| idb := db_of [tombstone1];
        trace := map (fun node => EvHTTP (deleteRequest (object_of tombstone1) node))
                   [drive1; drive2; drive3] |}).
Proof.
  assert (Hoff : forall node,
             In node (GetNodes (ring (fakeWorld peers_agree all_files)) 0) ->
             sameDevice node drive0 = false).
  { intros node [<- | [<- | [<- | []]]]; reflexivity. }
  destruct (broadcast_from_a_handoff_device_fails_on_full_acknowledgement
              (fakeWorld peers_agree all_files) (object_of tombstone1) drive0 0
              (state_of [tombstone1]) eq_refl Hoff) as [H _].
  exact (H eq_refl eq_refl eq_refl (fun node _ => eq_refl)).
Defined.

Lemma stabilize_pushes_to_every_disagreeing_peer_witness :
  exists (err : error) (s' : State),
    Stabilize (fakeWorld peers_without_the_object all_files) obj1 drive1
      (state_of [row1]) = (Some err, s')
    /\ replicate_calls (trace s')
       = [push_job obj1 drive1 0 drive2; push_job obj1 drive1 0 drive3]
    /\ idb s' = db_of [row1].
Proof.
  assert (Hcount : Z.of_nat (length (good_nodes
                      (fakeWorld peers_without_the_object all_files) obj1 drive1 0
                      (GetNodes (ring (fakeWorld peers_without_the_object all_files)) 0)))
                   <> ReplicaCount (ring (fakeWorld peers_without_the_object all_files))).
  { by vm_compute. }
  destruct (stabilize_pushes_to_every_disagreeing_peer
              (fakeWorld peers_without_the_object all_files) obj1 drive1 0
              (state_of [row1]) eq_refl eq_refl eq_refl eq_refl Hcount)
    as (err & s' & H1 & H2 & _ & H4).
  exists err, s'. split; [exact H1 |]. split; [exact H2 | exact (H4 eq_refl)].
Defined.

Lemma isStable_counts_every_primary_once_witness :
  exists (stable : bool) (notFoundNodes : list Device) (s' : State),
    isStable (fakeWorld peers_but_drive3 all_files) obj1 drive1 (state_of [row1])
    = ((stable, notFoundNodes, None), s')
    /\ idb s' = db_of [row1]
    /\ (stable = true <-> (3 - Z.of_nat (length notFoundNodes) = 3)%Z).
Proof.
  destruct (isStable_counts_every_primary_once (fakeWorld peers_but_drive3 all_files)
              obj1 drive1 0 (state_of [row1]) eq_refl eq_refl)
    as (stable & nf & s' & H1 & H2 & _ & H4 & _).
  exists stable, nf, s'. split; [exact H1 |]. split; [exact H2 | exact H4].
Defined.

Lemma commit_entry_points_witness :
  trace (snd (Commit (fakeWorld peers_agree all_files) (object_of stable1) meta1
                (state_of [stable1])))
  = [EvCommit hash1 0 1000 "PUT" true]
  /\ trace (snd (CommitMetadata (fakeWorld peers_agree all_files) (object_of stable1)
                   meta1 (state_of [stable1])))
     = [EvCommit hash1 0 1000 "POST" false].
Proof.
  pose proof (commit_entry_points (fakeWorld peers_agree all_files) (object_of stable1)
                meta1 (state_of [stable1]) "1000" eq_refl) as H.
  assert (Hd : ParseDate (codec (fakeWorld peers_agree all_files)) "1000" = Some 1000%Z)
    by reflexivity.
  rewrite Hd in H. cbv zeta beta in H. destruct H as ((Hc & _) & _ & (Hm & _)).
  rewrite Hc, Hm. split; reflexivity.
Defined.

Lemma GetObjectsToReplicate_never_withholds_a_missing_row_witness :
  located (listingWorld [stable2; stable1])
    <$> missing_on_remote (listingWorld [stable2; stable1]) [stable1; stable2]
          [stable2; stable1]
    `sublist_of`
    item <$> fst (repEngine.GetObjectsToReplicate (listingWorld [stable2; stable1]) re0
                    job12 (engine_of [stable1; stable2]))
  /\ Forall (fun it => Nursery it = false)
       (ec_item <$> fst (ecEngine.GetObjectsToReplicate (listingWorld [stable2; stable1])
                           f0 job12 (engine_of [stable1; stable2]))).
Proof.
  destruct (GetObjectsToReplicate_never_withholds_a_missing_row
              (listingWorld [stable2; stable1]) re0 f0 job12
              (engine_of [stable1; stable2]) (engine_of [stable1; stable2])
              (db_of [stable1; stable2]) [stable1; stable2] None
              {| StatusCode := 200; Header := ∅; Body := Some "[...]" |}
              {| StatusCode := 200; Header := ∅; Body := Some "[...]" |}
              eq_refl eq_refl eq_refl eq_refl)
    as [(H1 & _) (_ & _ & H2)].
  split; [exact H1 | exact H2].
Defined.

Lemma GetObjectsToReplicate_sends_all_to_a_failing_peer_witness :
  item <$> fst (repEngine.GetObjectsToReplicate (fakeWorld failing_peers all_files) re0
                  job12 (engine_of [stable1; stable2]))
  = [stable1; stable2]
  /\ ec_item <$> fst (ecEngine.GetObjectsToReplicate (fakeWorld failing_peers all_files)
                        f0 job12 (engine_of [stable1; stable2]))
     = [stable1; stable2].
Proof.
  destruct (GetObjectsToReplicate_sends_all_to_a_failing_peer
              (fakeWorld failing_peers all_files) re0 f0 job12
              (engine_of [stable1; stable2]) (engine_of [stable1; stable2])
              (db_of [stable1; stable2]) [stable1; stable2] None eq_refl eq_refl
              (fun route => ex_intro _ _ (conj eq_refl (or_introl eq_refl))))
    as [Hrep Hec].
  split; [exact Hrep | exact Hec].
Defined.

Lemma ecShardDeleteHandler_wants_a_newer_timestamp_witness :
  ecEngine.ecShardDeleteHandler (fakeWorld peers_agree all_files) vars_shard0 header1000
    (engine_of [stable1])
  = (409%Z, engine_of [stable1]).
Proof.
  pose proof (ecShardDeleteHandler_wants_a_newer_timestamp
                (fakeWorld peers_agree all_files) vars_shard0 header1000
                (engine_of [stable1]) (engine_of [stable1]) (db_of [stable1]) 0 stable1
                eq_refl eq_refl eq_refl) as H.
  assert (Hd : ParseDate (codec (fakeWorld peers_agree all_files))
                 (at_key header1000 "X-Timestamp") = Some 1000%Z) by reflexivity.
  rewrite Hd in H. destruct H as [H _]. apply H. cbn. lia.
Defined.

Lemma deleteStableObject_outcomes_witness :
  fst (repEngine.deleteStableObject (fakeWorld peers_agree all_files) re0 5000 vars1
         header1000 (engine_of [stable1])) = [204%Z]
  /\ fst (repEngine.deleteStableObject (fakeWorld peers_agree all_files) re0 5000 vars1
            ∅ (engine_of [stable1])) = [400%Z; 204%Z].
Proof.
  pose proof (deleteStableObject_outcomes (fakeWorld peers_agree all_files) re0 5000
                vars1 header1000 (engine_of [stable1]) (engine_of [stable1])
                (db_of [stable1]) stable1 eq_refl eq_refl) as H.
  pose proof (deleteStableObject_outcomes (fakeWorld peers_agree all_files) re0 5000
                vars1 ∅ (engine_of [stable1]) (engine_of [stable1])
                (db_of [stable1]) stable1 eq_refl eq_refl) as H'.
  assert (Hd : ParseDate (codec (fakeWorld peers_agree all_files))
                 (at_key header1000 "X-Timestamp") = Some 1000%Z) by reflexivity.
  assert (Hd' : ParseDate (codec (fakeWorld peers_agree all_files))
                  (at_key ∅ "X-Timestamp") = None) by reflexivity.
  rewrite Hd in H. rewrite Hd' in H'.
  destruct H as [_ H]. destruct H' as [_ H'].
  split.
  - apply H. cbn. lia.
  - apply H'. cbn. lia.
Defined.

Lemma ec_getObjectsToStabilize_reaches_every_order_witness :
  exists r : nat -> Z,
    ec_item <$> fst (ecEngine.getObjectsToStabilize
                       (with_rand (fakeWorld peers_agree all_files) r) f0 drive1
                       (engine_of [row1; row2]))
    = [row2; row1].
Proof.
  destruct (ec_getObjectsToStabilize_reaches_every_order
              (fakeWorld peers_agree all_files) f0 drive1
              (engine_of [row1; row2]) (engine_of [row1; row2]) (db_of [row1; row2])
              [row1; row2]
              (reverse (ecEngine.stabilize_objects (fakeWorld peers_agree all_files) f0
                          [row1; row2]))
              eq_refl eq_refl (Permutation_sym (reverse_Permutation _)))
    as [r Hr].
  exists r. rewrite Hr. reflexivity.
Defined.

Lemma ecNurseryPostHandler_acts_on_a_notice_once_witness :
  fst (ecEngine.ecNurseryPostHandler (fakeWorld peers_agree all_files) vars_notice
         (engine_of [row1])) = 202%Z
  /\ ecEngine.ecNurseryPostHandler (fakeWorld peers_agree all_files) vars_notice
       (snd (ecEngine.ecNurseryPostHandler (fakeWorld peers_agree all_files) vars_notice
               (engine_of [row1])))
     = (204%Z,
        snd (ecEngine.ecNurseryPostHandler (fakeWorld peers_agree all_files) vars_notice
               (engine_of [row1]))).
Proof.
  destruct (ecNurseryPostHandler_acts_on_a_notice_once
              (fakeWorld peers_agree all_files) vars_notice (engine_of [row1]))
    as (_ & _ & H & _).
  split; [reflexivity |]. apply H. by left.
Defined.

Lemma engines_send_the_same_rows_witness :
  ec_item <$> fst (ecEngine.GetObjectsToReplicate (listingWorld [stable1]) f0 job12
                     (engine_of [stable1; stable2]))
  = item <$> fst (repEngine.GetObjectsToReplicate (listingWorld [stable1]) re0 job12
                    (engine_of [stable1; stable2])).
Proof.
  destruct (engines_send_the_same_rows (listingWorld [stable1]) re0 f0 job12
              (engine_of [stable1; stable2]) eq_refl) as [H _].
  exact H.
Defined.
